(** * Veyra backend: streaks, week boundaries, verification and leaderboards

    A shallow embedding of the scoring core of the Veyra backend
    (Express + Mongoose, TypeScript) and the properties proved about it.

    Conventions of the embedding.
    - A JavaScript [Date] is its time value: an integer number of
      milliseconds since the epoch ([Z]).  The ECMAScript abstract
      operations ([Day], [TimeWithinDay], [WeekDay], [MakeTime],
      [MakeDate], ...) are written out as the language standard defines
      them.  Time values are mathematical integers: the range limit of
      [TimeClip] (8.64e15 ms either side of the epoch) and invalid dates
      are outside the model.
    - Local-time methods ([setHours], [getDay], [setDate]) depend on the
      host time zone; it is a parameter [LocalTZA], a constant offset in
      milliseconds (a host without daylight-saving transitions, such as a
      server running in UTC).
    - Streak counters are integers ([Z]); scores and multipliers are
      rationals ([Q]), so [0.12] is [12 # 100].  For integer scores and
      streaks the rational value is the one the double computation
      rounds to.
    - A Mongoose collection is the list of its documents in natural
      order; [findOne] returns the first match.
    - The values a handler takes from its environment ([new Date()], the
      [_id] generated for a new document, the outcome of each awaited
      write) are explicit arguments.
    - A request body is modelled at the types its handler expects:
      strings for text, a number or nothing for a score.  A body with a
      field of another JSON type is outside the model. *)

From Stdlib Require Import ZArith QArith Qround Qminmax Lia Lqa.
From Stdlib Require Import List String Ascii Bool Sorted Permutation.
Import ListNotations.
Open Scope Z_scope.

(** ** ECMAScript Date operations *)

Module JsDate.

Definition msPerDay : Z := 86400000.
Definition msPerHour : Z := 3600000.
Definition msPerMinute : Z := 60000.
Definition msPerSecond : Z := 1000.

Definition Day (t : Z) : Z := t / msPerDay.
Definition TimeWithinDay (t : Z) : Z := t mod msPerDay.

(** 1 January 1970 was a Thursday (4). *)
Definition WeekDay (t : Z) : Z := (Day t + 4) mod 7.

Definition HourFromTime (t : Z) : Z := (t / msPerHour) mod 24.
Definition MinFromTime (t : Z) : Z := (t / msPerMinute) mod 60.
Definition SecFromTime (t : Z) : Z := (t / msPerSecond) mod 60.
Definition msFromTime (t : Z) : Z := t mod msPerSecond.

Definition MakeTime (hour min sec ms : Z) : Z :=
  hour * msPerHour + min * msPerMinute + sec * msPerSecond + ms.

Definition MakeDate (day time : Z) : Z := day * msPerDay + time.

(** Proleptic Gregorian calendar: year, month (1..12) and day of the
    month of a day number. *)
Definition civilFromDays (z : Z) : Z * Z * Z :=
  let z := z + 719468 in
  let era := z / 146097 in
  let doe := z - era * 146097 in
  let yoe := (doe - doe / 1460 + doe / 36524 - doe / 146096) / 365 in
  let doy := doe - (365 * yoe + yoe / 4 - yoe / 100) in
  let mp := (5 * doy + 2) / 153 in
  let d := doy - (153 * mp + 2) / 5 + 1 in
  let m := if mp <? 10 then mp + 3 else mp - 9 in
  (if m <=? 2 then yoe + era * 400 + 1 else yoe + era * 400, m, d).

Definition DateFromTime (t : Z) : Z := snd (civilFromDays (Day t)).

(** [MakeDay(YearFromTime(t), MonthFromTime(t), date)]: the day number of
    the first day of [t]'s month, plus [date - 1]. *)
Definition MakeDayInMonthOf (t date : Z) : Z :=
  Day t - (DateFromTime t - 1) + date - 1.

(** *** UTC methods *)

Definition getUTCDay (t : Z) : Z := WeekDay t.
Definition getUTCDate (t : Z) : Z := DateFromTime t.

Definition setUTCHours (t hour min sec ms : Z) : Z :=
  MakeDate (Day t) (MakeTime hour min sec ms).

Definition setUTCDate (t date : Z) : Z :=
  MakeDate (MakeDayInMonthOf t date) (TimeWithinDay t).

Definition setUTCMilliseconds (t ms : Z) : Z :=
  MakeDate (Day t)
           (MakeTime (HourFromTime t) (MinFromTime t) (SecFromTime t) ms).

(** *** Local-time methods, for a host at a constant offset from UTC *)

Section LocalTime.

Variable LocalTZA : Z.

Definition LocalTime (t : Z) : Z := t + LocalTZA.
Definition UTC (t : Z) : Z := t - LocalTZA.

Definition getDay (t : Z) : Z := WeekDay (LocalTime t).
Definition getDate (t : Z) : Z := DateFromTime (LocalTime t).

Definition setHours (t hour min sec ms : Z) : Z :=
  UTC (MakeDate (Day (LocalTime t)) (MakeTime hour min sec ms)).

Definition setDate (t date : Z) : Z :=
  UTC (MakeDate (MakeDayInMonthOf (LocalTime t) date)
                (TimeWithinDay (LocalTime t))).

End LocalTime.

End JsDate.

(** ** src/services/week.service.ts *)

Module WeekService.

Import JsDate.

(** [WeekBoundaries] of src/types/index.ts; the fields are [start] and
    [end] there. *)
Record WeekBoundaries : Type := mkWeekBoundaries
  { wb_start : Z; wb_end : Z }.

Definition getWeekBoundaries (date weekStartDay : Z) : WeekBoundaries :=
  let d := setUTCHours date 0 0 0 0 in
  let currentDay := getUTCDay d in
  let daysSinceStart := currentDay - weekStartDay in
  let daysSinceStart :=
    if daysSinceStart <? 0 then daysSinceStart + 7 else daysSinceStart in
  let weekStart := setUTCDate d (getUTCDate d - daysSinceStart) in
  let weekStart := setUTCHours weekStart 0 0 0 0 in
  let weekEnd := setUTCDate weekStart (getUTCDate weekStart + 7) in
  let weekEnd := setUTCMilliseconds weekEnd (-1) in
  {| wb_start := weekStart; wb_end := weekEnd |}.

(** [now] is the value of [new Date()]. *)
Definition getCurrentWeekBoundaries (now weekStartDay : Z) : WeekBoundaries :=
  getWeekBoundaries now weekStartDay.

End WeekService.

(** ** src/utils: date helpers and the streak multiplier *)

Module Helpers.

Import JsDate.

Section HostTimeZone.

Variable LocalTZA : Z.

(** The helper returns [{ weekStart, weekEnd }], in local time. *)
Definition getWeekBoundaries (date weekStartDay : Z) : Z * Z :=
  let d := date in
  let currentDay := getDay LocalTZA d in
  let daysToSubtract := currentDay - weekStartDay in
  let daysToSubtract :=
    if daysToSubtract <? 0 then daysToSubtract + 7 else daysToSubtract in
  let weekStart := setDate LocalTZA d (getDate LocalTZA d - daysToSubtract) in
  let weekStart := setHours LocalTZA weekStart 0 0 0 0 in
  let weekEnd := setDate LocalTZA weekStart (getDate LocalTZA weekStart + 6) in
  let weekEnd := setHours LocalTZA weekEnd 23 59 59 999 in
  (weekStart, weekEnd).

Definition isYesterday (lastDate : option Z) (currentDate : Z) : bool :=
  match lastDate with
  | None => false
  | Some lastDate =>
      let yesterday := setDate LocalTZA currentDate (getDate LocalTZA currentDate - 1) in
      let yesterday := setHours LocalTZA yesterday 0 0 0 0 in
      let lastDateStart := setHours LocalTZA lastDate 0 0 0 0 in
      lastDateStart =? yesterday
  end.

Definition isSameDay (date1 : option Z) (date2 : Z) : bool :=
  match date1 with
  | None => false
  | Some date1 =>
      setHours LocalTZA date1 0 0 0 0 =? setHours LocalTZA date2 0 0 0 0
  end.

Definition isPreviousWeek (lastWeekStart : option Z) (currentWeekStart : Z)
    (weekStartDay : Z) : bool :=
  match lastWeekStart with
  | None => false
  | Some lastWeekStart =>
      let prevWeekStart :=
        setDate LocalTZA currentWeekStart (getDate LocalTZA currentWeekStart - 7) in
      lastWeekStart =? prevWeekStart
  end.

End HostTimeZone.

Open Scope Q_scope.

(** Multiplier of the daily edition: [1.0 + streak * 0.12], capped at 3. *)
Definition getStreakMultiplier (currentStreak : Z) : Q :=
  if (currentStreak <=? 0)%Z then 1
  else
    let multiplier := 1 + inject_Z currentStreak * (12 # 100) in
    Qmin multiplier 3.

(** [Math.round]: the nearest integer, halves towards plus infinity. *)
Definition Math_round (x : Q) : Z := Qfloor (x + (1 # 2)).

(** The two other editions of the helper that the repository carries. *)

(** [1.12 + (streak - 1) * 0.1], rounded to two decimals, capped at 3. *)
Definition getStreakMultiplier_offset (currentStreak : Z) : Q :=
  if (currentStreak <=? 0)%Z then 1
  else
    let multiplier := (112 # 100) + (inject_Z currentStreak - 1) * (1 # 10) in
    Qmin (inject_Z (Math_round (multiplier * 100)) / 100) 3.

(** [1.0 + streak * 0.1], capped at 2 (the weekly edition). *)
Definition getStreakMultiplier_weekly (currentStreak : Z) : Q :=
  if (currentStreak <=? 0)%Z then 1
  else
    let multiplier := 1 + inject_Z currentStreak * (1 # 10) in
    Qmin multiplier 2.

End Helpers.

(** ** Shared types (src/types/index.ts) and response helpers (src/utils) *)

Module Model.

Definition ObjectId : Type := Z.

Inductive OrgRole : Type := org_owner | org_admin | org_member.
Inductive TrackRole : Type := track_admin | track_member.
Inductive ProofType : Type := image | file | link.
Inductive SubmissionStatus : Type := pending | approved | rejected.

Definition SubmissionStatus_eqb (a b : SubmissionStatus) : bool :=
  match a, b with
  | pending, pending | approved, approved | rejected, rejected => true
  | _, _ => false
  end.

Record User : Type := mkUser
  { user_id : ObjectId;
    email : string;
    displayName : option string;
    avatarUrl : option string }.

Record Track : Type := mkTrack
  { track_id : ObjectId;
    organizationId : ObjectId;
    weekStartDay : Z;
    minScore : Q;
    maxScore : Q }.

Record OrganizationMembership : Type := mkOrganizationMembership
  { om_userId : ObjectId;
    om_organizationId : ObjectId;
    om_role : OrgRole }.

(** The JSON body a handler sends with [res.status(statusCode).json(...)]. *)
Record ApiResponse (T : Type) : Type := mkApiResponse
  { statusCode : Z;
    success : bool;
    data : option T;
    error : option string }.

Arguments mkApiResponse {T} _ _ _ _.
Arguments statusCode {T} _.
Arguments success {T} _.
Arguments data {T} _.
Arguments error {T} _.

Definition sendSuccess {T : Type} (data : T) (statusCode : Z) : ApiResponse T :=
  mkApiResponse statusCode true (Some data) None.

(** [statusCode] defaults to 400 at the call sites that omit it. *)
Definition sendError {T : Type} (error : string) (statusCode : Z) : ApiResponse T :=
  mkApiResponse statusCode false None (Some error).

Definition sendCreated {T : Type} (data : T) : ApiResponse T :=
  sendSuccess data 201.

Definition sendNotFound {T : Type} (message : string) : ApiResponse T :=
  sendError message 404.

(** What became of a handler call: it answered, or the promise of an
    awaited write was rejected and the handler threw before answering. *)
Inductive Outcome (T : Type) : Type :=
| Responded (response : ApiResponse T)
| Threw.

Arguments Responded {T} _.
Arguments Threw {T}.

(** Whether each awaited write of [verifySubmission] is rejected. *)
Record Writes : Type := mkWrites
  { membershipSaveFails : bool;
    submissionSaveFails : bool }.

Definition allWritesSucceed : Writes := mkWrites false false.

(** [x < y] on numbers. *)
Definition Qlt_bool (x y : Q) : bool := negb (Qle_bool y x).

(** [Array.prototype.includes] on an array of strings. *)
Definition includes (xs : list string) (x : string) : bool :=
  existsb (String.eqb x) xs.

(** [String.prototype.trim], on the white space of the ASCII range. *)
Definition isWhiteSpace (c : ascii) : bool :=
  existsb (Ascii.eqb c)
    ["009"%char; "010"%char; "011"%char; "012"%char; "013"%char; " "%char].

Fixpoint trimStartChars (cs : list ascii) : list ascii :=
  match cs with
  | c :: cs' => if isWhiteSpace c then trimStartChars cs' else cs
  | [] => []
  end.

Definition trim (s : string) : string :=
  string_of_list_ascii
    (rev (trimStartChars (rev (trimStartChars (list_ascii_of_string s))))).

Definition parseProofType (s : string) : option ProofType :=
  if String.eqb s "image" then Some image
  else if String.eqb s "file" then Some file
  else if String.eqb s "link" then Some link
  else None.

Definition Track_findById (id : ObjectId) (tracks : list Track) : option Track :=
  find (fun t => track_id t =? id) tracks.

(** [OrganizationMembership.findOne({ userId, organizationId,
    role: { $in: ['owner', 'admin'] } })]. *)
Definition findOrgAdmin (userId organizationId : ObjectId)
    (ms : list OrganizationMembership) : option OrganizationMembership :=
  find (fun m => (om_userId m =? userId) && (om_organizationId m =? organizationId)
                 && match om_role m with
                    | org_owner | org_admin => true
                    | org_member => false
                    end) ms.

End Model.

(** ** The daily edition: src/models/TrackMembership.ts and
       src/controllers/submission.controller.ts

    The handlers are modelled from their first statement to their last;
    the route middleware in front of them ([authenticate],
    [requireTrackMember]) is not.  A submission carries the
    [submissionDate] the handlers write and read.  The Submission schema
    among the sources is the weekly edition's (no [submissionDate], a
    unique index on the week start); it is modelled with the weekly
    edition below, and the daily [createSubmission] is left with the
    check it makes itself. *)

Module Daily.

Import JsDate Model.

(** Streak fields default to 0 and the last submission date to absent. *)
Record TrackMembership : Type := mkTrackMembership
  { tm_id : ObjectId;
    tm_userId : ObjectId;
    tm_trackId : ObjectId;
    role : TrackRole;
    currentStreak : Z;
    longestStreak : Z;
    lastSubmissionDate : option Z }.

Record Submission : Type := mkSubmission
  { sub_id : ObjectId;
    userId : ObjectId;
    trackId : ObjectId;
    submissionDate : Z;
    weekStart : Z;
    weekEnd : Z;
    description : string;
    proofUrl : string;
    proofType : ProofType;
    status : SubmissionStatus;
    score : option Q;
    verifiedBy : option ObjectId;
    verifiedAt : option Z }.

Record Db : Type := mkDb
  { users : list User;
    tracks : list Track;
    organizationMemberships : list OrganizationMembership;
    trackMemberships : list TrackMembership;
    submissions : list Submission }.

(** [TrackMembership.create({ userId, trackId, role })], with the schema
    defaults. *)
Definition TrackMembership_create (newId userId trackId : ObjectId)
    (role : TrackRole) (db : Db) : Db :=
  mkDb (users db) (tracks db) (organizationMemberships db)
       (trackMemberships db ++
          [mkTrackMembership newId userId trackId role 0 0 None])
       (submissions db).

Definition TrackMembership_findOne (userId trackId : ObjectId) (db : Db)
  : option TrackMembership :=
  find (fun m => (tm_userId m =? userId) && (tm_trackId m =? trackId))
       (trackMemberships db).

(** [membership.save()]: the stored document of that [_id] is replaced. *)
Definition TrackMembership_save (membership : TrackMembership) (db : Db) : Db :=
  mkDb (users db) (tracks db) (organizationMemberships db)
       (map (fun m => if tm_id m =? tm_id membership then membership else m)
            (trackMemberships db))
       (submissions db).

Definition Submission_findById (id : ObjectId) (db : Db) : option Submission :=
  find (fun s => sub_id s =? id) (submissions db).

Definition Submission_save (submission : Submission) (db : Db) : Db :=
  mkDb (users db) (tracks db) (organizationMemberships db)
       (trackMemberships db)
       (map (fun s => if sub_id s =? sub_id submission then submission else s)
            (submissions db)).

Definition Submission_create (submission : Submission) (db : Db) : Db :=
  mkDb (users db) (tracks db) (organizationMemberships db)
       (trackMemberships db)
       (submissions db ++ [submission]).

Definition DAILY_SUBMISSION_POINTS : Q := 10%Q.

Definition setScore (s : Submission) (score : Q) : Submission :=
  mkSubmission (sub_id s) (userId s) (trackId s) (submissionDate s)
    (weekStart s) (weekEnd s) (description s) (proofUrl s) (proofType s)
    (status s) (Some score) (verifiedBy s) (verifiedAt s).

(** [submission.status = status; submission.verifiedBy = verifierId;
    submission.verifiedAt = new Date()]. *)
Definition setDecision (s : Submission) (status : SubmissionStatus)
    (verifierId : ObjectId) (now : Z) : Submission :=
  mkSubmission (sub_id s) (userId s) (trackId s) (submissionDate s)
    (weekStart s) (weekEnd s) (description s) (proofUrl s) (proofType s)
    status (score s) (Some verifierId) (Some now).

(** What [verifySubmission] answers with on success. *)
Record Verified : Type := mkVerified
  { v_id : ObjectId;
    v_status : SubmissionStatus;
    v_score : option Q;
    v_verifiedAt : option Z }.

Section Handlers.

Variable LocalTZA : Z.

(** The body of [if (membership) { ... }] in [verifySubmission], up to
    the save: the daily streak rule. *)
Definition updateStreak (membership : TrackMembership) (date : Z)
  : TrackMembership :=
  let submissionDate := setHours LocalTZA date 0 0 0 0 in
  let lastDate := lastSubmissionDate membership in
  let currentStreak' :=
    match lastDate with
    | Some lastDate =>
        let lastDateStart := setHours LocalTZA lastDate 0 0 0 0 in
        let dayBefore :=
          setDate LocalTZA submissionDate (getDate LocalTZA submissionDate - 1) in
        if lastDateStart =? dayBefore then currentStreak membership + 1
        else if negb (lastDateStart =? submissionDate) then 1
        else currentStreak membership
    | None => 1
    end in
  let longestStreak' :=
    if longestStreak membership <? currentStreak' then currentStreak'
    else longestStreak membership in
  mkTrackMembership (tm_id membership) (tm_userId membership)
    (tm_trackId membership) (role membership)
    currentStreak' longestStreak' (Some submissionDate).

(** [POST /api/submissions/:id/verify].  [id] is the route parameter,
    [status] the body field, [verifierId] the authenticated user and
    [now] the value of [new Date()]. *)
Definition verifySubmission (io : Writes) (now : Z) (verifierId id : ObjectId)
    (status : string) (db : Db) : Outcome Verified * Db :=
  if negb (includes ["approved"; "rejected"]%string status) then
    (Responded (sendError "Status must be approved or rejected" 400), db)
  else
  match Submission_findById id db with
  | None => (Responded (sendNotFound "Submission not found"), db)
  | Some submission =>
  match Track_findById (trackId submission) (tracks db) with
  | None => (Responded (sendNotFound "Track not found"), db)
  | Some track =>
  match findOrgAdmin verifierId (organizationId track)
                     (organizationMemberships db) with
  | None =>
      (Responded
         (sendError "Only organization admins can verify submissions" 403), db)
  | Some _ =>
  if negb (SubmissionStatus_eqb (Daily.status submission) pending) then
    (Responded (sendError "Submission has already been verified" 400), db)
  else
    let afterStreak : option (Submission * Db) :=
      if String.eqb status "approved" then
        let submission := setScore submission DAILY_SUBMISSION_POINTS in
        match TrackMembership_findOne (userId submission) (trackId submission) db with
        | Some membership =>
            let membership := updateStreak membership (submissionDate submission) in
            if membershipSaveFails io then None
            else Some (submission, TrackMembership_save membership db)
        | None => Some (submission, db)
        end
      else Some (setScore submission 0%Q, db) in
    match afterStreak with
    | None => (Threw, db)
    | Some (submission, db) =>
        let submission :=
          setDecision submission
            (if String.eqb status "approved" then approved else rejected)
            verifierId now in
        if submissionSaveFails io then (Threw, db)
        else
          (Responded
             (sendSuccess
                (mkVerified (sub_id submission) (Daily.status submission)
                            (score submission) (verifiedAt submission)) 200),
           Submission_save submission db)
    end
  end end end.

(** [Submission.findOne({ userId, trackId, submissionDate: today })]. *)
Definition Submission_findOne (userId' trackId' today : Z) (db : Db)
  : option Submission :=
  find (fun s => (userId s =? userId') && (trackId s =? trackId')
                 && (submissionDate s =? today))
       (submissions db).

(** [POST /api/tracks/:trackId/submissions]: one submission per day, per
    user and track.  [newId] is the [_id] generated for the document. *)
Definition createSubmission (now : Z) (newId userId' trackId' : ObjectId)
    (description' proofUrl' proofType' : string) (db : Db)
  : ApiResponse Submission * Db :=
  if (String.length (trim description') <? 10)%nat then
    (sendError "Description must be at least 10 characters" 400, db)
  else if String.eqb proofUrl' "" then
    (sendError "Proof URL is required" 400, db)
  else
  match parseProofType proofType' with
  | None =>
      (sendError "Invalid proof type. Must be image, file, or link" 400, db)
  | Some proofType' =>
  match Track_findById trackId' (tracks db) with
  | None => (sendNotFound "Track not found", db)
  | Some track =>
      let today := setHours LocalTZA now 0 0 0 0 in
      let wb := WeekService.getCurrentWeekBoundaries now (weekStartDay track) in
      match Submission_findOne userId' trackId' today db with
      | Some _ =>
          (sendError "You have already submitted today. Come back tomorrow!" 409,
           db)
      | None =>
          let submission :=
            mkSubmission newId userId' trackId' today
              (WeekService.wb_start wb) (WeekService.wb_end wb)
              (trim description') proofUrl' proofType' pending None None None in
          (sendCreated submission, Submission_create submission db)
      end
  end end.

End Handlers.

End Daily.

(** ** The weekly edition: the earlier TrackMembership model, the
       Submission schema and the earlier submission controller *)

Module Weekly.

Import JsDate Model.

Record TrackMembership : Type := mkTrackMembership
  { tm_id : ObjectId;
    tm_userId : ObjectId;
    tm_trackId : ObjectId;
    role : TrackRole;
    currentStreak : Z;
    longestStreak : Z;
    lastSubmissionWeek : option Z }.

Record Submission : Type := mkSubmission
  { sub_id : ObjectId;
    userId : ObjectId;
    trackId : ObjectId;
    weekStart : Z;
    weekEnd : Z;
    description : string;
    proofUrl : string;
    proofType : ProofType;
    status : SubmissionStatus;
    score : option Q;
    verifiedBy : option ObjectId;
    verifiedAt : option Z }.

Record Db : Type := mkDb
  { users : list User;
    tracks : list Track;
    organizationMemberships : list OrganizationMembership;
    trackMemberships : list TrackMembership;
    submissions : list Submission }.

Definition TrackMembership_create (newId userId trackId : ObjectId)
    (role : TrackRole) (db : Db) : Db :=
  mkDb (users db) (tracks db) (organizationMemberships db)
       (trackMemberships db ++
          [mkTrackMembership newId userId trackId role 0 0 None])
       (submissions db).

Definition TrackMembership_findOne (userId trackId : ObjectId) (db : Db)
  : option TrackMembership :=
  find (fun m => (tm_userId m =? userId) && (tm_trackId m =? trackId))
       (trackMemberships db).

Definition TrackMembership_save (membership : TrackMembership) (db : Db) : Db :=
  mkDb (users db) (tracks db) (organizationMemberships db)
       (map (fun m => if tm_id m =? tm_id membership then membership else m)
            (trackMemberships db))
       (submissions db).

Definition Submission_findById (id : ObjectId) (db : Db) : option Submission :=
  find (fun s => sub_id s =? id) (submissions db).

Definition Submission_save (submission : Submission) (db : Db) : Db :=
  mkDb (users db) (tracks db) (organizationMemberships db)
       (trackMemberships db)
       (map (fun s => if sub_id s =? sub_id submission then submission else s)
            (submissions db)).

(** [Submission.findOne({ userId, trackId, weekStart })]. *)
Definition Submission_findOne (userId' trackId' weekStart' : Z) (db : Db)
  : option Submission :=
  find (fun s => (userId s =? userId') && (trackId s =? trackId')
                 && (weekStart s =? weekStart'))
       (submissions db).

(** What the schema does to a document before it validates it: the
    [trim] setter of [description]. *)
Definition Submission_cast (s : Submission) : Submission :=
  mkSubmission (sub_id s) (userId s) (trackId s) (weekStart s) (weekEnd s)
    (trim (description s)) (proofUrl s) (proofType s) (status s) (score s)
    (verifiedBy s) (verifiedAt s).

(** The validators of the schema that a document of these types can
    fail: [description] is required and has from 10 to 2000 characters,
    [proofUrl] is required, and a [score] is not negative.  The other
    constraints (the required ids and dates, the two enumerations) hold
    of every value of the record's types. *)
Definition Submission_validate (s : Submission) : bool :=
  (10 <=? String.length (description s))%nat
  && (String.length (description s) <=? 2000)%nat
  && negb (String.eqb (proofUrl s) "")
  && match score s with
     | Some q => Qle_bool 0 q
     | None => true
     end.

(** [Submission.create]: the document is cast and validated (a failure
    is a validation error), then inserted; the schema's unique compound
    index on [{ userId, trackId, weekStart }] refuses a second document
    with the same key (duplicate key error).  Either way the promise is
    rejected. *)
Definition Submission_create (submission : Submission) (db : Db) : option Db :=
  let submission := Submission_cast submission in
  if negb (Submission_validate submission) then None
  else
  match Submission_findOne (userId submission) (trackId submission)
                           (weekStart submission) db with
  | Some _ => None
  | None =>
      Some (mkDb (users db) (tracks db) (organizationMemberships db)
                 (trackMemberships db)
                 (submissions db ++ [submission]))
  end.

Definition setScore (s : Submission) (score : Q) : Submission :=
  mkSubmission (sub_id s) (userId s) (trackId s)
    (weekStart s) (weekEnd s) (description s) (proofUrl s) (proofType s)
    (status s) (Some score) (verifiedBy s) (verifiedAt s).

Definition setDecision (s : Submission) (status : SubmissionStatus)
    (verifierId : ObjectId) (now : Z) : Submission :=
  mkSubmission (sub_id s) (userId s) (trackId s)
    (weekStart s) (weekEnd s) (description s) (proofUrl s) (proofType s)
    status (score s) (Some verifierId) (Some now).

Record Verified : Type := mkVerified
  { v_id : ObjectId;
    v_status : SubmissionStatus;
    v_score : option Q;
    v_verifiedAt : option Z }.

Section Handlers.

Variable LocalTZA : Z.

(** The body of [if (membership) { ... }] in the weekly
    [verifySubmission], up to the save: the weekly streak rule. *)
Definition updateStreak (membership : TrackMembership)
    (submissionWeekStart : Z) (weekStartDay : Z) : TrackMembership :=
  let currentWeekStart :=
    fst (Helpers.getWeekBoundaries LocalTZA submissionWeekStart weekStartDay) in
  let currentStreak' :=
    if Helpers.isPreviousWeek LocalTZA (lastSubmissionWeek membership)
                              currentWeekStart weekStartDay
    then currentStreak membership + 1
    else if match lastSubmissionWeek membership with
            | None => true
            | Some last => negb (last =? currentWeekStart)
            end
    then 1
    else currentStreak membership in
  let longestStreak' :=
    if longestStreak membership <? currentStreak' then currentStreak'
    else longestStreak membership in
  mkTrackMembership (tm_id membership) (tm_userId membership)
    (tm_trackId membership) (role membership)
    currentStreak' longestStreak' (Some currentWeekStart).

(** [POST /api/submissions/:id/verify] of the weekly edition.  [score']
    is the body field [score] of a request that carries a number there,
    and [None] when the field is [undefined] or [null]; the handler does
    not test the type of the field, and a request whose [score] is of
    another type is outside this model. *)
Definition verifySubmission (io : Writes) (now : Z) (verifierId id : ObjectId)
    (status : string) (score' : option Q) (db : Db) : Outcome Verified * Db :=
  if negb (includes ["approved"; "rejected"]%string status) then
    (Responded (sendError "Status must be approved or rejected" 400), db)
  else
  match Submission_findById id db with
  | None => (Responded (sendNotFound "Submission not found"), db)
  | Some submission =>
  match Track_findById (trackId submission) (tracks db) with
  | None => (Responded (sendNotFound "Track not found"), db)
  | Some track =>
    let afterStreak : Outcome Verified + (Submission * Db) :=
      if String.eqb status "approved" then
        match score' with
        | None =>
            inl (Responded (sendError "Score is required when approving" 400))
        | Some score' =>
            if Qlt_bool score' (minScore track) || Qlt_bool (maxScore track) score'
            then
              (* the message, which quotes the two bounds, is shortened *)
              inl (Responded (sendError "Score must be between" 400))
            else
              let submission := setScore submission score' in
              match TrackMembership_findOne (userId submission)
                                            (trackId submission) db with
              | Some membership =>
                  let membership :=
                    updateStreak membership (weekStart submission)
                                 (weekStartDay track) in
                  if membershipSaveFails io then inl Threw
                  else inr (submission, TrackMembership_save membership db)
              | None => inr (submission, db)
              end
        end
      else inr (submission, db) in
    match afterStreak with
    | inl outcome => (outcome, db)
    | inr (submission, db) =>
        let submission :=
          setDecision submission
            (if String.eqb status "approved" then approved else rejected)
            verifierId now in
        if submissionSaveFails io then (Threw, db)
        else
          (Responded
             (sendSuccess
                (mkVerified (sub_id submission) (Weekly.status submission)
                            (score submission) (verifiedAt submission)) 200),
           Submission_save submission db)
    end
  end end.

(** [POST /api/tracks/:trackId/submissions] of the weekly edition: one
    submission per week, per user and track. *)
Definition createSubmission (now : Z) (newId userId' trackId' : ObjectId)
    (description' proofUrl' proofType' : string) (db : Db)
  : Outcome Submission * Db :=
  if (String.length (trim description') <? 10)%nat then
    (Responded (sendError "Description must be at least 10 characters" 400), db)
  else if String.eqb proofUrl' "" then
    (Responded (sendError "Proof URL is required" 400), db)
  else
  match parseProofType proofType' with
  | None =>
      (Responded
         (sendError "Invalid proof type. Must be image, file, or link" 400), db)
  | Some proofType' =>
  match Track_findById trackId' (tracks db) with
  | None => (Responded (sendNotFound "Track not found"), db)
  | Some track =>
      let wb := WeekService.getCurrentWeekBoundaries now (weekStartDay track) in
      match Submission_findOne userId' trackId' (WeekService.wb_start wb) db with
      | Some _ =>
          (Responded
             (sendError "You have already submitted for this week" 409), db)
      | None =>
          let submission :=
            mkSubmission newId userId' trackId'
              (WeekService.wb_start wb) (WeekService.wb_end wb)
              (trim description') proofUrl' proofType' pending None None None in
          match Submission_create submission db with
          | Some db' => (Responded (sendCreated submission), db')
          | None => (Threw, db)
          end
      end
  end end.

End Handlers.

End Weekly.

(** ** src/services/leaderboard.service.ts *)

Module LeaderboardService.

Import Model.

(** [Array.prototype.sort(comparefn)] is stable: for a comparator that
    orders by a key, the result is the arrangement by that key in which
    equal elements keep their order.  Insertion from the right computes
    it: an element goes in front of the first element it does not
    follow. *)
Section ArraySort.

Context {A : Type} (comparefn : A -> A -> Q).

Fixpoint insertSorted (x : A) (l : list A) : list A :=
  match l with
  | [] => [x]
  | y :: l' =>
      if Qle_bool (comparefn x y) 0 then x :: l else y :: insertSorted x l'
  end.

Fixpoint Array_sort (l : list A) : list A :=
  match l with
  | [] => []
  | x :: l' => insertSorted x (Array_sort l')
  end.

End ArraySort.

(** [array.map((entry, index) => f(entry, index))], from [index]. *)
Fixpoint mapWithIndex {A B : Type} (f : A -> Z -> B) (index : Z) (l : list A)
  : list B :=
  match l with
  | [] => []
  | x :: l' => f x index :: mapWithIndex f (index + 1) l'
  end.

(** A group of stage 2. *)
Record Group : Type := mkGroup
  { g_id : ObjectId;
    g_baseScore : Q;
    g_submissionCount : Z }.

(** A document the pipeline returns. *)
Record Aggregated : Type := mkAggregated
  { a_userId : ObjectId;
    a_displayName : string;
    a_avatarUrl : option string;
    a_baseScore : Q;
    a_submissionCount : Z;
    a_currentStreak : Z;
    a_longestStreak : Z }.

(** An entry before ranking. *)
Record Scored : Type := mkScored
  { userId : ObjectId;
    userName : string;
    avatarUrl : option string;
    baseScore : Q;
    submissionCount : Z;
    currentStreak : Z;
    longestStreak : Z;
    streakMultiplier : Q;
    totalScore : Q }.

(** [{ ...entry, rank }]. *)
Record LeaderboardEntry : Type := mkLeaderboardEntry
  { entry : Scored;
    rank : Z }.

(** Stage 2, [$group] by [userId] with [$sum] of the score and a count.
    MongoDB does not specify the order of the groups; here a group
    stands where its first submission does. *)
Fixpoint addToGroups (s : Daily.Submission) (gs : list Group) : list Group :=
  match gs with
  | [] =>
      [mkGroup (Daily.userId s)
               (match Daily.score s with Some x => x | None => 0%Q end) 1]
  | g :: gs' =>
      if g_id g =? Daily.userId s then
        mkGroup (g_id g)
                (g_baseScore g +
                 match Daily.score s with Some x => x | None => 0%Q end)%Q
                (g_submissionCount g + 1) :: gs'
      else g :: addToGroups s gs'
  end.

Definition aggregate (db : Daily.Db) (trackId : ObjectId)
    (weekBoundaries : WeekService.WeekBoundaries) : list Aggregated :=
  (* Stage 1: $match *)
  let matched :=
    filter (fun s => (Daily.trackId s =? trackId)
                     && (Daily.weekStart s =? WeekService.wb_start weekBoundaries)
                     && SubmissionStatus_eqb (Daily.status s) approved)
           (Daily.submissions db) in
  (* Stage 2: $group *)
  let groups := fold_left (fun gs s => addToGroups s gs) matched [] in
  (* Stages 3 to 6: $lookup, $unwind, $project *)
  flat_map
    (fun g =>
       let user := filter (fun u => user_id u =? g_id g) (Daily.users db) in
       let membership :=
         filter (fun m => (Daily.tm_userId m =? g_id g)
                          && (Daily.tm_trackId m =? trackId))
                (Daily.trackMemberships db) in
       flat_map
         (fun u =>
            map (fun m : option Daily.TrackMembership =>
                   mkAggregated (g_id g)
                     (match displayName u with Some n => n | None => email u end)
                     (Model.avatarUrl u)
                     (g_baseScore g) (g_submissionCount g)
                     (match m with Some m => Daily.currentStreak m | None => 0 end)
                     (match m with Some m => Daily.longestStreak m | None => 0 end))
                (match membership with
                 | [] => [None]
                 | _ => map Some membership
                 end))
         user)
    groups.

(** [Math.round(x * 100) / 100]. *)
Definition round2 (x : Q) : Q :=
  (inject_Z (Helpers.Math_round (x * 100)) / 100)%Q.

Definition withMultiplier (e : Aggregated) : Scored :=
  let streakMultiplier := Helpers.getStreakMultiplier (a_currentStreak e) in
  let totalScore := round2 (a_baseScore e * streakMultiplier) in
  mkScored (a_userId e) (a_displayName e) (a_avatarUrl e) (a_baseScore e)
           (a_submissionCount e) (a_currentStreak e) (a_longestStreak e)
           streakMultiplier totalScore.

(** The part of [getWeeklyLeaderboard] after the aggregation. *)
Definition rankResults (results : list Aggregated) : list LeaderboardEntry :=
  let leaderboardWithMultipliers := map withMultiplier results in
  let sorted :=
    Array_sort (fun a b => (totalScore b - totalScore a)%Q)
               leaderboardWithMultipliers in
  mapWithIndex (fun entry index => mkLeaderboardEntry entry (index + 1)) 0 sorted.

Definition getWeeklyLeaderboard (db : Daily.Db) (trackId : ObjectId)
    (weekBoundaries : WeekService.WeekBoundaries) : list LeaderboardEntry :=
  rankResults (aggregate db trackId weekBoundaries).

End LeaderboardService.

(** ** Vocabulary of the properties *)

Module Spec.

Import Model.

(** The invariant of a membership's streak fields. *)
Definition streakInvariant (m : Daily.TrackMembership) : Prop :=
  Daily.currentStreak m <= Daily.longestStreak m.

Definition weeklyStreakInvariant (m : Weekly.TrackMembership) : Prop :=
  Weekly.currentStreak m <= Weekly.longestStreak m.

(** A handler call failed: it answered with an error, or it threw. *)
Definition failed {T : Type} (outcome : Outcome T) : Prop :=
  match outcome with
  | Responded response => success response = false
  | Threw => True
  end.

(** The operations that create or touch memberships and submissions. *)
Inductive Operation : Type :=
| CreateMembership (newId userId trackId : ObjectId) (role : TrackRole)
| CreateSubmission (now : Z) (newId userId trackId : ObjectId)
                   (description proofUrl proofType : string)
| VerifySubmission (io : Writes) (now : Z) (verifierId id : ObjectId)
                   (status : string).

Definition perform (tz : Z) (db : Daily.Db) (op : Operation) : Daily.Db :=
  match op with
  | CreateMembership newId userId trackId role =>
      Daily.TrackMembership_create newId userId trackId role db
  | CreateSubmission now newId userId trackId description proofUrl proofType =>
      snd (Daily.createSubmission tz now newId userId trackId
                                  description proofUrl proofType db)
  | VerifySubmission io now verifierId id status =>
      snd (Daily.verifySubmission tz io now verifierId id status db)
  end.

Definition run (tz : Z) (ops : list Operation) (db : Daily.Db) : Daily.Db :=
  fold_left (perform tz) ops db.

(** The same for the weekly edition. *)
Inductive WeeklyOperation : Type :=
| WCreateMembership (newId userId trackId : ObjectId) (role : TrackRole)
| WCreateSubmission (now : Z) (newId userId trackId : ObjectId)
                    (description proofUrl proofType : string)
| WVerifySubmission (io : Writes) (now : Z) (verifierId id : ObjectId)
                    (status : string) (score : option Q).

Definition performWeekly (tz : Z) (db : Weekly.Db) (op : WeeklyOperation)
  : Weekly.Db :=
  match op with
  | WCreateMembership newId userId trackId role =>
      Weekly.TrackMembership_create newId userId trackId role db
  | WCreateSubmission now newId userId trackId description proofUrl proofType =>
      snd (Weekly.createSubmission now newId userId trackId
                                   description proofUrl proofType db)
  | WVerifySubmission io now verifierId id status score =>
      snd (Weekly.verifySubmission tz io now verifierId id status score db)
  end.

Definition runWeekly (tz : Z) (ops : list WeeklyOperation) (db : Weekly.Db)
  : Weekly.Db :=
  fold_left (performWeekly tz) ops db.

(** The submissions of a user on a track for a day (daily edition) or a
    week start (weekly edition). *)
Definition submissionsOfDay (userId trackId day : Z) (db : Daily.Db)
  : list Daily.Submission :=
  filter (fun s => (Daily.userId s =? userId) && (Daily.trackId s =? trackId)
                   && (Daily.submissionDate s =? day))
         (Daily.submissions db).

Definition submissionsOfWeek (userId trackId weekStart : Z) (db : Weekly.Db)
  : list Weekly.Submission :=
  filter (fun s => (Weekly.userId s =? userId) && (Weekly.trackId s =? trackId)
                   && (Weekly.weekStart s =? weekStart))
         (Weekly.submissions db).

(** A request body that passes the input validation of
    [createSubmission]. *)
Definition validBody (description proofUrl proofType : string) : Prop :=
  (10 <= String.length (trim description))%nat /\
  proofUrl <> EmptyString /\
  parseProofType proofType <> None.

(** At most one submission for each user, track and day (week start). *)
Definition uniquePerDay (db : Daily.Db) : Prop :=
  forall userId trackId day,
    (List.length (submissionsOfDay userId trackId day db) <= 1)%nat.

Definition uniquePerWeek (db : Weekly.Db) : Prop :=
  forall userId trackId weekStart,
    (List.length (submissionsOfWeek userId trackId weekStart db) <= 1)%nat.

End Spec.

(** ** Sample databases *)

Module Samples.

Import Model.

Definition track1 : Track := mkTrack 1 1 1 0 10.
Definition owner7 : OrganizationMembership := mkOrganizationMembership 7 1 org_owner.

(** A submission of user 5 on track 1 for 2024-01-17, waiting for a
    decision. *)
Definition pendingSubmission : Daily.Submission :=
  Daily.mkSubmission 100 5 1 1705449600000 1705276800000 1705881599999
    "ran ten kilometres" "https://example.org/run.png" image
    pending None None None.

(** The same submission, approved by user 7 with the flat 10 points. *)
Definition approvedSubmission : Daily.Submission :=
  Daily.mkSubmission 100 5 1 1705449600000 1705276800000 1705881599999
    "ran ten kilometres" "https://example.org/run.png" image
    approved (Some 10%Q) (Some 7) (Some 1705500000000).

Definition freshMembership : Daily.TrackMembership :=
  Daily.mkTrackMembership 50 5 1 track_member 0 0 None.

Definition dbPending : Daily.Db :=
  Daily.mkDb [] [track1] [owner7] [freshMembership] [pendingSubmission].

Definition dbApproved : Daily.Db :=
  Daily.mkDb [] [track1] [owner7]
    [Daily.mkTrackMembership 50 5 1 track_member 1 1 (Some 1705449600000)]
    [approvedSubmission].


(** The membership write succeeds, the submission write is rejected. *)
Definition submissionWriteFails : Writes := mkWrites false true.

(** Track 1 exists and nobody has submitted yet. *)
Definition dbEmpty : Daily.Db :=
  Daily.mkDb [] [track1] [owner7] [freshMembership] [].

(** Users 1 and 2 on track 1, each with a streak of 3 and one approved
    submission of 10 points in the week of Monday 2024-01-15; the
    submission of user 2 was stored first. *)
Definition week3 : WeekService.WeekBoundaries :=
  WeekService.getWeekBoundaries 1705505400000 1.

Definition dbTied : Daily.Db :=
  Daily.mkDb
    [mkUser 1 "ada@example.org" (Some "Ada"%string) None;
     mkUser 2 "bob@example.org" None None]
    [track1] [owner7]
    [Daily.mkTrackMembership 51 1 1 track_member 3 3 (Some 1705449600000);
     Daily.mkTrackMembership 52 2 1 track_member 3 3 (Some 1705449600000)]
    [Daily.mkSubmission 200 2 1 1705449600000 1705276800000 1705881599999
       "swam two kilometres" "https://example.org/swim.png" image
       approved (Some 10%Q) (Some 7) (Some 1705500000000);
     Daily.mkSubmission 201 1 1 1705449600000 1705276800000 1705881599999
       "ran ten kilometres" "https://example.org/run.png" image
       approved (Some 10%Q) (Some 7) (Some 1705500000001)].

(** Member A with 20 points and a streak of 5, member B with 25 points
    and no streak. *)
Definition resultsAB : list LeaderboardService.Aggregated :=
  [LeaderboardService.mkAggregated 12 "B" None 25%Q 1 0 0;
   LeaderboardService.mkAggregated 11 "A" None 20%Q 2 5 5].

(** The weekly edition: a submission of user 5 for the week of Monday
    2024-01-15, approved with 7 points. *)
Definition weeklyApproved : Weekly.Submission :=
  Weekly.mkSubmission 100 5 1 1705276800000 1705881599999
    "ran ten kilometres" "https://example.org/run.png" image
    approved (Some 7%Q) (Some 7) (Some 1705500000000).

Definition weeklyDbApproved : Weekly.Db :=
  Weekly.mkDb [] [track1] [owner7]
    [Weekly.mkTrackMembership 50 5 1 track_member 1 1 (Some 1705276800000)]
    [weeklyApproved].

(** User 5 has a streak of 2 whose marker is 2024-01-16, and the pending
    submission for 2024-01-17. *)
Definition dbStreak2 : Daily.Db :=
  Daily.mkDb [] [track1] [owner7]
    [Daily.mkTrackMembership 50 5 1 track_member 2 2 (Some 1705363200000)]
    [pendingSubmission].

(** The same submission of the weekly edition before any decision. *)
Definition weeklyPending : Weekly.Submission :=
  Weekly.mkSubmission 100 5 1 1705276800000 1705881599999
    "ran ten kilometres" "https://example.org/run.png" image
    pending None None None.

Definition weeklyDbPending : Weekly.Db :=
  Weekly.mkDb [] [track1] [owner7]
    [Weekly.mkTrackMembership 50 5 1 track_member 1 1 (Some 1704672000000)]
    [weeklyPending].


(** User 5 joins track 1, submits on 2024-01-17, 2024-01-18 and
    2024-01-20 (not on the 19th), and owner 7 approves each submission
    the same day. *)
Definition scenario : list Spec.Operation :=
  [Spec.CreateMembership 50 5 1 track_member;
   Spec.CreateSubmission 1705505400000 101 5 1
     "ran ten kilometres" "https://example.org/1.png" "image";
   Spec.VerifySubmission allWritesSucceed 1705509000000 7 101 "approved";
   Spec.CreateSubmission 1705591800000 102 5 1
     "ran ten kilometres" "https://example.org/2.png" "image";
   Spec.VerifySubmission allWritesSucceed 1705595400000 7 102 "approved";
   Spec.CreateSubmission 1705764600000 103 5 1
     "ran ten kilometres" "https://example.org/3.png" "image";
   Spec.VerifySubmission allWritesSucceed 1705768200000 7 103 "approved"].

Definition dbStart : Daily.Db := Daily.mkDb [] [track1] [owner7] [] [].

End Samples.

(** ** src/services/week.service.ts: the functions around
       [getWeekBoundaries] *)

Module WeekQueries.

Import JsDate WeekService.

(** [date >= start && date <= end], for the week of [now]. *)
Definition isWithinCurrentWeek (now date weekStartDay : Z) : bool :=
  let b := getCurrentWeekBoundaries now weekStartDay in
  (wb_start b <=? date) && (date <=? wb_end b).

(** [now.setUTCDate(now.getUTCDate() - weeksAgo * 7)], then the week of
    that instant. *)
Definition getPastWeekBoundaries (now weekStartDay weeksAgo : Z)
  : WeekBoundaries :=
  let now := setUTCDate now (getUTCDate now - weeksAgo * 7) in
  getWeekBoundaries now weekStartDay.

(** [days[weekDay]]: [undefined] outside the array. *)
Definition getDayName (weekDay : Z) : option string :=
  if weekDay <? 0 then None
  else nth_error
         ["Sunday"; "Monday"; "Tuesday"; "Wednesday"; "Thursday"; "Friday";
          "Saturday"]%string
         (Z.to_nat weekDay).

(** The week a leaderboard or listing request asks for
    (src/controllers/leaderboard.controller.ts, [getLeaderboard]; the same
    selection is in [listSubmissions]): no [week] parameter or [current]
    is the week of [now], [previous] the week of [now] moved back seven
    days of the local calendar, anything else is read as a date.
    [parseDate] stands for [new Date(string)]. *)
Section WeekParameter.

Variable LocalTZA : Z.
Variable parseDate : string -> Z.

Definition weekOfQuery (now : Z) (week : option string) (weekStartDay : Z)
  : WeekBoundaries :=
  match week with
  | None => getCurrentWeekBoundaries now weekStartDay
  | Some week =>
      if String.eqb week "" || String.eqb week "current" then
        getCurrentWeekBoundaries now weekStartDay
      else if String.eqb week "previous" then
        let now := setDate LocalTZA now (getDate LocalTZA now - 7) in
        getWeekBoundaries now weekStartDay
      else getWeekBoundaries (parseDate week) weekStartDay
  end.

End WeekParameter.

End WeekQueries.

(** ** src/services/leaderboard.service.ts and
       src/controllers/leaderboard.controller.ts: ranks and statistics *)

Module LeaderboardQueries.

Import Model LeaderboardService.

(** Stage 1 of both pipelines: the approved submissions of the track for
    the week. *)
Definition matched (db : Daily.Db) (trackId : ObjectId)
    (weekBoundaries : WeekService.WeekBoundaries) : list Daily.Submission :=
  filter (fun s => (Daily.trackId s =? trackId)
                   && (Daily.weekStart s =? WeekService.wb_start weekBoundaries)
                   && SubmissionStatus_eqb (Daily.status s) approved)
         (Daily.submissions db).

(** Stage 2 of the pipeline of [getWeeklyLeaderboard]. *)
Definition groups (db : Daily.Db) (trackId : ObjectId)
    (weekBoundaries : WeekService.WeekBoundaries) : list Group :=
  fold_left (fun gs s => addToGroups s gs) (matched db trackId weekBoundaries) [].

(** [$sum: '$score']: a missing score counts as 0. *)
Definition scoreOf (s : Daily.Submission) : Q :=
  match Daily.score s with Some x => x | None => 0%Q end.

(** [entry?.rank || null]. *)
Definition getUserRank (db : Daily.Db) (trackId userId' : ObjectId)
    (weekBoundaries : WeekService.WeekBoundaries) : option Z :=
  let leaderboard := getWeeklyLeaderboard db trackId weekBoundaries in
  match find (fun e => userId (entry e) =? userId') leaderboard with
  | Some entry => if rank entry =? 0 then None else Some (rank entry)
  | None => None
  end.

Record LeaderboardStats : Type := mkLeaderboardStats
  { totalParticipants : Z;
    totalSubmissions : Z;
    averageScore : Q }.

(** [$group] with [_id: null] yields one document when a submission
    matched and none otherwise; [$addToSet] collects the distinct user
    ids, [$size] counts them. *)
Definition getLeaderboardStats (db : Daily.Db) (trackId : ObjectId)
    (weekBoundaries : WeekService.WeekBoundaries) : LeaderboardStats :=
  let matched := matched db trackId weekBoundaries in
  let results :=
    match matched with
    | [] => []
    | _ :: _ =>
        let participants := nodup Z.eq_dec (map Daily.userId matched) in
        let totalSubmissions := Z.of_nat (List.length matched) in
        let totalScore := fold_left (fun acc s => (acc + scoreOf s)%Q) matched 0%Q in
        [mkLeaderboardStats
           (Z.of_nat (List.length participants))
           totalSubmissions
           (if 0 <? totalSubmissions
            then (totalScore / inject_Z totalSubmissions)%Q
            else 0%Q)]
    end in
  match results with
  | [] => mkLeaderboardStats 0 0 0%Q
  | stats :: _ => stats
  end.

(** What [getMyRank] answers with. *)
Record MyRank : Type := mkMyRank
  { mr_weekStart : Z;
    mr_weekEnd : Z;
    mr_rank : option Z;
    mr_totalScore : Q;
    mr_totalParticipants : Z }.

(** [GET /api/tracks/:trackId/leaderboard/my-rank].  [x || 0] of a
    number is the number itself. *)
Definition getMyRank (now : Z) (userId' trackId : ObjectId) (db : Daily.Db)
  : ApiResponse MyRank :=
  match Track_findById trackId (Daily.tracks db) with
  | None => sendNotFound "Track not found"
  | Some track =>
      let weekBoundaries :=
        WeekService.getCurrentWeekBoundaries now (weekStartDay track) in
      let leaderboard := getWeeklyLeaderboard db trackId weekBoundaries in
      let myEntry := find (fun e => userId (entry e) =? userId') leaderboard in
      sendSuccess
        (mkMyRank (WeekService.wb_start weekBoundaries)
                  (WeekService.wb_end weekBoundaries)
                  (match myEntry with
                   | Some e => if rank e =? 0 then None else Some (rank e)
                   | None => None
                   end)
                  (match myEntry with
                   | Some e => totalScore (entry e)
                   | None => 0%Q
                   end)
                  (Z.of_nat (List.length leaderboard)))
        200
  end.

End LeaderboardQueries.

(** Sums over the groups of a leaderboard, and what makes the joins of
    the pipeline one-to-one. *)
Module Totals.

Import Model LeaderboardService.

Definition sumBaseScore (gs : list Group) : Q :=
  fold_right (fun g acc => (g_baseScore g + acc)%Q) 0%Q gs.

Definition sumSubmissionCount (gs : list Group) : Z :=
  fold_right (fun g acc => g_submissionCount g + acc) 0 gs.

Definition sumScores (l : list Daily.Submission) : Q :=
  fold_right (fun s acc => (LeaderboardQueries.scoreOf s + acc)%Q) 0%Q l.

(** User ids are unique, every submitter has a user document, and a user
    has at most one membership per track (the unique index of the
    TrackMembership schema). *)
Definition joinsAreOneToOne (db : Daily.Db) : Prop :=
  NoDup (map user_id (Daily.users db)) /\
  (forall s, In s (Daily.submissions db) ->
             In (Daily.userId s) (map user_id (Daily.users db))) /\
  NoDup (map (fun m => (Daily.tm_userId m, Daily.tm_trackId m))
             (Daily.trackMemberships db)).

End Totals.

(** ** src/middleware/rbac.ts *)

Module Rbac.

Import Model.

(** A middleware either calls [next()], having attached a document to
    the request, or answers itself.  The reads of the model do not fail,
    so the [catch] branches ("Permission check failed") are never
    taken. *)
Inductive Middleware (R : Type) : Type :=
| Next (attached : R)
| Answered (response : ApiResponse unit).

Arguments Next {R} _.
Arguments Answered {R} _.

Definition sendForbidden {T : Type} (message : string) : ApiResponse T :=
  sendError message 403.

(** [OrganizationMembership.findOne({ userId, organizationId })]. *)
Definition OrganizationMembership_findOne (userId organizationId : ObjectId)
    (ms : list OrganizationMembership) : option OrganizationMembership :=
  find (fun m => (om_userId m =? userId) && (om_organizationId m =? organizationId))
       ms.

Definition OrgRole_eqb (a b : OrgRole) : bool :=
  match a, b with
  | org_owner, org_owner | org_admin, org_admin | org_member, org_member => true
  | _, _ => false
  end.

(** [userId] is [req.user?._id]. *)
Definition requireOrgRole (allowedRoles : list OrgRole) (orgId : ObjectId)
    (userId : option ObjectId) (db : Daily.Db)
  : Middleware OrganizationMembership :=
  match userId with
  | None => Answered (sendForbidden "User not authenticated")
  | Some userId =>
      match OrganizationMembership_findOne userId orgId
              (Daily.organizationMemberships db) with
      | None => Answered (sendForbidden "You are not a member of this organization")
      | Some membership =>
          if negb (existsb (OrgRole_eqb (om_role membership)) allowedRoles)
          then Answered (sendForbidden "Insufficient permissions")
          else Next membership
      end
  end.

Definition requireTrackMember (trackId : ObjectId) (userId : option ObjectId)
    (db : Daily.Db) : Middleware Daily.TrackMembership :=
  match userId with
  | None => Answered (sendForbidden "User not authenticated")
  | Some userId =>
      match Daily.TrackMembership_findOne userId trackId db with
      | None => Answered (sendForbidden "You are not a member of this track")
      | Some membership => Next membership
      end
  end.

Definition requireTrackAdmin (trackId : ObjectId) (userId : option ObjectId)
    (db : Daily.Db) : Middleware OrganizationMembership :=
  match userId with
  | None => Answered (sendForbidden "User not authenticated")
  | Some userId =>
      match Track_findById trackId (Daily.tracks db) with
      | None => Answered (sendNotFound "Track not found")
      | Some track =>
          match findOrgAdmin userId (organizationId track)
                             (Daily.organizationMemberships db) with
          | None =>
              Answered
                (sendForbidden "Only organization admins can perform this action")
          | Some membership => Next membership
          end
      end
  end.

End Rbac.

(** ** src/controllers/submission.controller.ts: the reading handlers and
       the routes of src/routes/submission.routes.ts *)

Module SubmissionQueries.

Import Model LeaderboardService.

(** [traverse f l]: the results of [f] on [l], or nothing when [f] throws
    on an element. *)
Fixpoint traverse {A B : Type} (f : A -> option B) (l : list A)
  : option (list B) :=
  match l with
  | [] => Some []
  | x :: l' =>
      match f x with
      | None => None
      | Some y =>
          match traverse f l' with
          | None => None
          | Some ys => Some (y :: ys)
          end
      end
  end.

(** An element of the lists that [listSubmissions] and
    [getPendingSubmissions] answer with, and the body of [getSubmission];
    [getPendingSubmissions] leaves the decision fields out. *)
Record Listed : Type := mkListed
  { l_id : ObjectId;
    l_user : User;
    l_weekStart : Z;
    l_weekEnd : Z;
    l_description : string;
    l_proofUrl : string;
    l_proofType : ProofType;
    l_status : option SubmissionStatus;
    l_score : option Q;
    l_verifiedBy : option (ObjectId * option string);
    l_verifiedAt : option Z;
    l_createdAt : Z }.

Section Handlers.

Variable LocalTZA : Z.

(** [new Date(string)], for the [week] query parameter. *)
Variable parseDate : string -> Z.

(** The [createdAt] timestamp that the schema option [timestamps] keeps
    for each submission. *)
Variable createdAt : ObjectId -> Z.

Definition User_findById (id : ObjectId) (db : Daily.Db) : option User :=
  find (fun u => user_id u =? id) (Daily.users db).

(** [.populate('verifiedBy', ...)] and
    [s.verifiedBy ? { id, displayName } : null]. *)
Definition populateVerifiedBy (s : Daily.Submission) (db : Daily.Db)
  : option (ObjectId * option string) :=
  match Daily.verifiedBy s with
  | None => None
  | Some id =>
      match User_findById id db with
      | None => None
      | Some u => Some (user_id u, displayName u)
      end
  end.

(** One element of the answer of [listSubmissions]: reading
    [s.userId._id] throws when the populated user is [null]. *)
Definition listed (db : Daily.Db) (s : Daily.Submission) : option Listed :=
  match User_findById (Daily.userId s) db with
  | None => None
  | Some u =>
      Some (mkListed (Daily.sub_id s) u (Daily.weekStart s) (Daily.weekEnd s)
                     (Daily.description s) (Daily.proofUrl s) (Daily.proofType s)
                     (Some (Daily.status s)) (Daily.score s)
                     (populateVerifiedBy s db) (Daily.verifiedAt s)
                     (createdAt (Daily.sub_id s)))
  end.

Definition listedPending (db : Daily.Db) (s : Daily.Submission) : option Listed :=
  match User_findById (Daily.userId s) db with
  | None => None
  | Some u =>
      Some (mkListed (Daily.sub_id s) u (Daily.weekStart s) (Daily.weekEnd s)
                     (Daily.description s) (Daily.proofUrl s) (Daily.proofType s)
                     None None None None
                     (createdAt (Daily.sub_id s)))
  end.

(** [orgMembership?.role === 'owner' || orgMembership?.role === 'admin']
    after [OrganizationMembership.findOne({ userId, organizationId })]. *)
Definition isAdmin (userId organizationId : ObjectId) (db : Daily.Db) : bool :=
  match Rbac.OrganizationMembership_findOne userId organizationId
          (Daily.organizationMemberships db) with
  | Some m => match om_role m with
              | org_owner | org_admin => true
              | org_member => false
              end
  | None => false
  end.

(** The filter [listSubmissions] builds: the track, the caller's own
    submissions unless the caller is an admin, and the week when the
    request names one. *)
Definition listQuery (now : Z) (userId' : ObjectId) (track : Track)
    (week : option string) (db : Daily.Db) (s : Daily.Submission) : bool :=
  (Daily.trackId s =? track_id track)
  && (isAdmin userId' (organizationId track) db || (Daily.userId s =? userId'))
  && match week with
     | None => true
     | Some w =>
         if String.eqb w "" then true
         else Daily.weekStart s =?
              WeekService.wb_start
                (WeekQueries.weekOfQuery LocalTZA parseDate now (Some w)
                                         (weekStartDay track))
     end.

(** [GET /api/tracks/:trackId/submissions]; [.sort({ createdAt: -1 })]. *)
Definition listSubmissions (now : Z) (userId' trackId' : ObjectId)
    (week : option string) (db : Daily.Db) : Outcome (list Listed) :=
  match Track_findById trackId' (Daily.tracks db) with
  | None => Responded (sendNotFound "Track not found")
  | Some track =>
      let submissions :=
        Array_sort
          (fun a b => inject_Z (createdAt (Daily.sub_id b)
                                - createdAt (Daily.sub_id a)))
          (filter (listQuery now userId' track week db) (Daily.submissions db)) in
      match traverse (listed db) submissions with
      | None => Threw
      | Some result => Responded (sendSuccess result 200)
      end
  end.

(** [GET /api/tracks/:trackId/submissions/pending];
    [.sort({ createdAt: 1 })]. *)
Definition getPendingSubmissions (trackId' : ObjectId) (db : Daily.Db)
  : Outcome (list Listed) :=
  let submissions :=
    Array_sort
      (fun a b => inject_Z (createdAt (Daily.sub_id a)
                            - createdAt (Daily.sub_id b)))
      (filter (fun s => (Daily.trackId s =? trackId')
                        && SubmissionStatus_eqb (Daily.status s) pending)
              (Daily.submissions db)) in
  match traverse (listedPending db) submissions with
  | None => Threw
  | Some result => Responded (sendSuccess result 200)
  end.

(** [GET /api/submissions/:id]: the author and the owners and admins of
    the organization may read a submission. *)
Definition getSubmission (userId' id : ObjectId) (db : Daily.Db)
  : Outcome Listed :=
  match Daily.Submission_findById id db with
  | None => Responded (sendNotFound "Submission not found")
  | Some submission =>
      match Track_findById (Daily.trackId submission) (Daily.tracks db) with
      | None => Responded (sendNotFound "Track not found")
      | Some track =>
          match User_findById (Daily.userId submission) db with
          | None => Threw
          | Some author =>
              let isOwner := user_id author =? userId' in
              if negb (isAdmin userId' (organizationId track) db) && negb isOwner
              then Responded (sendError "Access denied" 403)
              else
                match listed db submission with
                | None => Threw
                | Some body => Responded (sendSuccess body 200)
                end
          end
      end
  end.

(** The routes: the middleware in front of each handler.  [userId] is
    the user that [authenticate] attached to the request. *)
Definition forwardAnswer {T : Type} (response : ApiResponse unit) : ApiResponse T :=
  mkApiResponse (statusCode response) (success response) None (error response).

Definition routeCreateSubmission (now : Z) (newId userId' trackId' : ObjectId)
    (description proofUrl proofType : string) (db : Daily.Db)
  : ApiResponse Daily.Submission * Daily.Db :=
  match Rbac.requireTrackMember trackId' (Some userId') db with
  | Rbac.Answered response => (forwardAnswer response, db)
  | Rbac.Next _ =>
      Daily.createSubmission LocalTZA now newId userId' trackId'
                             description proofUrl proofType db
  end.

Definition routeListSubmissions (now : Z) (userId' trackId' : ObjectId)
    (week : option string) (db : Daily.Db) : Outcome (list Listed) :=
  match Rbac.requireTrackMember trackId' (Some userId') db with
  | Rbac.Answered response => Responded (forwardAnswer response)
  | Rbac.Next _ => listSubmissions now userId' trackId' week db
  end.

Definition routeGetPendingSubmissions (userId' trackId' : ObjectId)
    (db : Daily.Db) : Outcome (list Listed) :=
  match Rbac.requireTrackAdmin trackId' (Some userId') db with
  | Rbac.Answered response => Responded (forwardAnswer response)
  | Rbac.Next _ => getPendingSubmissions trackId' db
  end.

End Handlers.

End SubmissionQueries.

(** Every stored submission was written by a member of its track, and
    membership documents have distinct ids. *)
Module Members.

Definition authorsAreMembers (db : Daily.Db) : Prop :=
  NoDup (map Daily.tm_id (Daily.trackMemberships db)) /\
  forall s, In s (Daily.submissions db) ->
            Daily.TrackMembership_findOne (Daily.userId s) (Daily.trackId s) db
            <> None.

(** One membership per user and organization (the unique index of the
    OrganizationMembership schema). *)
Definition oneRolePerOrganization (db : Daily.Db) : Prop :=
  NoDup (map (fun m => (Model.om_userId m, Model.om_organizationId m))
             (Daily.organizationMemberships db)).

End Members.

(** * Properties *)

Import JsDate.

Lemma Day_MakeDate_midnight (day : Z) : Day (MakeDate day 0) = day.
Proof.
  unfold Day, MakeDate, msPerDay. rewrite Z.add_0_r.
  apply Z.div_mul. discriminate.
Qed.

Lemma TimeWithinDay_MakeDate_midnight (day : Z) :
  TimeWithinDay (MakeDate day 0) = 0.
Proof.
  unfold TimeWithinDay, MakeDate, msPerDay. rewrite Z.add_0_r.
  apply Z.mod_mul. discriminate.
Qed.

(** Moving the day of the month by [k] moves the time value by [k] days. *)
Lemma setUTCDate_shift (t k : Z) :
  setUTCDate t (getUTCDate t + k) = t + k * msPerDay.
Proof.
  unfold setUTCDate, getUTCDate, MakeDayInMonthOf, MakeDate, TimeWithinDay, Day.
  pose proof (Z.div_mod t msPerDay) as E.
  unfold msPerDay in *. lia.
Qed.

Lemma setUTCHours_midnight (t : Z) :
  setUTCHours t 0 0 0 0 = MakeDate (Day t) 0.
Proof. reflexivity. Qed.

Lemma getWeekBoundaries_start (date weekStartDay : Z) :
  WeekService.wb_start (WeekService.getWeekBoundaries date weekStartDay) =
  MakeDate (Day date -
            (if WeekDay date - weekStartDay <? 0
             then WeekDay date - weekStartDay + 7
             else WeekDay date - weekStartDay)) 0.
Proof.
  unfold WeekService.getWeekBoundaries. cbn [WeekService.wb_start].
  rewrite !setUTCHours_midnight.
  replace (getUTCDay (MakeDate (Day date) 0)) with (WeekDay date)
    by (unfold getUTCDay, WeekDay; now rewrite Day_MakeDate_midnight).
  set (n := if WeekDay date - weekStartDay <? 0
            then WeekDay date - weekStartDay + 7
            else WeekDay date - weekStartDay).
  replace (getUTCDate (MakeDate (Day date) 0) - n)
    with (getUTCDate (MakeDate (Day date) 0) + - n) by lia.
  rewrite setUTCDate_shift.
  unfold MakeDate at 2. rewrite Z.add_0_r, <- Z.mul_add_distr_r.
  f_equal. unfold Day at 1. rewrite Z.div_mul by discriminate. lia.
Qed.

Lemma WeekDay_range (t : Z) : 0 <= WeekDay t < 7.
Proof. unfold WeekDay. apply Z.mod_pos_bound. lia. Qed.

Lemma daysSinceStart_mod (w d : Z) :
  0 <= w < 7 -> 0 <= d <= 6 ->
  (if w - d <? 0 then w - d + 7 else w - d) = (w - d) mod 7.
Proof.
  intros Hw Hd. destruct (Z.ltb_spec (w - d) 0).
  - apply Z.mod_unique with (q := -1); lia.
  - symmetry. apply Z.mod_small. lia.
Qed.

Lemma WeekDay_MakeDate_midnight (day : Z) :
  WeekDay (MakeDate day 0) = (day + 4) mod 7.
Proof. unfold WeekDay. now rewrite Day_MakeDate_midnight. Qed.

(** A midnight one millisecond earlier: hours, minutes and seconds of a
    midnight are zero. *)
Lemma setUTCMilliseconds_midnight (day ms : Z) :
  setUTCMilliseconds (MakeDate day 0) ms = MakeDate day 0 + ms.
Proof.
  unfold setUTCMilliseconds. rewrite Day_MakeDate_midnight.
  unfold HourFromTime, MinFromTime, SecFromTime, MakeTime, MakeDate.
  unfold msPerDay, msPerHour, msPerMinute, msPerSecond.
  Z.div_mod_to_equations. lia.
Qed.

Lemma getWeekBoundaries_end (date weekStartDay : Z) :
  WeekService.wb_end (WeekService.getWeekBoundaries date weekStartDay) =
  WeekService.wb_start (WeekService.getWeekBoundaries date weekStartDay)
  + 7 * msPerDay - 1.
Proof.
  rewrite getWeekBoundaries_start.
  unfold WeekService.getWeekBoundaries. cbn [WeekService.wb_end].
  set (ws := setUTCHours (setUTCDate _ _) 0 0 0 0).
  assert (Hws : ws = MakeDate (Day date -
            (if WeekDay date - weekStartDay <? 0
             then WeekDay date - weekStartDay + 7
             else WeekDay date - weekStartDay)) 0).
  { rewrite <- getWeekBoundaries_start. reflexivity. }
  rewrite setUTCDate_shift, Hws.
  set (k := Day date - _).
  replace (MakeDate k 0 + 7 * msPerDay) with (MakeDate (k + 7) 0)
    by (unfold MakeDate; lia).
  rewrite setUTCMilliseconds_midnight. unfold MakeDate. lia.
Qed.

(** The week of the week service: the start is a UTC midnight on the
    week start day, [(weekday - d) mod 7] days before the midnight of
    the instant, the latest such midnight not after it; the end is the
    last millisecond of the seventh day. *)
Lemma WeekService_getWeekBoundaries_week (instant d : Z) :
  0 <= d <= 6 ->
  let b := WeekService.getWeekBoundaries instant d in
  let midnight := setUTCHours instant 0 0 0 0 in
  TimeWithinDay (WeekService.wb_start b) = 0 /\
  WeekDay (WeekService.wb_start b) = d /\
  WeekService.wb_start b =
    midnight - ((WeekDay instant - d) mod 7) * msPerDay /\
  WeekService.wb_start b <= midnight /\
  (forall s, TimeWithinDay s = 0 -> WeekDay s = d -> s <= midnight ->
             s <= WeekService.wb_start b) /\
  WeekService.wb_end b = WeekService.wb_start b + 7 * msPerDay - 1.
Proof.
  intros Hd b midnight. subst b midnight.
  rewrite getWeekBoundaries_end, getWeekBoundaries_start.
  rewrite setUTCHours_midnight.
  pose proof (WeekDay_range instant) as Hw.
  rewrite (daysSinceStart_mod _ _ Hw Hd).
  set (n := (WeekDay instant - d) mod 7).
  assert (Hn : 0 <= n < 7) by (apply Z.mod_pos_bound; lia).
  assert (Hwd : (Day instant - n + 4) mod 7 = d).
  { subst n. unfold WeekDay in *. clear Hn Hw.
    Z.div_mod_to_equations. lia. }
  repeat split.
  - apply TimeWithinDay_MakeDate_midnight.
  - rewrite WeekDay_MakeDate_midnight. exact Hwd.
  - unfold MakeDate. lia.
  - unfold MakeDate, msPerDay. lia.
  - intros s Hs0 Hsd Hle.
    unfold TimeWithinDay in Hs0. unfold WeekDay in Hsd.
    assert (Hs : s = MakeDate (Day s) 0).
    { unfold MakeDate, Day. pose proof (Z.div_mod s msPerDay).
      unfold msPerDay in *. lia. }
    rewrite Hs in Hle |- *. set (k := Day s) in *.
    assert (Hk : k <= Day instant) by (unfold MakeDate, msPerDay in Hle; lia).
    assert (Hcong : (Day instant - n - k) mod 7 = 0).
    { replace (Day instant - n - k) with ((Day instant - n + 4) - (k + 4)) by lia.
      rewrite Zminus_mod, Hwd, Hsd, Z.sub_diag. reflexivity. }
    apply Z.mod_divide in Hcong; [| lia]. destruct Hcong as [q Hq].
    unfold MakeDate, msPerDay. lia.
Qed.

(** ** The streak multiplier *)

Open Scope Q_scope.

Lemma getStreakMultiplier_bounds (s : Z) :
  1 <= Helpers.getStreakMultiplier s <= 3.
Proof.
  unfold Helpers.getStreakMultiplier.
  destruct (Z.leb_spec s 0) as [Hs | Hs]; [lra |].
  assert (H1 : inject_Z 1 <= inject_Z s) by (rewrite <- Zle_Qle; lia).
  change (inject_Z 1) with 1 in H1.
  split.
  - apply Q.min_glb; lra.
  - apply Q.le_min_r.
Qed.

Lemma getStreakMultiplier_monotone (s s' : Z) :
  (s <= s')%Z ->
  Helpers.getStreakMultiplier s <= Helpers.getStreakMultiplier s'.
Proof.
  intros Hle.
  destruct (Z.leb_spec s 0) as [Hs | Hs].
  - unfold Helpers.getStreakMultiplier at 1.
    destruct (Z.leb_spec s 0); [| lia].
    apply getStreakMultiplier_bounds.
  - unfold Helpers.getStreakMultiplier.
    destruct (Z.leb_spec s 0); [lia |].
    destruct (Z.leb_spec s' 0); [lia |].
    assert (H1 : inject_Z s <= inject_Z s') by (rewrite <- Zle_Qle; lia).
    apply Q.min_le_compat_r. lra.
Qed.

(** The first edition of [getStreakMultiplier]: 1 for a streak that is
    not positive and [min(1 + streak * 0.12, 3)] otherwise; it never
    decreases when the streak grows and never exceeds its cap of 3 (at a
    streak of 10,000 it is exactly the cap). *)
Lemma getStreakMultiplier_daily_spec :
  (forall s : Z,
     Helpers.getStreakMultiplier s ==
     if (s <=? 0)%Z then 1 else Qmin (1 + inject_Z s * (12 # 100)) 3) /\
  (forall s s' : Z,
     (s <= s')%Z ->
     Helpers.getStreakMultiplier s <= Helpers.getStreakMultiplier s') /\
  (forall s : Z, Helpers.getStreakMultiplier s <= 3) /\
  Helpers.getStreakMultiplier 0 == 1 /\
  Helpers.getStreakMultiplier 10000 == 3.
Proof.
  split; [| split; [| split; [| split]]].
  - intros s. unfold Helpers.getStreakMultiplier.
    destruct (s <=? 0)%Z; reflexivity.
  - exact getStreakMultiplier_monotone.
  - intros s. apply getStreakMultiplier_bounds.
  - reflexivity.
  - reflexivity.
Qed.

(** The two other editions of the helper obey the same shape, with
    their own slope and cap. *)
Lemma getStreakMultiplier_weekly_bounds (s : Z) :
  1 <= Helpers.getStreakMultiplier_weekly s <= 2.
Proof.
  unfold Helpers.getStreakMultiplier_weekly.
  destruct (Z.leb_spec s 0) as [Hs | Hs]; [lra |].
  assert (H1 : inject_Z 1 <= inject_Z s) by (rewrite <- Zle_Qle; lia).
  change (inject_Z 1) with 1 in H1.
  split.
  - apply Q.min_glb; lra.
  - apply Q.le_min_r.
Qed.

Lemma getStreakMultiplier_weekly_monotone (s s' : Z) :
  (s <= s')%Z ->
  Helpers.getStreakMultiplier_weekly s <= Helpers.getStreakMultiplier_weekly s'.
Proof.
  intros Hle.
  destruct (Z.leb_spec s 0) as [Hs | Hs].
  - unfold Helpers.getStreakMultiplier_weekly at 1.
    destruct (Z.leb_spec s 0); [| lia].
    apply getStreakMultiplier_weekly_bounds.
  - unfold Helpers.getStreakMultiplier_weekly.
    destruct (Z.leb_spec s 0); [lia |].
    destruct (Z.leb_spec s' 0); [lia |].
    assert (H1 : inject_Z s <= inject_Z s') by (rewrite <- Zle_Qle; lia).
    apply Q.min_le_compat_r. lra.
Qed.

Lemma getStreakMultiplier_offset_cap (s : Z) :
  Helpers.getStreakMultiplier_offset s <= 3.
Proof.
  unfold Helpers.getStreakMultiplier_offset.
  destruct (s <=? 0)%Z; [lra | apply Q.le_min_r].
Qed.

(** The editions disagree from a streak of two on. *)
Lemma getStreakMultiplier_editions_differ :
  Helpers.getStreakMultiplier 2 == 124 # 100 /\
  Helpers.getStreakMultiplier_offset 2 == 122 # 100 /\
  Helpers.getStreakMultiplier_weekly 2 == 12 # 10.
Proof. repeat split. Qed.

Close Scope Q_scope.

(** ** The streak rule *)

Open Scope Z_scope.

Lemma setHours_midnight (tz t : Z) :
  setHours tz t 0 0 0 0 = MakeDate (Day (t + tz)) 0 - tz.
Proof. reflexivity. Qed.

(** In local time too, moving the day of the month by [k] moves the time
    value by [k] days. *)
Lemma setDate_shift (tz t k : Z) :
  setDate tz t (getDate tz t + k) = t + k * msPerDay.
Proof.
  unfold setDate, getDate, UTC, LocalTime.
  change (MakeDate (MakeDayInMonthOf (t + tz) (DateFromTime (t + tz) + k))
                   (TimeWithinDay (t + tz)))
    with (setUTCDate (t + tz) (getUTCDate (t + tz) + k)).
  rewrite setUTCDate_shift. lia.
Qed.

Lemma dayBefore_eq (tz t : Z) :
  setDate tz t (getDate tz t - 1) = t - msPerDay.
Proof.
  replace (getDate tz t - 1) with (getDate tz t + -1) by lia.
  rewrite setDate_shift. lia.
Qed.

Lemma prevWeekStart_eq (tz t : Z) :
  setDate tz t (getDate tz t - 7) = t - 7 * msPerDay.
Proof.
  replace (getDate tz t - 7) with (getDate tz t + -7) by lia.
  rewrite setDate_shift. lia.
Qed.

(** Each conjunct of a case of the rule: equalities of markers are
    inverted, the comparison that updates [longestStreak] is decided. *)
Ltac streak_case :=
  repeat match goal with |- _ /\ _ => split end; intros;
  repeat match goal with
         | H : Some _ = Some _ |- _ => injection H as H
         end;
  try discriminate; try congruence;
  try match goal with
      | |- context [?a <? ?b] => destruct (Z.ltb_spec a b)
      end;
  unfold msPerDay in *; try lia.

Lemma Daily_updateStreak_cases (tz : Z) (m : Daily.TrackMembership) (date : Z) :
  let day := setHours tz date 0 0 0 0 in
  let marker :=
    option_map (fun last => setHours tz last 0 0 0 0)
               (Daily.lastSubmissionDate m) in
  let m' := Daily.updateStreak tz m date in
  (marker = Some (day - msPerDay) ->
   Daily.currentStreak m' = Daily.currentStreak m + 1) /\
  (marker = Some day -> Daily.currentStreak m' = Daily.currentStreak m) /\
  (marker <> Some (day - msPerDay) -> marker <> Some day ->
   Daily.currentStreak m' = 1) /\
  Daily.longestStreak m <= Daily.longestStreak m' /\
  Daily.lastSubmissionDate m' = Some day.
Proof.
  intros day marker m'. subst m' marker.
  unfold Daily.updateStreak. cbn [Daily.currentStreak Daily.longestStreak
                                  Daily.lastSubmissionDate].
  fold day. rewrite dayBefore_eq.
  destruct (Daily.lastSubmissionDate m) as [last |]; cbn [option_map].
  - set (l := setHours tz last 0 0 0 0).
    destruct (Z.eqb_spec l (day - msPerDay)) as [E1 | N1];
      [| destruct (Z.eqb_spec l day) as [E2 | N2]]; cbn [negb];
      streak_case.
  - streak_case.
Qed.

Lemma Weekly_updateStreak_cases (tz : Z) (m : Weekly.TrackMembership)
    (submissionWeekStart weekStartDay : Z) :
  let week :=
    fst (Helpers.getWeekBoundaries tz submissionWeekStart weekStartDay) in
  let marker := Weekly.lastSubmissionWeek m in
  let m' := Weekly.updateStreak tz m submissionWeekStart weekStartDay in
  (marker = Some (week - 7 * msPerDay) ->
   Weekly.currentStreak m' = Weekly.currentStreak m + 1) /\
  (marker = Some week -> Weekly.currentStreak m' = Weekly.currentStreak m) /\
  (marker <> Some (week - 7 * msPerDay) -> marker <> Some week ->
   Weekly.currentStreak m' = 1) /\
  Weekly.longestStreak m <= Weekly.longestStreak m' /\
  Weekly.lastSubmissionWeek m' = Some week.
Proof.
  intros week marker m'. subst m' marker.
  unfold Weekly.updateStreak. cbn [Weekly.currentStreak Weekly.longestStreak
                                   Weekly.lastSubmissionWeek].
  fold week. unfold Helpers.isPreviousWeek. rewrite prevWeekStart_eq.
  destruct (Weekly.lastSubmissionWeek m) as [last |].
  - destruct (Z.eqb_spec last (week - 7 * msPerDay)) as [E1 | N1];
      [| destruct (Z.eqb_spec last week) as [E2 | N2]]; cbn [negb];
      streak_case.
  - streak_case.
Qed.

(** ** The verification workflow *)

Import Model.

Lemma find_map_replace {A : Type} (key : A -> Z) (x' : A) (l : list A) :
  find (fun x => key x =? key x')
       (map (fun x => if key x =? key x' then x' else x) l) =
  option_map (fun _ => x') (find (fun x => key x =? key x') l).
Proof.
  induction l as [| x l IH]; [reflexivity |].
  cbn [map find]. destruct (Z.eqb_spec (key x) (key x')) as [E | N].
  - rewrite Z.eqb_refl. reflexivity.
  - destruct (Z.eqb_spec (key x) (key x')); [contradiction | exact IH].
Qed.

Lemma Submission_findById_id (id : Z) (db : Daily.Db) (s : Daily.Submission) :
  Daily.Submission_findById id db = Some s -> Daily.sub_id s = id.
Proof.
  unfold Daily.Submission_findById. intros H.
  apply find_some in H. destruct H as [_ H]. now apply Z.eqb_eq.
Qed.

Lemma Submission_findById_save (id : Z) (db : Daily.Db)
    (old new : Daily.Submission) :
  Daily.Submission_findById id db = Some old ->
  Daily.sub_id new = id ->
  Daily.Submission_findById id (Daily.Submission_save new db) = Some new.
Proof.
  unfold Daily.Submission_findById, Daily.Submission_save.
  cbn [Daily.submissions]. intros Hold Hid. subst id.
  rewrite (find_map_replace Daily.sub_id new), Hold. reflexivity.
Qed.

Lemma decision_rejected :
  includes ["approved"; "rejected"]%string "rejected" = true /\
  String.eqb "rejected" "approved" = false.
Proof. split; reflexivity. Qed.

Lemma decision_approved :
  includes ["approved"; "rejected"]%string "approved" = true /\
  String.eqb "approved" "approved" = true.
Proof. split; reflexivity. Qed.

(** Follow [verifySubmission] through its guards, then through the
    decision, the membership lookup and the two writes. *)
Ltac verify_cases :=
  unfold Daily.verifySubmission;
  repeat match goal with
         | |- context [if negb (includes ?l ?s) then _ else _] =>
             destruct (negb (includes l s)) eqn:?
         | |- context [Daily.Submission_findById ?i ?d] =>
             destruct (Daily.Submission_findById i d) eqn:?
         | |- context [Track_findById ?i ?l] =>
             destruct (Track_findById i l) eqn:?
         | |- context [findOrgAdmin ?u ?o ?l] =>
             destruct (findOrgAdmin u o l) eqn:?
         | |- context [negb (SubmissionStatus_eqb ?a ?b)] =>
             destruct (negb (SubmissionStatus_eqb a b)) eqn:?
         | |- context [String.eqb ?s "approved"] =>
             destruct (String.eqb s "approved") eqn:?
         | |- context [Daily.TrackMembership_findOne ?u ?t ?d] =>
             destruct (Daily.TrackMembership_findOne u t d) eqn:?
         | |- context [membershipSaveFails ?io] =>
             destruct (membershipSaveFails io) eqn:?
         | |- context [submissionSaveFails ?io] =>
             destruct (submissionSaveFails io) eqn:?
         end;
  cbn [fst snd].

(** For a pending submission, the daily [verifySubmission] with the
    decision [rejected] leaves the memberships, hence every streak field,
    as they were, whatever else happens; and when the verifier is an
    admin of the track's organization and the write succeeds, the stored
    submission has score 0, the verifier and the decision time. *)
Lemma Daily_reject_keeps_streak (tz : Z) (io : Writes) (now verifierId id : Z)
    (db : Daily.Db) (submission : Daily.Submission) :
  Daily.Submission_findById id db = Some submission ->
  Daily.status submission = pending ->
  let result := Daily.verifySubmission tz io now verifierId id "rejected" db in
  Daily.trackMemberships (snd result) = Daily.trackMemberships db /\
  (forall track,
     Track_findById (Daily.trackId submission) (Daily.tracks db) = Some track ->
     findOrgAdmin verifierId (organizationId track)
                  (Daily.organizationMemberships db) <> None ->
     submissionSaveFails io = false ->
     fst result =
       Responded (sendSuccess
                    (Daily.mkVerified id rejected (Some 0%Q) (Some now)) 200) /\
     exists stored,
       Daily.Submission_findById id (snd result) = Some stored /\
       Daily.status stored = rejected /\
       Daily.score stored = Some 0%Q /\
       Daily.verifiedBy stored = Some verifierId /\
       Daily.verifiedAt stored = Some now).
Proof.
  intros Hfind Hpending result. subst result.
  pose proof (Submission_findById_id _ _ _ Hfind) as Hid.
  split.
  - unfold Daily.verifySubmission.
    rewrite (proj1 decision_rejected), (proj2 decision_rejected).
    rewrite Hfind, Hpending. cbn [negb SubmissionStatus_eqb].
    repeat match goal with
           | |- context [match ?x with _ => _ end] => destruct x eqn:?
           end; reflexivity.
  - intros track Htrack Hadmin Hsave.
    unfold Daily.verifySubmission.
    rewrite (proj1 decision_rejected), (proj2 decision_rejected).
    rewrite Hfind, Htrack, Hpending, Hsave.
    destruct (findOrgAdmin _ _ _); [| contradiction].
    cbn [negb SubmissionStatus_eqb fst snd]. split.
    + cbn [Daily.setDecision Daily.setScore Daily.sub_id Daily.status
           Daily.score Daily.verifiedAt].
      rewrite Hid. reflexivity.
    + eexists. split.
      * apply Submission_findById_save with (old := submission);
          [exact Hfind | exact Hid].
      * cbn. repeat split.
Qed.

(** An approval that passes the guards stores the membership that
    [updateStreak] computes from the submission's date. *)
Lemma approve_applies_updateStreak (tz : Z) (io : Writes)
    (now verifierId id : Z) (db : Daily.Db) (submission : Daily.Submission)
    (track : Track) (membership : Daily.TrackMembership) :
  Daily.Submission_findById id db = Some submission ->
  Track_findById (Daily.trackId submission) (Daily.tracks db) = Some track ->
  findOrgAdmin verifierId (organizationId track)
               (Daily.organizationMemberships db) <> None ->
  Daily.status submission = pending ->
  Daily.TrackMembership_findOne (Daily.userId submission)
                                (Daily.trackId submission) db
    = Some membership ->
  membershipSaveFails io = false ->
  Daily.trackMemberships
    (snd (Daily.verifySubmission tz io now verifierId id "approved" db))
  = Daily.trackMemberships
      (Daily.TrackMembership_save
         (Daily.updateStreak tz membership (Daily.submissionDate submission))
         db).
Proof.
  intros Hfind Htrack Hadmin Hpending Hm Hsave.
  unfold Daily.verifySubmission.
  rewrite (proj1 decision_approved), (proj2 decision_approved).
  rewrite Hfind, Htrack, Hpending.
  destruct (findOrgAdmin _ _ _); [| contradiction].
  cbn [negb SubmissionStatus_eqb Daily.setScore Daily.userId Daily.trackId
       Daily.submissionDate].
  rewrite Hm, Hsave.
  destruct (submissionSaveFails io); reflexivity.
Qed.

(** The streak through a run: 1 after the first approval, 2 after the
    approval of the next day, and, after a day without submission, back
    to 1 with the longest streak still 2. *)
Lemma streak_scenario :
  map (fun n =>
         map (fun m => (Daily.currentStreak m, Daily.longestStreak m))
             (Daily.trackMemberships
                (Spec.run 0 (firstn n Samples.scenario) Samples.dbStart)))
      [1; 3; 5; 7]%nat
  = [[(0, 0)]; [(1, 1)]; [(2, 2)]; [(1, 2)]].
Proof. reflexivity. Qed.

(** A call that does not answer with success leaves the submissions as
    they were. *)
Lemma verifySubmission_failed_submissions (tz : Z) (io : Writes)
    (now verifierId id : Z) (status : string) (db : Daily.Db) :
  Spec.failed (fst (Daily.verifySubmission tz io now verifierId id status db)) ->
  Daily.submissions (snd (Daily.verifySubmission tz io now verifierId id status db))
  = Daily.submissions db.
Proof.
  verify_cases; cbn [Spec.failed success sendSuccess];
    intros Hfailed; try reflexivity; discriminate.
Qed.

(** The guard of the daily [verifySubmission]: a call on a submission
    that is no longer pending changes nothing in the database and fails;
    when the decision is well formed, the track exists and the verifier
    is an admin of its organization, the answer is the error
    "Submission has already been verified", sent with the default status
    of [sendError]. *)
Lemma Daily_verify_decided_refused (tz : Z) (io : Writes) (now verifierId id : Z)
    (status : string) (db : Daily.Db) (submission : Daily.Submission) :
  Daily.Submission_findById id db = Some submission ->
  Daily.status submission <> pending ->
  let result := Daily.verifySubmission tz io now verifierId id status db in
  snd result = db /\
  Spec.failed (fst result) /\
  (forall track,
     includes ["approved"; "rejected"]%string status = true ->
     Track_findById (Daily.trackId submission) (Daily.tracks db) = Some track ->
     findOrgAdmin verifierId (organizationId track)
                  (Daily.organizationMemberships db) <> None ->
     fst result =
       Responded (sendError "Submission has already been verified" 400)).
Proof.
  intros Hfind Hdecided result. subst result.
  assert (Hnp : negb (SubmissionStatus_eqb (Daily.status submission) pending)
                = true)
    by (destruct (Daily.status submission); [contradiction | reflexivity ..]).
  unfold Daily.verifySubmission. rewrite Hfind, Hnp.
  split; [| split].
  - repeat match goal with
           | |- context [match ?x with _ => _ end] => destruct x eqn:?
           end; reflexivity.
  - repeat match goal with
           | |- context [match ?x with _ => _ end] => destruct x eqn:?
           end; reflexivity.
  - intros track Hincl Htrack Hadmin. rewrite Hincl, Htrack.
    destruct (findOrgAdmin _ _ _); [reflexivity | contradiction].
Qed.




(** C6, as the code has it.  [verifySubmission] writes the membership
    first and the submission second, without a transaction.  A call that
    fails leaves the submissions as they were, so the submission stays
    pending; it leaves the whole database as it was unless it is an
    approval whose membership write succeeded and whose submission write
    failed, in which case the membership's streak update is stored. *)
Theorem verify_failure_effects (tz : Z) (io : Writes) (now verifierId id : Z)
    (status : string) (db : Daily.Db) :
  let result := Daily.verifySubmission tz io now verifierId id status db in
  Spec.failed (fst result) ->
  Daily.submissions (snd result) = Daily.submissions db /\
  (snd result = db \/
   (String.eqb status "approved" = true /\
    membershipSaveFails io = false /\
    submissionSaveFails io = true /\
    exists submission membership,
      Daily.Submission_findById id db = Some submission /\
      Daily.status submission = pending /\
      Daily.TrackMembership_findOne (Daily.userId submission)
                                    (Daily.trackId submission) db
        = Some membership /\
      snd result =
        Daily.TrackMembership_save
          (Daily.updateStreak tz membership (Daily.submissionDate submission))
          db)).
Proof.
  intros result Hfailed. subst result. split.
  - now apply verifySubmission_failed_submissions.
  - revert Hfailed. verify_cases; cbn [Spec.failed success sendSuccess];
      intros Hfailed; try discriminate; try (left; reflexivity).
    right. repeat split.
    match goal with
    | s : Daily.Submission, m : Daily.TrackMembership |- _ =>
        exists s, m
    end.
    repeat split; try assumption.
    match goal with
    | H : negb (SubmissionStatus_eqb ?x pending) = false |- ?x = pending =>
        destruct x; [reflexivity | discriminate ..]
    end.
Qed.

Lemma verify_failure_effects_witness :
  Daily.submissions
    (snd (Daily.verifySubmission 0 Samples.submissionWriteFails 1705505400000
                                 7 100 "approved" Samples.dbPending))
  = [Samples.pendingSubmission].
Proof.
  apply (verify_failure_effects 0 Samples.submissionWriteFails 1705505400000
           7 100 "approved" Samples.dbPending I).
Defined.

(** C6, as the claim has it, fails: when the submission write of an
    approval is rejected, the call throws with the submission still
    pending and the membership's streak already moved from 0 to 1. *)
Lemma verify_half_applied :
  fst (Daily.verifySubmission 0 Samples.submissionWriteFails 1705505400000
                              7 100 "approved" Samples.dbPending) = Threw /\
  option_map Daily.status
    (Daily.Submission_findById 100
       (snd (Daily.verifySubmission 0 Samples.submissionWriteFails
               1705505400000 7 100 "approved" Samples.dbPending)))
  = Some pending /\
  option_map Daily.currentStreak
    (Daily.TrackMembership_findOne 5 1 Samples.dbPending) = Some 0 /\
  option_map Daily.currentStreak
    (Daily.TrackMembership_findOne 5 1
       (snd (Daily.verifySubmission 0 Samples.submissionWriteFails
               1705505400000 7 100 "approved" Samples.dbPending)))
  = Some 1.
Proof. repeat split. Qed.

(** ** The streak invariant *)

Lemma Daily_updateStreak_invariant (tz : Z) (m : Daily.TrackMembership)
    (date : Z) :
  Spec.streakInvariant (Daily.updateStreak tz m date).
Proof.
  unfold Spec.streakInvariant, Daily.updateStreak.
  cbn [Daily.currentStreak Daily.longestStreak].
  match goal with
  | |- context [?a <? ?b] => destruct (Z.ltb_spec a b)
  end; lia.
Qed.

Lemma Weekly_updateStreak_invariant (tz : Z) (m : Weekly.TrackMembership)
    (submissionWeekStart weekStartDay : Z) :
  Spec.weeklyStreakInvariant
    (Weekly.updateStreak tz m submissionWeekStart weekStartDay).
Proof.
  unfold Spec.weeklyStreakInvariant, Weekly.updateStreak.
  cbn [Weekly.currentStreak Weekly.longestStreak].
  match goal with
  | |- context [?a <? ?b] => destruct (Z.ltb_spec a b)
  end; lia.
Qed.

Lemma Forall_map_replace {A : Type} (P : A -> Prop) (test : A -> bool)
    (x' : A) (l : list A) :
  P x' -> Forall P l -> Forall P (map (fun x => if test x then x' else x) l).
Proof.
  intros Hx' Hl. induction Hl as [| x l Hx Hl IH]; cbn [map].
  - constructor.
  - constructor; [destruct (test x); assumption | exact IH].
Qed.

Lemma Daily_verifySubmission_invariant (tz : Z) (io : Writes)
    (now verifierId id : Z) (status : string) (db : Daily.Db) :
  Forall Spec.streakInvariant (Daily.trackMemberships db) ->
  Forall Spec.streakInvariant
    (Daily.trackMemberships
       (snd (Daily.verifySubmission tz io now verifierId id status db))).
Proof.
  intros Hinv. verify_cases; try exact Hinv;
    cbn [Daily.Submission_save Daily.TrackMembership_save
         Daily.trackMemberships];
    try exact Hinv;
    (apply Forall_map_replace;
     [apply Daily_updateStreak_invariant | exact Hinv]).
Qed.

Lemma Daily_createSubmission_memberships (tz now newId userId trackId : Z)
    (description proofUrl proofType : string) (db : Daily.Db) :
  Daily.trackMemberships
    (snd (Daily.createSubmission tz now newId userId trackId
                                 description proofUrl proofType db))
  = Daily.trackMemberships db.
Proof.
  unfold Daily.createSubmission.
  repeat match goal with
         | |- context [match ?x with _ => _ end] => destruct x eqn:?
         end; reflexivity.
Qed.

Lemma Daily_perform_invariant (tz : Z) (db : Daily.Db) (op : Spec.Operation) :
  Forall Spec.streakInvariant (Daily.trackMemberships db) ->
  Forall Spec.streakInvariant (Daily.trackMemberships (Spec.perform tz db op)).
Proof.
  intros Hinv. destruct op; cbn [Spec.perform].
  - unfold Daily.TrackMembership_create. cbn [Daily.trackMemberships].
    apply Forall_app. split; [exact Hinv |].
    constructor; [| constructor].
    unfold Spec.streakInvariant. cbn. lia.
  - rewrite Daily_createSubmission_memberships. exact Hinv.
  - now apply Daily_verifySubmission_invariant.
Qed.

Lemma Weekly_verifySubmission_invariant (tz : Z) (io : Writes)
    (now verifierId id : Z) (status : string) (score : option Q)
    (db : Weekly.Db) :
  Forall Spec.weeklyStreakInvariant (Weekly.trackMemberships db) ->
  Forall Spec.weeklyStreakInvariant
    (Weekly.trackMemberships
       (snd (Weekly.verifySubmission tz io now verifierId id status score db))).
Proof.
  intros Hinv. unfold Weekly.verifySubmission.
  repeat match goal with
         | |- context [if negb (includes ?l ?s) then _ else _] =>
             destruct (negb (includes l s)) eqn:?
         | |- context [Weekly.Submission_findById ?i ?d] =>
             destruct (Weekly.Submission_findById i d) eqn:?
         | |- context [Track_findById ?i ?l] =>
             destruct (Track_findById i l) eqn:?
         | |- context [String.eqb ?s "approved"] =>
             destruct (String.eqb s "approved") eqn:?
         | |- context [match score with _ => _ end] => destruct score
         | |- context [Qlt_bool ?a ?b || Qlt_bool ?c ?d] =>
             destruct (Qlt_bool a b || Qlt_bool c d) eqn:?
         | |- context [Weekly.TrackMembership_findOne ?u ?t ?d] =>
             destruct (Weekly.TrackMembership_findOne u t d) eqn:?
         | |- context [membershipSaveFails ?io] =>
             destruct (membershipSaveFails io) eqn:?
         | |- context [submissionSaveFails ?io] =>
             destruct (submissionSaveFails io) eqn:?
         end;
    cbn [fst snd Weekly.Submission_save Weekly.TrackMembership_save
         Weekly.trackMemberships];
    try exact Hinv;
    (apply Forall_map_replace;
     [apply Weekly_updateStreak_invariant | exact Hinv]).
Qed.

(** The handler's own check comes first, so the unique index of the
    schema never refuses the document the handler creates; what is left
    of [Submission.create] is the validation. *)
Lemma Weekly_Submission_create_checked (s : Weekly.Submission) (db : Weekly.Db) :
  Weekly.Submission_findOne (Weekly.userId s) (Weekly.trackId s)
                            (Weekly.weekStart s) db = None ->
  Weekly.Submission_create s db =
  if Weekly.Submission_validate (Weekly.Submission_cast s)
  then Some (Weekly.mkDb (Weekly.users db) (Weekly.tracks db)
                         (Weekly.organizationMemberships db)
                         (Weekly.trackMemberships db)
                         (Weekly.submissions db ++ [Weekly.Submission_cast s]))
  else None.
Proof.
  unfold Weekly.Submission_create. intros H. cbv zeta.
  cbn [Weekly.Submission_cast Weekly.userId Weekly.trackId Weekly.weekStart]
    in *.
  destruct (Weekly.Submission_validate _); cbn [negb]; [| reflexivity].
  now rewrite H.
Qed.

(** Follow [createSubmission] of the weekly edition through its guards. *)
Ltac weekly_create_cases :=
  unfold Weekly.createSubmission;
  repeat match goal with
         | |- context [(String.length ?s <? 10)%nat] =>
             destruct (String.length s <? 10)%nat eqn:?
         | |- context [String.eqb ?s ""] => destruct (String.eqb s "") eqn:?
         | |- context [parseProofType ?s] => destruct (parseProofType s) eqn:?
         | |- context [Track_findById ?i ?l] =>
             destruct (Track_findById i l) eqn:?
         | |- context [Weekly.Submission_findOne ?u ?t ?w ?d] =>
             destruct (Weekly.Submission_findOne u t w d) eqn:?
         end;
  try (rewrite Weekly_Submission_create_checked by assumption;
       match goal with
       | |- context [Weekly.Submission_validate ?s] =>
           destruct (Weekly.Submission_validate s) eqn:?
       end);
  cbn [fst snd].

Lemma Weekly_createSubmission_memberships (now newId userId trackId : Z)
    (description proofUrl proofType : string) (db : Weekly.Db) :
  Weekly.trackMemberships
    (snd (Weekly.createSubmission now newId userId trackId
                                  description proofUrl proofType db))
  = Weekly.trackMemberships db.
Proof. weekly_create_cases; reflexivity. Qed.

Lemma Weekly_perform_invariant (tz : Z) (db : Weekly.Db)
    (op : Spec.WeeklyOperation) :
  Forall Spec.weeklyStreakInvariant (Weekly.trackMemberships db) ->
  Forall Spec.weeklyStreakInvariant
    (Weekly.trackMemberships (Spec.performWeekly tz db op)).
Proof.
  intros Hinv. destruct op; cbn [Spec.performWeekly].
  - unfold Weekly.TrackMembership_create. cbn [Weekly.trackMemberships].
    apply Forall_app. split; [exact Hinv |].
    constructor; [| constructor].
    unfold Spec.weeklyStreakInvariant. cbn. lia.
  - rewrite Weekly_createSubmission_memberships. exact Hinv.
  - now apply Weekly_verifySubmission_invariant.
Qed.

(** C7. In every database reached from one without memberships by
    creating memberships, creating submissions and verifying them
    (approvals and rejections, whether or not a write fails), every
    membership has [longestStreak >= currentStreak]; in the daily and in
    the weekly edition. *)
Theorem longestStreak_bounds_currentStreak (tz : Z) :
  (forall users tracks organizationMemberships submissions
          (ops : list Spec.Operation),
     Forall (fun m => Daily.longestStreak m >= Daily.currentStreak m)
       (Daily.trackMemberships
          (Spec.run tz ops
             (Daily.mkDb users tracks organizationMemberships [] submissions))))
  /\
  (forall users tracks organizationMemberships submissions
          (ops : list Spec.WeeklyOperation),
     Forall (fun m => Weekly.longestStreak m >= Weekly.currentStreak m)
       (Weekly.trackMemberships
          (Spec.runWeekly tz ops
             (Weekly.mkDb users tracks organizationMemberships [] submissions)))).
Proof.
  split.
  - intros users tracks oms subs ops.
    apply Forall_impl with (P := Spec.streakInvariant);
      [unfold Spec.streakInvariant; intros; lia |].
    unfold Spec.run.
    assert (H0 : Forall Spec.streakInvariant
                   (Daily.trackMemberships (Daily.mkDb users tracks oms [] subs)))
      by constructor.
    revert H0. generalize (Daily.mkDb users tracks oms [] subs).
    induction ops as [| op ops IH]; intros db Hdb; cbn [fold_left].
    + exact Hdb.
    + apply IH. now apply Daily_perform_invariant.
  - intros users tracks oms subs ops.
    apply Forall_impl with (P := Spec.weeklyStreakInvariant);
      [unfold Spec.weeklyStreakInvariant; intros; lia |].
    unfold Spec.runWeekly.
    assert (H0 : Forall Spec.weeklyStreakInvariant
                   (Weekly.trackMemberships
                      (Weekly.mkDb users tracks oms [] subs)))
      by constructor.
    revert H0. generalize (Weekly.mkDb users tracks oms [] subs).
    induction ops as [| op ops IH]; intros db Hdb; cbn [fold_left].
    + exact Hdb.
    + apply IH. now apply Weekly_perform_invariant.
Qed.

(** ** One submission per period *)

Lemma find_none_filter {A : Type} (f : A -> bool) (l : list A) :
  find f l = None -> filter f l = [].
Proof.
  induction l as [| x l IH]; cbn [find filter]; [reflexivity |].
  destruct (f x); [discriminate | exact IH].
Qed.

Lemma find_app_new {A : Type} (f : A -> bool) (l : list A) (x : A) :
  find f l = None -> f x = true -> find f (l ++ [x]) = Some x.
Proof.
  intros Hnone Hx. induction l as [| y l IH]; cbn [find app].
  - now rewrite Hx.
  - cbn [find] in Hnone. destruct (f y); [discriminate | now apply IH].
Qed.

(** Follow [createSubmission] of the daily edition through its guards. *)
Ltac daily_create_cases :=
  unfold Daily.createSubmission;
  repeat match goal with
         | |- context [(String.length ?s <? 10)%nat] =>
             destruct (String.length s <? 10)%nat eqn:?
         | |- context [String.eqb ?s ""] => destruct (String.eqb s "") eqn:?
         | |- context [parseProofType ?s] => destruct (parseProofType s) eqn:?
         | |- context [Track_findById ?i ?l] =>
             destruct (Track_findById i l) eqn:?
         | |- context [Daily.Submission_findOne ?u ?t ?w ?d] =>
             destruct (Daily.Submission_findOne u t w d) eqn:?
         end;
  cbn [fst snd].

Lemma validBody_guards (description proofUrl proofType : string) :
  Spec.validBody description proofUrl proofType ->
  (String.length (trim description) <? 10)%nat = false /\
  String.eqb proofUrl "" = false /\
  exists p, parseProofType proofType = Some p.
Proof.
  intros (Hlen & Hurl & Htype). repeat split.
  - apply Nat.ltb_ge. exact Hlen.
  - apply String.eqb_neq. exact Hurl.
  - destruct (parseProofType proofType) as [p |]; [now exists p | contradiction].
Qed.

(** What a created answer (201) of the daily edition tells. *)
Lemma Daily_createSubmission_created (tz now newId userId trackId : Z)
    (description proofUrl proofType : string) (db : Daily.Db) :
  statusCode (fst (Daily.createSubmission tz now newId userId trackId
                     description proofUrl proofType db)) = 201 ->
  exists track submission,
    Track_findById trackId (Daily.tracks db) = Some track /\
    Daily.Submission_findOne userId trackId (setHours tz now 0 0 0 0) db = None /\
    Daily.userId submission = userId /\
    Daily.trackId submission = trackId /\
    Daily.submissionDate submission = setHours tz now 0 0 0 0 /\
    Daily.status submission = pending /\
    snd (Daily.createSubmission tz now newId userId trackId
           description proofUrl proofType db)
    = Daily.Submission_create submission db.
Proof.
  daily_create_cases; cbn [statusCode sendError sendNotFound sendCreated
                           sendSuccess]; intros Hcode; try discriminate.
  match goal with
  | t : Track |- context [Daily.Submission_create ?s db] => exists t, s
  end.
  cbn [Daily.userId Daily.trackId Daily.submissionDate Daily.status].
  repeat split; assumption.
Qed.

Lemma Daily_one_per_day (tz : Z) (db : Daily.Db)
    (now1 newId1 userId trackId : Z) (description1 proofUrl1 proofType1 : string)
    (now2 newId2 : Z) (description2 proofUrl2 proofType2 : string) :
  let first :=
    Daily.createSubmission tz now1 newId1 userId trackId
                           description1 proofUrl1 proofType1 db in
  let second :=
    Daily.createSubmission tz now2 newId2 userId trackId
                           description2 proofUrl2 proofType2 (snd first) in
  statusCode (fst first) = 201 ->
  setHours tz now2 0 0 0 0 = setHours tz now1 0 0 0 0 ->
  Spec.validBody description2 proofUrl2 proofType2 ->
  fst second =
    sendError "You have already submitted today. Come back tomorrow!" 409 /\
  snd second = snd first /\
  List.length (Spec.submissionsOfDay userId trackId
                                     (setHours tz now1 0 0 0 0) (snd second))
  = 1%nat.
Proof.
  intros first second Hcreated Hday Hbody. subst second.
  destruct (Daily_createSubmission_created _ _ _ _ _ _ _ _ _ Hcreated)
    as (track & sub & Htrack & Hnone & Hu & Ht & Hd & _ & Hdb).
  fold first in Hdb.
  destruct (validBody_guards _ _ _ Hbody) as (Hlen & Hurl & p & Hp).
  set (matches := fun s => (Daily.userId s =? userId) && (Daily.trackId s =? trackId)
                           && (Daily.submissionDate s =? setHours tz now1 0 0 0 0)).
  assert (Hsub : matches sub = true)
    by (unfold matches; rewrite Hu, Ht, Hd, !Z.eqb_refl; reflexivity).
  assert (Hfound : Daily.Submission_findOne userId trackId
                     (setHours tz now2 0 0 0 0) (snd first) = Some sub).
  { rewrite Hdb, Hday. unfold Daily.Submission_findOne, Daily.Submission_create.
    cbn [Daily.submissions]. apply (find_app_new matches); assumption. }
  assert (Hsecond :
            Daily.createSubmission tz now2 newId2 userId trackId
              description2 proofUrl2 proofType2 (snd first)
            = (sendError "You have already submitted today. Come back tomorrow!" 409,
               snd first)).
  { unfold Daily.createSubmission at 1. rewrite Hlen, Hurl, Hp.
    replace (Daily.tracks (snd first)) with (Daily.tracks db)
      by (rewrite Hdb; reflexivity).
    rewrite Htrack, Hfound. reflexivity. }
  rewrite Hsecond. cbn [fst snd]. repeat split.
  rewrite Hdb. unfold Spec.submissionsOfDay, Daily.Submission_create.
  cbn [Daily.submissions]. rewrite filter_app.
  rewrite (find_none_filter matches) by exact Hnone.
  cbn [filter app]. fold (matches sub). rewrite Hsub. reflexivity.
Qed.

Lemma Daily_createSubmission_unique (tz now newId userId trackId : Z)
    (description proofUrl proofType : string) (db : Daily.Db) :
  Spec.uniquePerDay db ->
  Spec.uniquePerDay
    (snd (Daily.createSubmission tz now newId userId trackId
                                 description proofUrl proofType db)).
Proof.
  intros Hinv. daily_create_cases; try exact Hinv.
  intros qUser qTrack qDay.
  unfold Spec.submissionsOfDay, Daily.Submission_create.
  cbn [Daily.submissions]. rewrite filter_app, length_app.
  cbn [filter Daily.userId Daily.trackId Daily.submissionDate].
  destruct ((userId =? qUser) && (trackId =? qTrack)
            && (setHours tz now 0 0 0 0 =? qDay)) eqn:Hkey.
  - apply andb_prop in Hkey. destruct Hkey as [Hkey Hd].
    apply andb_prop in Hkey. destruct Hkey as [Hu Ht].
    apply Z.eqb_eq in Hu, Ht, Hd. subst qUser qTrack qDay.
    match goal with
    | H : Daily.Submission_findOne _ _ _ _ = None |- _ =>
        unfold Daily.Submission_findOne in H;
        rewrite (find_none_filter _ _ H)
    end.
    cbn. lia.
  - specialize (Hinv qUser qTrack qDay). unfold Spec.submissionsOfDay in Hinv.
    cbn [List.length]. lia.
Qed.

Lemma Responded_inj {T : Type} (a b : ApiResponse T) :
  Responded a = Responded b -> a = b.
Proof. intros H. now injection H. Qed.

(** What a created answer (201) of the weekly edition tells. *)
Lemma Weekly_createSubmission_created (now newId userId trackId : Z)
    (description proofUrl proofType : string) (db : Weekly.Db)
    (response : ApiResponse Weekly.Submission) :
  fst (Weekly.createSubmission now newId userId trackId
         description proofUrl proofType db) = Responded response ->
  statusCode response = 201 ->
  exists track submission,
    Track_findById trackId (Weekly.tracks db) = Some track /\
    Weekly.Submission_findOne userId trackId
      (WeekService.wb_start
         (WeekService.getWeekBoundaries now (weekStartDay track))) db = None /\
    Weekly.userId submission = userId /\
    Weekly.trackId submission = trackId /\
    Weekly.weekStart submission =
      WeekService.wb_start
        (WeekService.getWeekBoundaries now (weekStartDay track)) /\
    Weekly.submissions
      (snd (Weekly.createSubmission now newId userId trackId
              description proofUrl proofType db))
    = Weekly.submissions db ++ [submission] /\
    Weekly.tracks
      (snd (Weekly.createSubmission now newId userId trackId
              description proofUrl proofType db))
    = Weekly.tracks db.
Proof.
  weekly_create_cases; intros Hresp Hcode; try discriminate Hresp;
    apply Responded_inj in Hresp;
    subst response; cbn [statusCode sendError sendNotFound] in Hcode;
    try discriminate Hcode.
  unfold WeekService.getCurrentWeekBoundaries in *.
  match goal with
  | t : Track |- context [Weekly.submissions db ++ [?s]] => exists t, s
  end.
  cbn [Weekly.Submission_cast Weekly.userId Weekly.trackId Weekly.weekStart
       Weekly.submissions Weekly.tracks].
  repeat split; assumption.
Qed.

Lemma Weekly_one_per_week (db : Weekly.Db)
    (now1 newId1 userId trackId : Z) (description1 proofUrl1 proofType1 : string)
    (now2 newId2 : Z) (description2 proofUrl2 proofType2 : string)
    (track : Track) (created : ApiResponse Weekly.Submission) :
  let first :=
    Weekly.createSubmission now1 newId1 userId trackId
                            description1 proofUrl1 proofType1 db in
  let second :=
    Weekly.createSubmission now2 newId2 userId trackId
                            description2 proofUrl2 proofType2 (snd first) in
  let weekOf now :=
    WeekService.wb_start
      (WeekService.getWeekBoundaries now (weekStartDay track)) in
  Track_findById trackId (Weekly.tracks db) = Some track ->
  fst first = Responded created ->
  statusCode created = 201 ->
  weekOf now2 = weekOf now1 ->
  Spec.validBody description2 proofUrl2 proofType2 ->
  fst second =
    Responded (sendError "You have already submitted for this week" 409) /\
  snd second = snd first /\
  List.length (Spec.submissionsOfWeek userId trackId (weekOf now1) (snd second))
  = 1%nat.
Proof.
  intros first second weekOf Htrack Hresp Hcreated Hweek Hbody.
  subst second weekOf. cbv beta in Hweek |- *.
  destruct (Weekly_createSubmission_created _ _ _ _ _ _ _ _ _ Hresp Hcreated)
    as (track' & sub & Htrack' & Hnone & Hu & Ht & Hw & Hsubs & Htracks).
  fold first in Hsubs, Htracks.
  rewrite Htrack in Htrack'. injection Htrack' as <-.
  destruct (validBody_guards _ _ _ Hbody) as (Hlen & Hurl & p & Hp).
  set (week := WeekService.wb_start
                 (WeekService.getWeekBoundaries now1 (weekStartDay track))) in *.
  set (matches := fun s => (Weekly.userId s =? userId)
                           && (Weekly.trackId s =? trackId)
                           && (Weekly.weekStart s =? week)).
  assert (Hsub : matches sub = true)
    by (unfold matches; rewrite Hu, Ht, Hw, !Z.eqb_refl; reflexivity).
  assert (Hfound : Weekly.Submission_findOne userId trackId week (snd first)
                   = Some sub).
  { unfold Weekly.Submission_findOne. rewrite Hsubs.
    apply (find_app_new matches); assumption. }
  assert (Hsecond :
            Weekly.createSubmission now2 newId2 userId trackId
              description2 proofUrl2 proofType2 (snd first)
            = (Responded
                 (sendError "You have already submitted for this week" 409),
               snd first)).
  { unfold Weekly.createSubmission at 1. rewrite Hlen, Hurl, Hp, Htracks, Htrack.
    unfold WeekService.getCurrentWeekBoundaries. rewrite Hweek, Hfound.
    reflexivity. }
  rewrite Hsecond. cbn [fst snd]. repeat split.
  unfold Spec.submissionsOfWeek. rewrite Hsubs, filter_app.
  unfold Weekly.Submission_findOne in Hnone.
  rewrite (find_none_filter matches) by exact Hnone.
  cbn [filter app]. fold (matches sub). rewrite Hsub. reflexivity.
Qed.

Lemma Weekly_createSubmission_unique (now newId userId trackId : Z)
    (description proofUrl proofType : string) (db : Weekly.Db) :
  Spec.uniquePerWeek db ->
  Spec.uniquePerWeek
    (snd (Weekly.createSubmission now newId userId trackId
                                  description proofUrl proofType db)).
Proof.
  intros Hinv. weekly_create_cases; try exact Hinv.
  intros qUser qTrack qWeek. unfold Spec.submissionsOfWeek.
  cbn [Weekly.submissions]. rewrite filter_app, length_app.
  cbn [filter Weekly.Submission_cast Weekly.userId Weekly.trackId
       Weekly.weekStart].
  match goal with
  | |- context [if ?k then _ else _] => destruct k eqn:Hkey
  end.
  - apply andb_prop in Hkey. destruct Hkey as [Hkey Hd].
    apply andb_prop in Hkey. destruct Hkey as [Hu Ht].
    apply Z.eqb_eq in Hu, Ht, Hd. subst qUser qTrack qWeek.
    match goal with
    | H : Weekly.Submission_findOne _ _ _ _ = None |- _ =>
        unfold Weekly.Submission_findOne in H;
        rewrite (find_none_filter _ _ H)
    end.
    cbn. lia.
  - specialize (Hinv qUser qTrack qWeek).
    unfold Spec.submissionsOfWeek in Hinv.
    cbn [List.length]. lia.
Qed.

(** C8. After a submission has been created, a second well-formed
    [createSubmission] of the same user on the same track in the same
    period (the same day in the daily edition, the same week in the
    weekly edition) is refused with status 409 and changes nothing, so
    exactly one submission of that user, track and period is stored; and
    [createSubmission] keeps the property that no user has two
    submissions on a track for one period. *)
Theorem one_submission_per_period (tz : Z) :
  (forall (db : Daily.Db) (now1 newId1 userId trackId : Z)
          (description1 proofUrl1 proofType1 : string)
          (now2 newId2 : Z) (description2 proofUrl2 proofType2 : string),
     let first :=
       Daily.createSubmission tz now1 newId1 userId trackId
                              description1 proofUrl1 proofType1 db in
     let second :=
       Daily.createSubmission tz now2 newId2 userId trackId
                              description2 proofUrl2 proofType2 (snd first) in
     statusCode (fst first) = 201 ->
     setHours tz now2 0 0 0 0 = setHours tz now1 0 0 0 0 ->
     Spec.validBody description2 proofUrl2 proofType2 ->
     statusCode (fst second) = 409 /\
     success (fst second) = false /\
     snd second = snd first /\
     List.length (Spec.submissionsOfDay userId trackId
                    (setHours tz now1 0 0 0 0) (snd second)) = 1%nat) /\
  (forall (db : Daily.Db) (now newId userId trackId : Z)
          (description proofUrl proofType : string),
     Spec.uniquePerDay db ->
     Spec.uniquePerDay
       (snd (Daily.createSubmission tz now newId userId trackId
                                    description proofUrl proofType db))) /\
  (forall (db : Weekly.Db) (now1 newId1 userId trackId : Z)
          (description1 proofUrl1 proofType1 : string)
          (now2 newId2 : Z) (description2 proofUrl2 proofType2 : string)
          (track : Track) (created : ApiResponse Weekly.Submission),
     let first :=
       Weekly.createSubmission now1 newId1 userId trackId
                               description1 proofUrl1 proofType1 db in
     let second :=
       Weekly.createSubmission now2 newId2 userId trackId
                               description2 proofUrl2 proofType2 (snd first) in
     let weekOf now :=
       WeekService.wb_start
         (WeekService.getWeekBoundaries now (weekStartDay track)) in
     Track_findById trackId (Weekly.tracks db) = Some track ->
     fst first = Responded created ->
     statusCode created = 201 ->
     weekOf now2 = weekOf now1 ->
     Spec.validBody description2 proofUrl2 proofType2 ->
     fst second =
       Responded (sendError "You have already submitted for this week" 409) /\
     snd second = snd first /\
     List.length (Spec.submissionsOfWeek userId trackId (weekOf now1)
                                         (snd second)) = 1%nat) /\
  (forall (db : Weekly.Db) (now newId userId trackId : Z)
          (description proofUrl proofType : string),
     Spec.uniquePerWeek db ->
     Spec.uniquePerWeek
       (snd (Weekly.createSubmission now newId userId trackId
                                     description proofUrl proofType db))).
Proof.
  split; [| split; [| split]].
  - intros db now1 newId1 userId trackId d1 u1 p1 now2 newId2 d2 u2 p2
           first second Hcreated Hday Hbody.
    destruct (Daily_one_per_day tz db now1 newId1 userId trackId d1 u1 p1
                                now2 newId2 d2 u2 p2 Hcreated Hday Hbody)
      as (Hresp & Hdb & Hone).
    subst first second. rewrite Hresp. repeat split; assumption.
  - intros. now apply Daily_createSubmission_unique.
  - intros db now1 newId1 userId trackId d1 u1 p1 now2 newId2 d2 u2 p2
           track created first second weekOf.
    apply Weekly_one_per_week.
  - intros. now apply Weekly_createSubmission_unique.
Qed.

(** Two requests of user 5 on track 1 on 2024-01-17, at 15:30 and at
    16:46 (host in UTC): the second is refused with 409. *)
Lemma one_submission_per_period_witness :
  statusCode
    (fst (Daily.createSubmission 0 1705510000000 102 5 1
            "ran ten kilometres again" "https://example.org/2.png" "image"
            (snd (Daily.createSubmission 0 1705505400000 101 5 1
                    "ran ten kilometres" "https://example.org/run.png" "image"
                    Samples.dbEmpty)))) = 409.
Proof.
  destruct (one_submission_per_period 0) as [Hdaily _].
  apply (Hdaily Samples.dbEmpty 1705505400000 101 5 1
                "ran ten kilometres"%string
                "https://example.org/run.png"%string "image"%string
                1705510000000 102
                "ran ten kilometres again"%string
                "https://example.org/2.png"%string "image"%string
                eq_refl eq_refl).
  split; [vm_compute; lia | split; discriminate].
Defined.

(** ** The leaderboard *)

Section SortByKey.

Import LeaderboardService.

Context {A : Type} (key : A -> Q).

(** The comparator [(a, b) => key(b) - key(a)]. *)
Let byKeyDescending (a b : A) : Q := (key b - key a)%Q.

(** [a] may stand in front of [b]. *)
Let descending (a b : A) : Prop := (key b <= key a)%Q.

Lemma insert_before_iff (x y : A) :
  Qle_bool (byKeyDescending x y) 0 = true <-> (key y <= key x)%Q.
Proof.
  unfold byKeyDescending. rewrite Qle_bool_iff. split; intros H; lra.
Qed.

Lemma insertSorted_perm (x : A) (l : list A) :
  Permutation (insertSorted byKeyDescending x l) (x :: l).
Proof.
  induction l as [| y l IH]; cbn [insertSorted]; [reflexivity |].
  destruct (Qle_bool (byKeyDescending x y) 0); [reflexivity |].
  rewrite IH. apply perm_swap.
Qed.

Lemma Array_sort_perm (l : list A) :
  Permutation (Array_sort byKeyDescending l) l.
Proof.
  induction l as [| x l IH]; cbn [Array_sort]; [reflexivity |].
  rewrite insertSorted_perm. now constructor.
Qed.

Lemma insertSorted_sorted (x : A) (l : list A) :
  Sorted descending l -> Sorted descending (insertSorted byKeyDescending x l).
Proof.
  induction 1 as [| y l Hl IH Hhd]; cbn [insertSorted].
  - repeat constructor.
  - destruct (Qle_bool (byKeyDescending x y) 0) eqn:E.
    + apply insert_before_iff in E. repeat constructor; assumption.
    + assert (Hxy : descending y x).
      { unfold descending. destruct (Qlt_le_dec (key y) (key x)) as [Hlt | Hle];
          [| exact Hle].
        assert (Hb : Qle_bool (byKeyDescending x y) 0 = true)
          by (apply insert_before_iff; lra).
        congruence. }
      constructor; [exact IH |].
      destruct l as [| z l]; cbn [insertSorted].
      * constructor. exact Hxy.
      * destruct (Qle_bool (byKeyDescending x z) 0); constructor;
          [exact Hxy | now inversion Hhd].
Qed.

Lemma Array_sort_sorted (l : list A) :
  StronglySorted descending (Array_sort byKeyDescending l).
Proof.
  apply Sorted_StronglySorted.
  - intros a b c Hab Hbc. unfold descending in *. lra.
  - induction l as [| x l IH]; cbn [Array_sort];
      [constructor | now apply insertSorted_sorted].
Qed.

(** Stability: the elements of one key value keep their order. *)
Lemma insertSorted_filter (t : Q) (x : A) (l : list A) :
  filter (fun e => Qeq_bool (key e) t) (insertSorted byKeyDescending x l) =
  filter (fun e => Qeq_bool (key e) t) (x :: l).
Proof.
  induction l as [| y l IH]; cbn [insertSorted]; [reflexivity |].
  destruct (Qle_bool (byKeyDescending x y) 0) eqn:E; [reflexivity |].
  cbn [filter] in *. rewrite IH.
  destruct (Qeq_bool (key x) t) eqn:Ex; [| reflexivity].
  destruct (Qeq_bool (key y) t) eqn:Ey; [| reflexivity].
  apply Qeq_bool_iff in Ex, Ey.
  assert (Hb : Qle_bool (byKeyDescending x y) 0 = true)
    by (apply insert_before_iff; lra).
  congruence.
Qed.

Lemma Array_sort_stable (t : Q) (l : list A) :
  filter (fun e => Qeq_bool (key e) t) (Array_sort byKeyDescending l) =
  filter (fun e => Qeq_bool (key e) t) l.
Proof.
  induction l as [| x l IH]; cbn [Array_sort]; [reflexivity |].
  rewrite insertSorted_filter. cbn [filter]. now rewrite IH.
Qed.

End SortByKey.

Lemma mapWithIndex_entries (l : list LeaderboardService.Scored) (index : Z) :
  map LeaderboardService.entry
      (LeaderboardService.mapWithIndex
         (fun entry i => LeaderboardService.mkLeaderboardEntry entry (i + 1))
         index l) = l.
Proof.
  revert index. induction l as [| x l IH]; intros index;
    cbn [LeaderboardService.mapWithIndex map LeaderboardService.entry];
    [reflexivity | now rewrite IH].
Qed.

Lemma mapWithIndex_rank (l : list LeaderboardService.Scored) (index : Z)
    (position : nat) (e : LeaderboardService.LeaderboardEntry) :
  nth_error
    (LeaderboardService.mapWithIndex
       (fun entry i => LeaderboardService.mkLeaderboardEntry entry (i + 1))
       index l) position = Some e ->
  LeaderboardService.rank e = index + Z.of_nat position + 1.
Proof.
  revert index position. induction l as [| x l IH]; intros index position;
    cbn [LeaderboardService.mapWithIndex].
  - destruct position; discriminate.
  - destruct position as [| position]; cbn [nth_error].
    + intros H. injection H as <-. cbn. lia.
    + intros H. apply IH in H. lia.
Qed.

Lemma withMultiplier_total (e : LeaderboardService.Aggregated) :
  let s := LeaderboardService.withMultiplier e in
  LeaderboardService.streakMultiplier s =
    Helpers.getStreakMultiplier (LeaderboardService.currentStreak s) /\
  LeaderboardService.totalScore s =
    LeaderboardService.round2
      (LeaderboardService.baseScore s *
       Helpers.getStreakMultiplier (LeaderboardService.currentStreak s))%Q.
Proof. split; reflexivity. Qed.

(** C2, as the code has it.  Every entry of [getWeeklyLeaderboard] has
    [totalScore = round(baseScore * multiplier(currentStreak), 2)]; the
    entries are those of the aggregation, in descending order of
    [totalScore]; entries with equal totals keep the order in which the
    aggregation returned them (the comparator looks at the totals only);
    and the rank of the entry at each position is the position plus 1. *)
Theorem leaderboard_ranking (db : Daily.Db) (trackId : Z)
    (weekBoundaries : WeekService.WeekBoundaries) :
  let scored :=
    map LeaderboardService.withMultiplier
        (LeaderboardService.aggregate db trackId weekBoundaries) in
  let leaderboard :=
    LeaderboardService.getWeeklyLeaderboard db trackId weekBoundaries in
  Forall (fun e =>
            LeaderboardService.totalScore e =
            LeaderboardService.round2
              (LeaderboardService.baseScore e *
               Helpers.getStreakMultiplier (LeaderboardService.currentStreak e))%Q)
         (map LeaderboardService.entry leaderboard) /\
  StronglySorted
    (fun a b => (LeaderboardService.totalScore b <=
                 LeaderboardService.totalScore a)%Q)
    (map LeaderboardService.entry leaderboard) /\
  Permutation (map LeaderboardService.entry leaderboard) scored /\
  (forall t : Q,
     filter (fun e => Qeq_bool (LeaderboardService.totalScore e) t)
            (map LeaderboardService.entry leaderboard) =
     filter (fun e => Qeq_bool (LeaderboardService.totalScore e) t) scored) /\
  (forall (position : nat) (e : LeaderboardService.LeaderboardEntry),
     nth_error leaderboard position = Some e ->
     LeaderboardService.rank e = Z.of_nat position + 1).
Proof.
  intros scored leaderboard. subst leaderboard.
  unfold LeaderboardService.getWeeklyLeaderboard, LeaderboardService.rankResults.
  fold scored. rewrite mapWithIndex_entries.
  pose proof (Array_sort_perm LeaderboardService.totalScore scored) as Hperm.
  cbv zeta in Hperm.
  split; [| split; [| split; [| split]]].
  - apply Forall_forall. intros e He.
    apply (Permutation_in _ Hperm) in He.
    subst scored. apply in_map_iff in He. destruct He as (a & <- & _).
    apply withMultiplier_total.
  - apply (Array_sort_sorted LeaderboardService.totalScore).
  - exact Hperm.
  - intros t. apply (Array_sort_stable LeaderboardService.totalScore).
  - intros position e H. apply mapWithIndex_rank in H. lia.
Qed.

(** C2, as the claim has it, fails: with equal totals, user 2, whose
    submission the aggregation meets first, is ranked before user 1;
    ties are not broken by ascending member identity. *)
Lemma leaderboard_tie_keeps_stored_order :
  exists first second,
    LeaderboardService.getWeeklyLeaderboard Samples.dbTied 1 Samples.week3
    = [first; second] /\
    LeaderboardService.userId (LeaderboardService.entry first) = 2 /\
    LeaderboardService.rank first = 1 /\
    LeaderboardService.userId (LeaderboardService.entry second) = 1 /\
    LeaderboardService.rank second = 2 /\
    (LeaderboardService.totalScore (LeaderboardService.entry first) ==
     LeaderboardService.totalScore (LeaderboardService.entry second))%Q.
Proof.
  eexists. eexists. split; [vm_compute; reflexivity |].
  repeat split.
Qed.

(** Member A (20 points, streak 5) totals 32 and ranks first; member B
    (25 points, no streak) totals 25 and ranks second. *)
Lemma leaderboard_streak_outranks_points :
  map (fun e => (LeaderboardService.userName (LeaderboardService.entry e),
                 LeaderboardService.rank e))
      (LeaderboardService.rankResults Samples.resultsAB)
  = [("A"%string, 1); ("B"%string, 2)] /\
  Forall2 (fun e total =>
             (LeaderboardService.totalScore (LeaderboardService.entry e)
              == total)%Q)
          (LeaderboardService.rankResults Samples.resultsAB) [32%Q; 25%Q].
Proof.
  split; [reflexivity |]. vm_compute. repeat constructor.
Qed.

(** ** The weekly edition beside the daily one *)

(** The helper of src/utils computes the week in local time: its start
    is the local midnight of the week start day and its end the last
    millisecond of the seventh day; for a host in UTC it agrees with the
    week service. *)
Lemma Helpers_getWeekBoundaries_local (tz date weekStartDay : Z) :
  0 <= weekStartDay <= 6 ->
  let b := Helpers.getWeekBoundaries tz date weekStartDay in
  fst b = MakeDate (Day (date + tz)
                    - (WeekDay (date + tz) - weekStartDay) mod 7) 0 - tz /\
  snd b = fst b + 7 * msPerDay - 1.
Proof.
  intros Hd b. subst b. unfold Helpers.getWeekBoundaries. cbn [fst snd].
  unfold getDay, LocalTime.
  rewrite (daysSinceStart_mod _ _ (WeekDay_range (date + tz)) Hd).
  set (n := (WeekDay (date + tz) - weekStartDay) mod 7).
  replace (getDate tz date - n) with (getDate tz date + - n) by lia.
  rewrite !setDate_shift.
  unfold setHours, UTC, LocalTime, MakeDate, MakeTime, Day,
    msPerDay, msPerHour, msPerMinute, msPerSecond.
  split.
  - Z.div_mod_to_equations. lia.
  - Z.div_mod_to_equations. lia.
Qed.

Lemma Helpers_getWeekBoundaries_utc (date weekStartDay : Z) :
  0 <= weekStartDay <= 6 ->
  Helpers.getWeekBoundaries 0 date weekStartDay =
  (WeekService.wb_start (WeekService.getWeekBoundaries date weekStartDay),
   WeekService.wb_end (WeekService.getWeekBoundaries date weekStartDay)).
Proof.
  intros Hd.
  destruct (Helpers_getWeekBoundaries_local 0 date weekStartDay Hd) as [Hs He].
  rewrite (surjective_pairing (Helpers.getWeekBoundaries 0 date weekStartDay)).
  rewrite He, Hs, getWeekBoundaries_end, getWeekBoundaries_start.
  rewrite (daysSinceStart_mod _ _ (WeekDay_range date) Hd).
  rewrite Z.add_0_r, Z.sub_0_r. reflexivity.
Qed.

(** ** Weeks: membership, neighbours, past weeks *)

Open Scope Z_scope.

Lemma WeekBoundaries_eq (a b : WeekService.WeekBoundaries) :
  WeekService.wb_start a = WeekService.wb_start b ->
  WeekService.wb_end a = WeekService.wb_end b -> a = b.
Proof. destruct a, b; cbn; intros; subst; reflexivity. Qed.

(** The week boundaries are decided by the start alone. *)
Lemma getWeekBoundaries_eq_of_start (t1 t2 d : Z) :
  WeekService.wb_start (WeekService.getWeekBoundaries t1 d) =
  WeekService.wb_start (WeekService.getWeekBoundaries t2 d) ->
  WeekService.getWeekBoundaries t1 d = WeekService.getWeekBoundaries t2 d.
Proof.
  intros H. apply WeekBoundaries_eq; [exact H |].
  rewrite !getWeekBoundaries_end, H. reflexivity.
Qed.

(** The start of the week, as a day number. *)
Lemma getWeekBoundaries_start_day (t d : Z) :
  0 <= d <= 6 ->
  WeekService.wb_start (WeekService.getWeekBoundaries t d) =
  MakeDate (Day t - (Day t + 4 - d) mod 7) 0.
Proof.
  intros Hd. rewrite getWeekBoundaries_start.
  rewrite (daysSinceStart_mod _ _ (WeekDay_range t) Hd).
  unfold WeekDay. f_equal. f_equal. clear. Z.div_mod_to_equations. lia.
Qed.

Lemma week_contains_instant (t d : Z) :
  0 <= d <= 6 ->
  WeekService.wb_start (WeekService.getWeekBoundaries t d) <= t
  <= WeekService.wb_end (WeekService.getWeekBoundaries t d).
Proof.
  intros Hd. rewrite getWeekBoundaries_end, getWeekBoundaries_start_day by exact Hd.
  unfold MakeDate, Day, msPerDay. Z.div_mod_to_equations. lia.
Qed.

Lemma week_of_instant_in_week (instant t d : Z) :
  0 <= d <= 6 ->
  WeekService.wb_start (WeekService.getWeekBoundaries instant d) <= t
  <= WeekService.wb_end (WeekService.getWeekBoundaries instant d) ->
  WeekService.getWeekBoundaries t d = WeekService.getWeekBoundaries instant d.
Proof.
  intros Hd. rewrite getWeekBoundaries_end. intros Ht.
  apply getWeekBoundaries_eq_of_start.
  rewrite !getWeekBoundaries_start_day in * by exact Hd.
  unfold MakeDate, Day, msPerDay in *. f_equal.
  Z.div_mod_to_equations. lia.
Qed.

(** [getWeekBoundaries] is the same for every instant of a week: called
    again on any instant between the start and the end it returned, it
    returns the same start and end; the instant it was called on is one
    of them. *)
Theorem getWeekBoundaries_idempotent (instant t d : Z) :
  0 <= d <= 6 ->
  let b := WeekService.getWeekBoundaries instant d in
  WeekService.wb_start b <= instant <= WeekService.wb_end b /\
  (WeekService.wb_start b <= t <= WeekService.wb_end b ->
   WeekService.getWeekBoundaries t d = b).
Proof.
  intros Hd b. split.
  - now apply week_contains_instant.
  - now apply week_of_instant_in_week.
Qed.

(** The week of Wednesday 2024-01-17 15:30Z, asked again at its last
    millisecond, Sunday 2024-01-21 23:59:59.999Z. *)
Lemma getWeekBoundaries_idempotent_witness :
  WeekService.getWeekBoundaries 1705881599999 1 =
  WeekService.getWeekBoundaries 1705505400000 1.
Proof.
  apply (getWeekBoundaries_idempotent 1705505400000 1705881599999 1
           ltac:(lia)).
  vm_compute. split; discriminate.
Defined.

(** Weeks follow one another without gap or overlap: the instant after
    the end of a week is the start of the week it belongs to, and the
    instant before the start of a week is the end of the week before. *)
Theorem weeks_are_adjacent (instant d : Z) :
  0 <= d <= 6 ->
  let b := WeekService.getWeekBoundaries instant d in
  let next := WeekService.getWeekBoundaries (WeekService.wb_end b + 1) d in
  let before := WeekService.getWeekBoundaries (WeekService.wb_start b - 1) d in
  WeekService.wb_start next = WeekService.wb_end b + 1 /\
  WeekService.wb_end before = WeekService.wb_start b - 1 /\
  WeekService.wb_start before = WeekService.wb_start b - 7 * msPerDay.
Proof.
  intros Hd b next before. subst b next before.
  rewrite !getWeekBoundaries_end, !getWeekBoundaries_start_day by exact Hd.
  unfold MakeDate, Day, msPerDay.
  repeat split; Z.div_mod_to_equations; lia.
Qed.

Lemma weeks_are_adjacent_witness :
  WeekService.wb_start
    (WeekService.getWeekBoundaries
       (WeekService.wb_end (WeekService.getWeekBoundaries 1705505400000 1) + 1)
       1)
  = WeekService.wb_end (WeekService.getWeekBoundaries 1705505400000 1) + 1.
Proof.
  apply (weeks_are_adjacent 1705505400000 1 ltac:(lia)).
Defined.

(** [isWithinCurrentWeek] holds of a date exactly when the date's week is
    the current week. *)
Theorem isWithinCurrentWeek_same_week (now date d : Z) :
  0 <= d <= 6 ->
  WeekQueries.isWithinCurrentWeek now date d = true <->
  WeekService.getWeekBoundaries date d = WeekService.getWeekBoundaries now d.
Proof.
  intros Hd. unfold WeekQueries.isWithinCurrentWeek,
    WeekService.getCurrentWeekBoundaries. cbv zeta.
  rewrite andb_true_iff, !Z.leb_le. split.
  - intros H. now apply week_of_instant_in_week.
  - intros H. rewrite <- H. now apply week_contains_instant.
Qed.

Lemma isWithinCurrentWeek_same_week_witness :
  WeekService.getWeekBoundaries 1705276800000 1 =
  WeekService.getWeekBoundaries 1705505400000 1.
Proof.
  apply (isWithinCurrentWeek_same_week 1705505400000 1705276800000 1
           ltac:(lia)).
  reflexivity.
Defined.

(** [getPastWeekBoundaries] moves the current week back by whole weeks:
    start and end are those of the current week minus [weeksAgo] times
    seven days. *)
Theorem getPastWeekBoundaries_shift (now d weeksAgo : Z) :
  0 <= d <= 6 ->
  let current := WeekService.getCurrentWeekBoundaries now d in
  let past := WeekQueries.getPastWeekBoundaries now d weeksAgo in
  WeekService.wb_start past =
    WeekService.wb_start current - weeksAgo * 7 * msPerDay /\
  WeekService.wb_end past =
    WeekService.wb_end current - weeksAgo * 7 * msPerDay.
Proof.
  intros Hd current past. subst current past.
  unfold WeekQueries.getPastWeekBoundaries, WeekService.getCurrentWeekBoundaries.
  replace (getUTCDate now - weeksAgo * 7)
    with (getUTCDate now + - (weeksAgo * 7)) by lia.
  rewrite setUTCDate_shift.
  rewrite !getWeekBoundaries_end, !getWeekBoundaries_start_day by exact Hd.
  unfold MakeDate, Day, msPerDay.
  split; Z.div_mod_to_equations; lia.
Qed.

Lemma getPastWeekBoundaries_shift_witness :
  WeekService.wb_start (WeekQueries.getPastWeekBoundaries 1705505400000 1 2)
  = WeekService.wb_start
      (WeekService.getCurrentWeekBoundaries 1705505400000 1)
    - 2 * 7 * msPerDay.
Proof.
  apply (getPastWeekBoundaries_shift 1705505400000 1 2 ltac:(lia)).
Defined.

(** The week a request names [previous] is the week right before the
    current one, and a request without [week] asks for the current
    week, as one with [current] does. *)
Theorem weekOfQuery_previous (tz : Z) (parseDate : string -> Z) (now d : Z) :
  0 <= d <= 6 ->
  let current := WeekQueries.weekOfQuery tz parseDate now (Some "current"%string) d in
  let previous := WeekQueries.weekOfQuery tz parseDate now (Some "previous"%string) d in
  WeekQueries.weekOfQuery tz parseDate now None d = current /\
  WeekService.wb_end previous + 1 = WeekService.wb_start current /\
  WeekService.wb_start previous = WeekService.wb_start current - 7 * msPerDay.
Proof.
  intros Hd current previous. subst current previous.
  unfold WeekQueries.weekOfQuery.
  change (String.eqb "current" "") with false.
  change (String.eqb "current" "current") with true.
  change (String.eqb "previous" "") with false.
  change (String.eqb "previous" "current") with false.
  change (String.eqb "previous" "previous") with true.
  cbn [orb]. unfold WeekService.getCurrentWeekBoundaries.
  rewrite prevWeekStart_eq.
  rewrite !getWeekBoundaries_end, !getWeekBoundaries_start_day by exact Hd.
  unfold MakeDate, Day, msPerDay.
  repeat split; Z.div_mod_to_equations; lia.
Qed.

Lemma weekOfQuery_previous_witness :
  WeekService.wb_end
    (WeekQueries.weekOfQuery 3600000 (fun _ => 0) 1705505400000
                             (Some "previous"%string) 1) + 1
  = WeekService.wb_start
      (WeekQueries.weekOfQuery 3600000 (fun _ => 0) 1705505400000
                               (Some "current"%string) 1).
Proof.
  apply (weekOfQuery_previous 3600000 (fun _ => 0) 1705505400000 1
           ltac:(lia)).
Defined.

(** ** The date helpers of src/utils *)

Lemma isYesterday_eq (tz last current : Z) :
  Helpers.isYesterday tz (Some last) current =
  (setHours tz last 0 0 0 0 =? setHours tz current 0 0 0 0 - msPerDay).
Proof.
  unfold Helpers.isYesterday. rewrite dayBefore_eq.
  f_equal. rewrite !setHours_midnight.
  unfold MakeDate, Day, msPerDay. Z.div_mod_to_equations. lia.
Qed.

(** The streak rule that [verifySubmission] spells out inline is the one
    the exported helpers express: the streak grows when [isYesterday]
    holds of the marker and the submission date, stays when [isSameDay]
    holds, and restarts at 1 otherwise. *)
Theorem updateStreak_by_helpers (tz : Z) (m : Daily.TrackMembership) (date : Z) :
  Daily.currentStreak (Daily.updateStreak tz m date) =
  if Helpers.isYesterday tz (Daily.lastSubmissionDate m) date
  then Daily.currentStreak m + 1
  else if Helpers.isSameDay tz (Daily.lastSubmissionDate m) date
       then Daily.currentStreak m
       else 1.
Proof.
  unfold Daily.updateStreak. cbn [Daily.currentStreak].
  destruct (Daily.lastSubmissionDate m) as [last |]; [| reflexivity].
  rewrite isYesterday_eq, dayBefore_eq. unfold Helpers.isSameDay.
  assert (E : setHours tz (setHours tz date 0 0 0 0) 0 0 0 0
              = setHours tz date 0 0 0 0).
  { rewrite !setHours_midnight. unfold MakeDate, Day, msPerDay.
    Z.div_mod_to_equations. lia. }
  destruct (setHours tz last 0 0 0 0 =? setHours tz date 0 0 0 0 - msPerDay);
    [reflexivity |].
  destruct (setHours tz last 0 0 0 0 =? setHours tz date 0 0 0 0); reflexivity.
Qed.

(** [isSameDay] relates two instants exactly when they have the same
    local calendar day: it is reflexive and symmetric, and [isYesterday]
    is [isSameDay] with the day before; the two never hold together; and
    without a date (no marker yet) both are false. *)
Theorem isSameDay_isYesterday (tz a b : Z) :
  Helpers.isSameDay tz (Some a) a = true /\
  Helpers.isSameDay tz (Some a) b = Helpers.isSameDay tz (Some b) a /\
  (Helpers.isSameDay tz (Some a) b = true <->
   Day (a + tz) = Day (b + tz)) /\
  Helpers.isYesterday tz (Some a) b =
    Helpers.isSameDay tz (Some a) (b - msPerDay) /\
  (Helpers.isYesterday tz (Some a) b = true <->
   Day (a + tz) + 1 = Day (b + tz)) /\
  (Helpers.isYesterday tz (Some a) b = true ->
   Helpers.isSameDay tz (Some a) b = false) /\
  Helpers.isYesterday tz None b = false /\
  Helpers.isSameDay tz None b = false.
Proof.
  rewrite !isYesterday_eq. unfold Helpers.isSameDay.
  rewrite !setHours_midnight.
  repeat split; try reflexivity.
  - apply Z.eqb_refl.
  - apply Z.eqb_sym.
  - intros H. apply Z.eqb_eq in H. unfold MakeDate, msPerDay in H. lia.
  - intros H. apply Z.eqb_eq. unfold MakeDate. lia.
  - f_equal. unfold MakeDate, Day, msPerDay. Z.div_mod_to_equations. lia.
  - intros H. apply Z.eqb_eq in H. unfold MakeDate, msPerDay in H. lia.
  - intros H. apply Z.eqb_eq. unfold MakeDate, msPerDay. lia.
  - intros H. apply Z.eqb_eq in H. apply Z.eqb_neq.
    unfold MakeDate, msPerDay in *. lia.
Qed.

(** [isPreviousWeek] compares in local calendar time (the host's clock,
    here at a constant offset from UTC): it holds exactly when the
    marker reads seven calendar days before the current week start, at
    the same time of day.  So it holds between the week starts that the
    helper [getWeekBoundaries] computes for two dates whose local days
    are seven apart, and never for two dates of one week or without a
    marker. *)
Theorem isPreviousWeek_seven_days (tz last current date1 date2 d : Z) :
  0 <= d <= 6 ->
  (Helpers.isPreviousWeek tz (Some last) current d = true <->
   Day (LocalTime tz last) + 7 = Day (LocalTime tz current) /\
   TimeWithinDay (LocalTime tz last) = TimeWithinDay (LocalTime tz current)) /\
  (Day (LocalTime tz date1) + 7 = Day (LocalTime tz date2) ->
   Helpers.isPreviousWeek tz
     (Some (fst (Helpers.getWeekBoundaries tz date1 d)))
     (fst (Helpers.getWeekBoundaries tz date2 d)) d = true) /\
  Helpers.isPreviousWeek tz
    (Some (fst (Helpers.getWeekBoundaries tz date2 d)))
    (fst (Helpers.getWeekBoundaries tz date2 d)) d = false /\
  Helpers.isPreviousWeek tz None current d = false.
Proof.
  intros Hd. unfold Helpers.isPreviousWeek. rewrite !prevWeekStart_eq.
  split; [| split; [| split; [| reflexivity]]].
  - rewrite Z.eqb_eq. unfold LocalTime, Day, TimeWithinDay, msPerDay.
    split.
    + intros ->. split; Z.div_mod_to_equations; lia.
    + intros [H1 H2]. Z.div_mod_to_equations. lia.
  - intros Hdays. apply Z.eqb_eq.
    destruct (Helpers_getWeekBoundaries_local tz date1 d Hd) as [H1 _].
    destruct (Helpers_getWeekBoundaries_local tz date2 d Hd) as [H2 _].
    rewrite H1, H2. unfold LocalTime in Hdays. rewrite <- Hdays.
    unfold MakeDate, WeekDay, msPerDay.
    Z.div_mod_to_equations. lia.
  - apply Z.eqb_neq. unfold msPerDay. lia.
Qed.

(** Wednesday 2024-01-10 at 09:00 and Wednesday 2024-01-17 at 15:30, on
    a host one hour east of UTC. *)
Lemma isPreviousWeek_seven_days_witness :
  Helpers.isPreviousWeek 3600000
    (Some (fst (Helpers.getWeekBoundaries 3600000 1704877200000 1)))
    (fst (Helpers.getWeekBoundaries 3600000 1705505400000 1)) 1 = true.
Proof.
  apply (isPreviousWeek_seven_days 3600000 0 0 1704877200000 1705505400000 1
           ltac:(lia)).
  reflexivity.
Defined.

(** The helper [getWeekBoundaries] of src/utils is the week service's
    in local time: it returns the week that the service computes for the
    local reading of the date, moved back to UTC.  So its start is a
    local midnight on the week start day, the date lies between its start
    and end, and for a host in UTC the two functions agree. *)
Theorem getWeekBoundaries_helper_is_service (tz date d : Z) :
  0 <= d <= 6 ->
  let b := Helpers.getWeekBoundaries tz date d in
  let w := WeekService.getWeekBoundaries (date + tz) d in
  fst b = WeekService.wb_start w - tz /\
  snd b = WeekService.wb_end w - tz /\
  fst b <= date <= snd b /\
  TimeWithinDay (fst b + tz) = 0 /\
  WeekDay (fst b + tz) = d /\
  (tz = 0 ->
   fst b = WeekService.wb_start (WeekService.getWeekBoundaries date d) /\
   snd b = WeekService.wb_end (WeekService.getWeekBoundaries date d)).
Proof.
  intros Hd b w. subst b w.
  destruct (Helpers_getWeekBoundaries_local tz date d Hd) as [Hs He].
  cbv zeta in He.
  pose proof (week_contains_instant (date + tz) d Hd) as Hin.
  assert (Hstart : fst (Helpers.getWeekBoundaries tz date d)
                   = WeekService.wb_start
                       (WeekService.getWeekBoundaries (date + tz) d) - tz).
  { rewrite Hs, getWeekBoundaries_start_day by exact Hd.
    unfold WeekDay. f_equal. f_equal. f_equal.
    Z.div_mod_to_equations. lia. }
  assert (Hend : snd (Helpers.getWeekBoundaries tz date d)
                 = WeekService.wb_end
                     (WeekService.getWeekBoundaries (date + tz) d) - tz).
  { rewrite He, Hstart, getWeekBoundaries_end. lia. }
  split; [exact Hstart |]. split; [exact Hend |].
  split; [rewrite Hstart, Hend; lia |].
  split; [| split].
  - rewrite Hs. unfold TimeWithinDay, MakeDate, msPerDay.
    Z.div_mod_to_equations. lia.
  - rewrite Hs. unfold WeekDay, MakeDate, Day, msPerDay.
    Z.div_mod_to_equations. lia.
  - intros ->. rewrite Hstart, Hend, Z.add_0_r, !Z.sub_0_r. split; reflexivity.
Qed.

Lemma getWeekBoundaries_helper_is_service_witness :
  fst (Helpers.getWeekBoundaries 3600000 1705505400000 1) =
  WeekService.wb_start
    (WeekService.getWeekBoundaries (1705505400000 + 3600000) 1) - 3600000.
Proof.
  apply (getWeekBoundaries_helper_is_service 3600000 1705505400000 1
           ltac:(lia)).
Defined.

(** For a host east or west of UTC the two differ: the helper's week
    starts at local midnight. *)
Lemma getWeekBoundaries_helper_local_midnight (tz date d : Z) :
  0 <= d <= 6 ->
  TimeWithinDay (fst (Helpers.getWeekBoundaries tz date d) + tz) = 0 /\
  WeekDay (fst (Helpers.getWeekBoundaries tz date d) + tz) = d.
Proof.
  intros Hd.
  destruct (Helpers_getWeekBoundaries_local tz date d Hd) as [H _].
  rewrite H. unfold TimeWithinDay, WeekDay, MakeDate, Day, msPerDay.
  split; Z.div_mod_to_equations; lia.
Qed.

(** ** The three editions of the multiplier *)

Open Scope Q_scope.

Lemma Qle_one_inject (s : Z) : (0 < s)%Z -> 1 <= inject_Z s.
Proof.
  intros Hs. change 1 with (inject_Z 1). rewrite <- Zle_Qle. lia.
Qed.

(** [Math.round] of an integer is that integer. *)
Lemma Math_round_integer (x : Q) (n : Z) :
  x == inject_Z n -> Helpers.Math_round x = n.
Proof.
  intros Hx. unfold Helpers.Math_round.
  assert (Hlo : (n <= Qfloor (x + (1 # 2)))%Z).
  { rewrite <- (Qfloor_Z n). apply Qfloor_resp_le. rewrite Hx. lra. }
  assert (Hhi : (Qfloor (x + (1 # 2)) < n + 1)%Z).
  { rewrite Zlt_Qlt. apply Qle_lt_trans with (y := x + (1 # 2)).
    - apply Qfloor_le.
    - rewrite inject_Z_plus, Hx. change (inject_Z 1) with 1. lra. }
  lia.
Qed.

(** In exact arithmetic the rounding of the offset edition changes
    nothing: the multiplier is a whole number of hundredths already. *)
Lemma getStreakMultiplier_offset_exact (s : Z) :
  (0 < s)%Z ->
  Helpers.getStreakMultiplier_offset s ==
  Qmin ((112 # 100) + (inject_Z s - 1) * (1 # 10)) 3.
Proof.
  intros Hs. unfold Helpers.getStreakMultiplier_offset.
  destruct (Z.leb_spec s 0); [lia |].
  rewrite (Math_round_integer _ (102 + 10 * s)%Z).
  - apply Q.min_compat; [| reflexivity].
    rewrite inject_Z_plus, inject_Z_mult.
    change (inject_Z 102) with 102. change (inject_Z 10) with 10. field.
  - rewrite inject_Z_plus, inject_Z_mult.
    change (inject_Z 102) with 102. change (inject_Z 10) with 10. field.
Qed.

(** The two later editions of [getStreakMultiplier] have the shape of the
    first: 1 without a streak, never below 1, never above their cap (3
    for the offset edition, 2 for the weekly one) and never decreasing in
    the streak; and for every streak the weekly multiplier is at most the
    offset one, which is at most the daily one. *)
Theorem getStreakMultiplier_editions :
  (forall s : Z,
     1 <= Helpers.getStreakMultiplier_offset s <= 3 /\
     1 <= Helpers.getStreakMultiplier_weekly s <= 2) /\
  (forall s s' : Z,
     (s <= s')%Z ->
     Helpers.getStreakMultiplier_offset s <= Helpers.getStreakMultiplier_offset s' /\
     Helpers.getStreakMultiplier_weekly s <= Helpers.getStreakMultiplier_weekly s') /\
  (forall s : Z,
     Helpers.getStreakMultiplier_weekly s <= Helpers.getStreakMultiplier_offset s /\
     Helpers.getStreakMultiplier_offset s <= Helpers.getStreakMultiplier s) /\
  (forall s : Z,
     (s <= 0)%Z ->
     Helpers.getStreakMultiplier_offset s == 1 /\
     Helpers.getStreakMultiplier_weekly s == 1).
Proof.
  assert (Hoff : forall s, (0 < s)%Z ->
            Helpers.getStreakMultiplier_offset s ==
            Qmin ((102 # 100) + inject_Z s * (1 # 10)) 3).
  { intros s Hs. rewrite (getStreakMultiplier_offset_exact s Hs).
    apply Q.min_compat; [field | reflexivity]. }
  assert (Hnon : forall s, (s <= 0)%Z ->
            Helpers.getStreakMultiplier_offset s = 1 /\
            Helpers.getStreakMultiplier_weekly s = 1 /\
            Helpers.getStreakMultiplier s = 1).
  { intros s Hs. unfold Helpers.getStreakMultiplier_offset,
      Helpers.getStreakMultiplier_weekly, Helpers.getStreakMultiplier.
    destruct (Z.leb_spec s 0); [repeat split | lia]. }
  assert (Hbo : forall s, 1 <= Helpers.getStreakMultiplier_offset s <= 3).
  { intros s. destruct (Z_le_gt_dec s 0) as [Hs | Hs].
    - destruct (Hnon s Hs) as (-> & _). lra.
    - rewrite (Hoff s ltac:(lia)).
      pose proof (Qle_one_inject s ltac:(lia)).
      split; [apply Q.min_glb; lra | apply Q.le_min_r]. }
  split; [| split; [| split]].
  - intros s. split; [apply Hbo | apply getStreakMultiplier_weekly_bounds].
  - intros s s' Hle. split; [| now apply getStreakMultiplier_weekly_monotone].
    destruct (Z_le_gt_dec s 0) as [Hs | Hs].
    + destruct (Hnon s Hs) as (-> & _). apply Hbo.
    + rewrite (Hoff s ltac:(lia)), (Hoff s' ltac:(lia)).
      assert (inject_Z s <= inject_Z s') by (rewrite <- Zle_Qle; lia).
      apply Q.min_le_compat_r. lra.
  - intros s. destruct (Z_le_gt_dec s 0) as [Hs | Hs].
    + destruct (Hnon s Hs) as (-> & -> & ->). lra.
    + rewrite (Hoff s ltac:(lia)).
      pose proof (Qle_one_inject s ltac:(lia)) as H1.
      unfold Helpers.getStreakMultiplier_weekly, Helpers.getStreakMultiplier.
      destruct (Z.leb_spec s 0); [lia |]. split.
      * apply Q.min_glb.
        -- eapply Qle_trans; [apply Q.le_min_l | lra].
        -- eapply Qle_trans; [apply Q.le_min_r | lra].
      * apply Q.min_le_compat_r. lra.
  - intros s Hs. destruct (Hnon s Hs) as (-> & -> & _). split; reflexivity.
Qed.

Close Scope Q_scope.

(** ** Ranks and statistics *)

Open Scope Z_scope.

Lemma find_first {A : Type} (f : A -> bool) (l : list A) (x : A) :
  find f l = Some x ->
  exists i, nth_error l i = Some x /\ f x = true /\
            forall j y, (j < i)%nat -> nth_error l j = Some y -> f y = false.
Proof.
  induction l as [| a l IH]; cbn [find]; [discriminate |].
  destruct (f a) eqn:Ea.
  - intros H. injection H as <-. exists 0%nat. repeat split; [exact Ea |].
    intros j y Hj. lia.
  - intros H. destruct (IH H) as (i & Hi & Hx & Hbefore).
    exists (S i). repeat split; [exact Hi | exact Hx |].
    intros [| j] y Hj Hy; cbn [nth_error] in Hy.
    + injection Hy as <-. exact Ea.
    + apply (Hbefore j); [lia | exact Hy].
Qed.

Lemma find_none_all {A : Type} (f : A -> bool) (l : list A) :
  find f l = None -> forall x, In x l -> f x = false.
Proof. intros H x Hx. exact (find_none f l H x Hx). Qed.

Lemma getWeeklyLeaderboard_rank (db : Daily.Db) (trackId : Z)
    (wb : WeekService.WeekBoundaries) (i : nat)
    (e : LeaderboardService.LeaderboardEntry) :
  nth_error (LeaderboardService.getWeeklyLeaderboard db trackId wb) i = Some e ->
  LeaderboardService.rank e = Z.of_nat i + 1.
Proof.
  unfold LeaderboardService.getWeeklyLeaderboard, LeaderboardService.rankResults.
  intros H. apply mapWithIndex_rank in H. lia.
Qed.

(** [getUserRank] returns the rank of the first entry of the user: a
    number between 1 and the length of the leaderboard, one more than the
    entry's position; it returns [null] exactly when the leaderboard has
    no entry of the user. *)
Theorem getUserRank_position (db : Daily.Db) (trackId userId : Z)
    (wb : WeekService.WeekBoundaries) :
  let leaderboard := LeaderboardService.getWeeklyLeaderboard db trackId wb in
  match LeaderboardQueries.getUserRank db trackId userId wb with
  | Some r =>
      1 <= r <= Z.of_nat (List.length leaderboard) /\
      exists e,
        nth_error leaderboard (Z.to_nat (r - 1)) = Some e /\
        LeaderboardService.userId (LeaderboardService.entry e) = userId /\
        LeaderboardService.rank e = r /\
        forall j e',
          (j < Z.to_nat (r - 1))%nat -> nth_error leaderboard j = Some e' ->
          LeaderboardService.userId (LeaderboardService.entry e') <> userId
  | None =>
      forall e, In e leaderboard ->
                LeaderboardService.userId (LeaderboardService.entry e) <> userId
  end.
Proof.
  intros leaderboard. unfold LeaderboardQueries.getUserRank. fold leaderboard.
  destruct (find _ leaderboard) as [e |] eqn:Hfind.
  - destruct (find_first _ _ _ Hfind) as (i & Hi & He & Hbefore).
    pose proof (getWeeklyLeaderboard_rank _ _ _ _ _ Hi) as Hrank.
    assert (Hlen : (i < List.length leaderboard)%nat)
      by (apply nth_error_Some; congruence).
    destruct (Z.eqb_spec (LeaderboardService.rank e) 0); [lia |].
    rewrite Hrank. replace (Z.to_nat (Z.of_nat i + 1 - 1)) with i by lia.
    split; [lia |]. exists e. repeat split; try assumption.
    + now apply Z.eqb_eq.
    + intros j e' Hj Hj'. apply Z.eqb_neq. now apply (Hbefore j).
  - intros e He. apply Z.eqb_neq. now apply (find_none_all _ _ Hfind).
Qed.

(** *** The groups of the pipeline *)

Lemma addToGroups_ids (s : Daily.Submission) (gs : list LeaderboardService.Group)
    (id : Z) :
  In id (map LeaderboardService.g_id (LeaderboardService.addToGroups s gs)) <->
  id = Daily.userId s \/ In id (map LeaderboardService.g_id gs).
Proof.
  induction gs as [| g gs IH]; cbn [LeaderboardService.addToGroups map In
                                     LeaderboardService.g_id].
  - intuition.
  - destruct (Z.eqb_spec (LeaderboardService.g_id g) (Daily.userId s)) as [E | N];
      cbn [map In LeaderboardService.g_id].
    + intuition congruence.
    + rewrite IH. intuition.
Qed.

Lemma addToGroups_NoDup (s : Daily.Submission)
    (gs : list LeaderboardService.Group) :
  NoDup (map LeaderboardService.g_id gs) ->
  NoDup (map LeaderboardService.g_id (LeaderboardService.addToGroups s gs)).
Proof.
  induction gs as [| g gs IH]; cbn [LeaderboardService.addToGroups map
                                     LeaderboardService.g_id]; intros Hnd.
  - repeat constructor. intros [].
  - destruct (Z.eqb_spec (LeaderboardService.g_id g) (Daily.userId s)) as [E | N];
      cbn [map LeaderboardService.g_id]; [exact Hnd |].
    inversion Hnd as [| ? ? Hnotin Hnd']; subst.
    constructor; [| now apply IH].
    rewrite addToGroups_ids. intros [H | H]; [congruence | contradiction].
Qed.

Lemma addToGroups_sums (s : Daily.Submission)
    (gs : list LeaderboardService.Group) :
  (Totals.sumBaseScore (LeaderboardService.addToGroups s gs) ==
   Totals.sumBaseScore gs + LeaderboardQueries.scoreOf s)%Q /\
  Totals.sumSubmissionCount (LeaderboardService.addToGroups s gs) =
  Totals.sumSubmissionCount gs + 1.
Proof.
  unfold LeaderboardQueries.scoreOf.
  induction gs as [| g gs [IHq IHz]];
    cbn [LeaderboardService.addToGroups Totals.sumBaseScore
         Totals.sumSubmissionCount fold_right
         LeaderboardService.g_baseScore LeaderboardService.g_submissionCount].
  - split; [lra | lia].
  - destruct (LeaderboardService.g_id g =? Daily.userId s);
      cbn [Totals.sumBaseScore Totals.sumSubmissionCount fold_right
           LeaderboardService.g_baseScore LeaderboardService.g_submissionCount].
    + split; [| lia].
      fold (Totals.sumBaseScore gs). lra.
    + fold (Totals.sumBaseScore (LeaderboardService.addToGroups s gs)).
      fold (Totals.sumBaseScore gs).
      fold (Totals.sumSubmissionCount (LeaderboardService.addToGroups s gs)).
      fold (Totals.sumSubmissionCount gs).
      split; [rewrite IHq; lra | lia].
Qed.

Lemma fold_groups (l : list Daily.Submission)
    (gs : list LeaderboardService.Group) :
  let gs' := fold_left (fun gs s => LeaderboardService.addToGroups s gs) l gs in
  (NoDup (map LeaderboardService.g_id gs) ->
   NoDup (map LeaderboardService.g_id gs')) /\
  (forall id, In id (map LeaderboardService.g_id gs') <->
              In id (map Daily.userId l) \/
              In id (map LeaderboardService.g_id gs)) /\
  (Totals.sumBaseScore gs' == Totals.sumBaseScore gs + Totals.sumScores l)%Q /\
  Totals.sumSubmissionCount gs' =
  Totals.sumSubmissionCount gs + Z.of_nat (List.length l).
Proof.
  revert gs. induction l as [| s l IH]; intros gs; cbn [fold_left].
  - cbn. repeat split; try tauto; try lra; try lia.
  - specialize (IH (LeaderboardService.addToGroups s gs)).
    cbv zeta in IH. destruct IH as (IHnd & IHin & IHq & IHz).
    destruct (addToGroups_sums s gs) as [Hq Hz].
    cbv zeta. repeat split.
    + intros Hnd. apply IHnd. now apply addToGroups_NoDup.
    + rewrite IHin, addToGroups_ids. cbn [map In]. intuition.
    + rewrite IHin, addToGroups_ids. cbn [map In]. intuition.
    + rewrite IHq, Hq. cbn [Totals.sumScores fold_right].
      fold (Totals.sumScores l). lra.
    + rewrite IHz, Hz. cbn [List.length]. lia.
Qed.

Lemma fold_left_sumScores (l : list Daily.Submission) (acc : Q) :
  (fold_left (fun acc s => (acc + LeaderboardQueries.scoreOf s)%Q) l acc ==
   acc + Totals.sumScores l)%Q.
Proof.
  revert acc. induction l as [| s l IH]; intros acc;
    cbn [fold_left Totals.sumScores fold_right].
  - lra.
  - rewrite IH. fold (Totals.sumScores l). lra.
Qed.

Lemma groups_of_matched (db : Daily.Db) (trackId : Z)
    (wb : WeekService.WeekBoundaries) :
  let m := LeaderboardQueries.matched db trackId wb in
  let gs := LeaderboardQueries.groups db trackId wb in
  NoDup (map LeaderboardService.g_id gs) /\
  (forall id, In id (map LeaderboardService.g_id gs) <->
              In id (map Daily.userId m)) /\
  (Totals.sumBaseScore gs == Totals.sumScores m)%Q /\
  Totals.sumSubmissionCount gs = Z.of_nat (List.length m) /\
  List.length gs = List.length (nodup Z.eq_dec (map Daily.userId m)).
Proof.
  intros m gs. subst gs. unfold LeaderboardQueries.groups. fold m.
  destruct (fold_groups m []) as (Hnd & Hin & Hq & Hz). cbv zeta in *.
  assert (Hnd' := Hnd (NoDup_nil _)).
  assert (Hin' : forall id,
             In id (map LeaderboardService.g_id
                        (fold_left (fun gs s => LeaderboardService.addToGroups s gs)
                                   m [])) <->
             In id (map Daily.userId m)).
  { intros id. rewrite Hin. cbn. tauto. }
  repeat split; try assumption.
  - apply Hin'.
  - apply Hin'.
  - rewrite Hq. cbn. lra.
  - rewrite <- (length_map LeaderboardService.g_id).
    apply Permutation_length. apply NoDup_Permutation.
    + exact Hnd'.
    + apply NoDup_nodup.
    + intros id. rewrite Hin', nodup_In. tauto.
Qed.

Lemma getLeaderboardStats_groups (db : Daily.Db) (trackId : Z)
    (wb : WeekService.WeekBoundaries) :
  LeaderboardQueries.totalParticipants
    (LeaderboardQueries.getLeaderboardStats db trackId wb)
  = Z.of_nat (List.length (LeaderboardQueries.groups db trackId wb)).
Proof.
  destruct (groups_of_matched db trackId wb) as (_ & _ & _ & _ & Hlen).
  cbv zeta in Hlen. unfold LeaderboardQueries.getLeaderboardStats.
  destruct (LeaderboardQueries.matched db trackId wb) as [| s m'] eqn:Em.
  - cbn in Hlen. rewrite Hlen. reflexivity.
  - cbn [LeaderboardQueries.totalParticipants]. now rewrite Hlen.
Qed.

(** The statistics agree with the submissions they summarize and with
    the groups of the leaderboard pipeline: [totalSubmissions] counts the
    approved submissions of the track and week, [totalParticipants]
    counts the groups (the distinct submitters) and never exceeds
    [totalSubmissions], the groups' submission counts add up to
    [totalSubmissions], and [averageScore] times [totalSubmissions] is
    the sum of the groups' base scores; without a matching submission all
    three statistics are 0. *)
Theorem getLeaderboardStats_consistent (db : Daily.Db) (trackId : Z)
    (wb : WeekService.WeekBoundaries) :
  let stats := LeaderboardQueries.getLeaderboardStats db trackId wb in
  let m := LeaderboardQueries.matched db trackId wb in
  let gs := LeaderboardQueries.groups db trackId wb in
  LeaderboardQueries.totalSubmissions stats = Z.of_nat (List.length m) /\
  LeaderboardQueries.totalParticipants stats = Z.of_nat (List.length gs) /\
  0 <= LeaderboardQueries.totalParticipants stats
    <= LeaderboardQueries.totalSubmissions stats /\
  Totals.sumSubmissionCount gs = LeaderboardQueries.totalSubmissions stats /\
  (LeaderboardQueries.averageScore stats
   * inject_Z (LeaderboardQueries.totalSubmissions stats)
   == Totals.sumBaseScore gs)%Q /\
  (m = [] -> stats = LeaderboardQueries.mkLeaderboardStats 0 0 0%Q).
Proof.
  intros stats m gs.
  destruct (groups_of_matched db trackId wb) as (_ & _ & Hq & Hz & Hlen).
  fold m gs in Hq, Hz, Hlen.
  subst stats. unfold LeaderboardQueries.getLeaderboardStats. fold m.
  destruct m as [| s m'] eqn:Em.
  - cbn in Hlen. destruct gs; [| discriminate].
    cbn. repeat split; try lia; reflexivity.
  - set (l := s :: m') in *.
    cbn [LeaderboardQueries.totalSubmissions LeaderboardQueries.totalParticipants
         LeaderboardQueries.averageScore].
    assert (Hpos : 0 < Z.of_nat (List.length l)) by (subst l; cbn [List.length]; lia).
    assert (Hle : (List.length (nodup Z.eq_dec (map Daily.userId l))
                   <= List.length l)%nat).
    { apply Nat.le_trans with (m := List.length (map Daily.userId l));
        [| rewrite length_map; apply Nat.le_refl].
      apply NoDup_incl_length; [apply NoDup_nodup |].
      intros x Hx. now apply nodup_In in Hx. }
    repeat split; try lia; try discriminate.
    destruct (Z.ltb_spec 0 (Z.of_nat (List.length l))); [| lia].
    rewrite Hq, fold_left_sumScores.
    assert (Hnz : ~ (inject_Z (Z.of_nat (List.length l)) == 0)%Q).
    { change 0%Q with (inject_Z 0). rewrite inject_Z_injective. lia. }
    field. exact Hnz.
Qed.

(** *** One entry per participant *)

Lemma filter_at_most_one {A K : Type} (key : A -> K) (p : A -> bool) (c : K)
    (l : list A) :
  (forall x, p x = true -> key x = c) ->
  NoDup (map key l) ->
  (List.length (filter p l) <= 1)%nat.
Proof.
  intros Hp. induction l as [| a l IH]; cbn [map filter]; intros Hnd; [cbn; lia |].
  inversion Hnd as [| ? ? Hnotin Hnd']; subst.
  destruct (p a) eqn:Ea; [| now apply IH].
  cbn [List.length].
  assert (Hnil : filter p l = []).
  { destruct (filter p l) as [| b rest] eqn:Ef; [reflexivity |].
    exfalso. apply Hnotin.
    assert (Hb : In b (filter p l)) by (rewrite Ef; now left).
    apply filter_In in Hb. destruct Hb as [Hbl Hbp].
    rewrite (Hp a Ea), <- (Hp b Hbp). now apply in_map. }
  rewrite Hnil. cbn. lia.
Qed.

Lemma filter_exactly_one {A K : Type} (key : A -> K) (p : A -> bool) (c : K)
    (l : list A) :
  (forall x, p x = true <-> key x = c) ->
  NoDup (map key l) ->
  In c (map key l) ->
  exists x, filter p l = [x] /\ key x = c.
Proof.
  intros Hp Hnd Hin.
  pose proof (filter_at_most_one key p c l (fun x H => proj1 (Hp x) H) Hnd) as Hle.
  apply in_map_iff in Hin. destruct Hin as (x & Hx & Hxl).
  assert (Hf : In x (filter p l)) by (apply filter_In; split; [exact Hxl | now apply Hp]).
  destruct (filter p l) as [| y [| z rest]]; cbn in Hle, Hf;
    try contradiction; try lia.
  destruct Hf as [-> | []]. now exists x.
Qed.

Lemma map_flat_map_singletons {A B C : Type} (f : A -> list B) (h : B -> C)
    (k : A -> C) (l : list A) :
  (forall a, In a l -> exists b, f a = [b] /\ h b = k a) ->
  map h (flat_map f l) = map k l.
Proof.
  induction l as [| a l IH]; intros H; cbn [flat_map map]; [reflexivity |].
  destruct (H a (or_introl eq_refl)) as (b & -> & Hb).
  cbn [app map]. rewrite Hb. f_equal. apply IH. intros a' Ha'. apply H. now right.
Qed.

Lemma aggregate_of_groups (db : Daily.Db) (trackId : Z)
    (wb : WeekService.WeekBoundaries) :
  Totals.joinsAreOneToOne db ->
  map (fun a => (LeaderboardService.a_userId a, LeaderboardService.a_baseScore a,
                 LeaderboardService.a_submissionCount a))
      (LeaderboardService.aggregate db trackId wb)
  = map (fun g => (LeaderboardService.g_id g, LeaderboardService.g_baseScore g,
                   LeaderboardService.g_submissionCount g))
        (LeaderboardQueries.groups db trackId wb).
Proof.
  intros (Husers & Hsubmitters & Hmemberships).
  destruct (groups_of_matched db trackId wb) as (_ & Hids & _).
  change (LeaderboardService.aggregate db trackId wb)
    with (flat_map
            (fun g =>
               flat_map
                 (fun u =>
                    map (fun m : option Daily.TrackMembership =>
                           LeaderboardService.mkAggregated
                             (LeaderboardService.g_id g)
                             (match displayName u with
                              | Some n => n
                              | None => email u
                              end)
                             (Model.avatarUrl u)
                             (LeaderboardService.g_baseScore g)
                             (LeaderboardService.g_submissionCount g)
                             (match m with
                              | Some m => Daily.currentStreak m
                              | None => 0
                              end)
                             (match m with
                              | Some m => Daily.longestStreak m
                              | None => 0
                              end))
                        (match
                            filter (fun m => (Daily.tm_userId m =? LeaderboardService.g_id g)
                                             && (Daily.tm_trackId m =? trackId))
                                   (Daily.trackMemberships db)
                          with
                          | [] => [None]
                          | _ => map Some
                                   (filter (fun m => (Daily.tm_userId m =? LeaderboardService.g_id g)
                                                     && (Daily.tm_trackId m =? trackId))
                                           (Daily.trackMemberships db))
                          end))
                 (filter (fun u => user_id u =? LeaderboardService.g_id g)
                         (Daily.users db)))
            (LeaderboardQueries.groups db trackId wb)).
  apply map_flat_map_singletons. intros g Hg.
  assert (Hsub : In (LeaderboardService.g_id g) (map user_id (Daily.users db))).
  { assert (Hgid : In (LeaderboardService.g_id g)
                      (map Daily.userId (LeaderboardQueries.matched db trackId wb)))
      by (apply Hids; now apply in_map).
    apply in_map_iff in Hgid. destruct Hgid as (s & <- & Hs).
    apply Hsubmitters. unfold LeaderboardQueries.matched in Hs.
    apply filter_In in Hs. tauto. }
  destruct (filter_exactly_one user_id
              (fun u => user_id u =? LeaderboardService.g_id g)
              (LeaderboardService.g_id g) (Daily.users db)
              (fun u => Z.eqb_eq _ _) Husers Hsub) as (u & -> & _).
  pose proof (filter_at_most_one
                (fun m => (Daily.tm_userId m, Daily.tm_trackId m))
                (fun m => (Daily.tm_userId m =? LeaderboardService.g_id g)
                          && (Daily.tm_trackId m =? trackId))
                (LeaderboardService.g_id g, trackId)
                (Daily.trackMemberships db)) as Hm.
  specialize (Hm ltac:(intros m H; apply andb_prop in H; destruct H as [H1 H2];
                       apply Z.eqb_eq in H1, H2; cbv beta; now rewrite H1, H2)
                 Hmemberships).
  destruct (filter _ (Daily.trackMemberships db)) as [| m [| m' rest]];
    cbn in Hm; try lia; cbn [flat_map map app]; eexists; split; reflexivity.
Qed.

Lemma leaderboard_of_groups (db : Daily.Db) (trackId : Z)
    (wb : WeekService.WeekBoundaries) :
  Totals.joinsAreOneToOne db ->
  Permutation
    (map (fun e => (LeaderboardService.userId (LeaderboardService.entry e),
                    LeaderboardService.baseScore (LeaderboardService.entry e),
                    LeaderboardService.submissionCount (LeaderboardService.entry e)))
         (LeaderboardService.getWeeklyLeaderboard db trackId wb))
    (map (fun g => (LeaderboardService.g_id g, LeaderboardService.g_baseScore g,
                    LeaderboardService.g_submissionCount g))
         (LeaderboardQueries.groups db trackId wb)).
Proof.
  intros Hjoins.
  pose proof (aggregate_of_groups db trackId wb Hjoins) as Hagg.
  set (leaderboard := LeaderboardService.getWeeklyLeaderboard db trackId wb).
  assert (Hperm : Permutation (map LeaderboardService.entry leaderboard)
                    (map LeaderboardService.withMultiplier
                         (LeaderboardService.aggregate db trackId wb))).
  { subst leaderboard.
    unfold LeaderboardService.getWeeklyLeaderboard, LeaderboardService.rankResults.
    rewrite mapWithIndex_entries.
    apply (Array_sort_perm LeaderboardService.totalScore). }
  rewrite <- Hagg.
  replace (map (fun e => (LeaderboardService.userId (LeaderboardService.entry e),
                          LeaderboardService.baseScore (LeaderboardService.entry e),
                          LeaderboardService.submissionCount (LeaderboardService.entry e)))
               leaderboard)
    with (map (fun s => (LeaderboardService.userId s, LeaderboardService.baseScore s,
                         LeaderboardService.submissionCount s))
              (map LeaderboardService.entry leaderboard))
    by (rewrite map_map; reflexivity).
  replace (map (fun a => (LeaderboardService.a_userId a, LeaderboardService.a_baseScore a,
                          LeaderboardService.a_submissionCount a))
               (LeaderboardService.aggregate db trackId wb))
    with (map (fun s => (LeaderboardService.userId s, LeaderboardService.baseScore s,
                         LeaderboardService.submissionCount s))
              (map LeaderboardService.withMultiplier
                   (LeaderboardService.aggregate db trackId wb)))
    by (rewrite map_map; reflexivity).
  now apply Permutation_map.
Qed.

Lemma leaderboard_users (db : Daily.Db) (trackId : Z)
    (wb : WeekService.WeekBoundaries) :
  Totals.joinsAreOneToOne db ->
  Permutation
    (map (fun e => LeaderboardService.userId (LeaderboardService.entry e))
         (LeaderboardService.getWeeklyLeaderboard db trackId wb))
    (map LeaderboardService.g_id (LeaderboardQueries.groups db trackId wb)).
Proof.
  intros Hjoins. pose proof (leaderboard_of_groups db trackId wb Hjoins) as H.
  apply (Permutation_map (fun k : Z * Q * Z => fst (fst k))) in H.
  rewrite !map_map in H. exact H.
Qed.

(** When user ids are unique, every submitter has a user document and no
    user has two memberships on the track, the leaderboard has exactly
    one entry for each participant: its entries carry, up to order, the
    user id, base score and submission count of the groups; no user
    appears twice; and its length is the [totalParticipants] of the
    statistics. *)
Theorem leaderboard_one_entry_per_participant (db : Daily.Db) (trackId : Z)
    (wb : WeekService.WeekBoundaries) :
  Totals.joinsAreOneToOne db ->
  let leaderboard := LeaderboardService.getWeeklyLeaderboard db trackId wb in
  let stats := LeaderboardQueries.getLeaderboardStats db trackId wb in
  Permutation
    (map (fun e => (LeaderboardService.userId (LeaderboardService.entry e),
                    LeaderboardService.baseScore (LeaderboardService.entry e),
                    LeaderboardService.submissionCount (LeaderboardService.entry e)))
         leaderboard)
    (map (fun g => (LeaderboardService.g_id g, LeaderboardService.g_baseScore g,
                    LeaderboardService.g_submissionCount g))
         (LeaderboardQueries.groups db trackId wb)) /\
  NoDup (map (fun e => LeaderboardService.userId (LeaderboardService.entry e))
             leaderboard) /\
  Z.of_nat (List.length leaderboard) = LeaderboardQueries.totalParticipants stats.
Proof.
  intros Hjoins leaderboard stats.
  destruct (groups_of_matched db trackId wb) as (Hnd & _).
  pose proof (leaderboard_users db trackId wb Hjoins) as Husers.
  split; [now apply leaderboard_of_groups | split].
  - exact (Permutation_NoDup (Permutation_sym Husers) Hnd).
  - apply Permutation_length in Husers. rewrite !length_map in Husers.
    subst stats leaderboard. rewrite getLeaderboardStats_groups, Husers.
    reflexivity.
Qed.

Lemma joinsAreOneToOne_dbTied : Totals.joinsAreOneToOne Samples.dbTied.
Proof.
  split; [| split].
  - cbn. repeat constructor; cbn; intuition discriminate.
  - intros s Hs. cbn in Hs |- *.
    destruct Hs as [<- | [<- | []]]; cbn; tauto.
  - cbn. repeat constructor; cbn; intuition discriminate.
Qed.

Lemma leaderboard_one_entry_per_participant_witness :
  Z.of_nat (List.length
              (LeaderboardService.getWeeklyLeaderboard Samples.dbTied 1
                                                       Samples.week3))
  = LeaderboardQueries.totalParticipants
      (LeaderboardQueries.getLeaderboardStats Samples.dbTied 1 Samples.week3).
Proof.
  apply (leaderboard_one_entry_per_participant Samples.dbTied 1 Samples.week3
           joinsAreOneToOne_dbTied).
Defined.

(** [getMyRank] answers 404 for an unknown track; otherwise it answers
    200 with the rank that [getUserRank] computes for the current week
    and the length of the leaderboard, and a missing rank comes with a
    total score of 0.  When the joins are one-to-one, the length is the
    [totalParticipants] of the statistics and the rank is missing exactly
    when the user has no approved submission on the track this week. *)
Theorem getMyRank_answer (now userId trackId : Z) (db : Daily.Db) :
  match Track_findById trackId (Daily.tracks db) with
  | None =>
      LeaderboardQueries.getMyRank now userId trackId db
      = sendNotFound "Track not found"
  | Some track =>
      let wb := WeekService.getCurrentWeekBoundaries now (weekStartDay track) in
      exists r,
        LeaderboardQueries.getMyRank now userId trackId db = sendSuccess r 200 /\
        LeaderboardQueries.mr_rank r =
          LeaderboardQueries.getUserRank db trackId userId wb /\
        (LeaderboardQueries.mr_rank r = None ->
         LeaderboardQueries.mr_totalScore r = 0%Q) /\
        LeaderboardQueries.mr_totalParticipants r =
          Z.of_nat (List.length
                      (LeaderboardService.getWeeklyLeaderboard db trackId wb)) /\
        (Totals.joinsAreOneToOne db ->
         LeaderboardQueries.mr_totalParticipants r =
           LeaderboardQueries.totalParticipants
             (LeaderboardQueries.getLeaderboardStats db trackId wb) /\
         (LeaderboardQueries.mr_rank r = None <->
          ~ In userId (map Daily.userId
                           (LeaderboardQueries.matched db trackId wb))))
  end.
Proof.
  unfold LeaderboardQueries.getMyRank.
  destruct (Track_findById trackId (Daily.tracks db)) as [track |];
    [| reflexivity].
  cbv zeta.
  set (wb := WeekService.getCurrentWeekBoundaries now (weekStartDay track)).
  eexists. split; [reflexivity |].
  cbn [LeaderboardQueries.mr_rank LeaderboardQueries.mr_totalScore
       LeaderboardQueries.mr_totalParticipants].
  unfold LeaderboardQueries.getUserRank.
  set (leaderboard := LeaderboardService.getWeeklyLeaderboard db trackId wb).
  assert (Hrank : forall e,
            find (fun e => LeaderboardService.userId (LeaderboardService.entry e)
                           =? userId) leaderboard = Some e ->
            (LeaderboardService.rank e =? 0) = false).
  { intros e He. destruct (find_first _ _ _ He) as (i & Hi & _).
    apply getWeeklyLeaderboard_rank in Hi. apply Z.eqb_neq. lia. }
  split; [reflexivity | split; [| split; [reflexivity |]]].
  - destruct (find _ leaderboard) as [e |] eqn:Hfind; [| reflexivity].
    rewrite (Hrank e eq_refl). discriminate.
  - intros Hjoins.
    pose proof (leaderboard_users db trackId wb Hjoins) as Husers.
    destruct (groups_of_matched db trackId wb) as (_ & Hids & _).
    split.
    + rewrite getLeaderboardStats_groups.
      apply Permutation_length in Husers. rewrite !length_map in Husers.
      fold leaderboard in Husers. now rewrite Husers.
    + fold leaderboard in Husers.
      assert (Hin : In userId
                       (map (fun e => LeaderboardService.userId
                                        (LeaderboardService.entry e)) leaderboard)
                    <-> In userId (map Daily.userId
                                       (LeaderboardQueries.matched db trackId wb))).
      { rewrite <- Hids. split; intros H.
        - exact (Permutation_in _ Husers H).
        - exact (Permutation_in _ (Permutation_sym Husers) H). }
      rewrite <- Hin.
      destruct (find _ leaderboard) as [e |] eqn:Hfind.
      * rewrite (Hrank e eq_refl). split; [discriminate |].
        intros Hno. exfalso. apply Hno.
        apply find_some in Hfind. destruct Hfind as [He Hid].
        apply Z.eqb_eq in Hid. rewrite <- Hid.
        now apply (in_map (fun e => LeaderboardService.userId
                                      (LeaderboardService.entry e))).
      * split; [| reflexivity]. intros _ Hyes.
        apply in_map_iff in Hyes. destruct Hyes as (e & He & Hel).
        pose proof (find_none _ _ Hfind e Hel) as Hf. cbv beta in Hf.
        apply Z.eqb_neq in Hf. contradiction.
Qed.

(** *** Totals and streaks *)

Open Scope Q_scope.

Lemma round2_monotone (x y : Q) :
  x <= y -> LeaderboardService.round2 x <= LeaderboardService.round2 y.
Proof.
  intros H. unfold LeaderboardService.round2, Helpers.Math_round.
  assert (Hf : (Qfloor (x * 100 + (1 # 2)) <= Qfloor (y * 100 + (1 # 2)))%Z)
    by (apply Qfloor_resp_le; lra).
  rewrite Zle_Qle in Hf.
  unfold Qdiv. apply Qmult_le_compat_r; [exact Hf | discriminate].
Qed.

Lemma Qmult_le_nonneg_l (z x y : Q) : 0 <= z -> x <= y -> z * x <= z * y.
Proof.
  intros Hz Hxy. rewrite !(Qmult_comm z). now apply Qmult_le_compat_r.
Qed.

(** For a base score that is not negative, a longer streak never lowers
    the total score of a leaderboard entry, and the total lies between
    the rounded base score and the rounded triple of it. *)
Theorem totalScore_grows_with_streak (e e' : LeaderboardService.Aggregated) :
  LeaderboardService.a_baseScore e == LeaderboardService.a_baseScore e' ->
  0 <= LeaderboardService.a_baseScore e ->
  (LeaderboardService.a_currentStreak e
   <= LeaderboardService.a_currentStreak e')%Z ->
  LeaderboardService.totalScore (LeaderboardService.withMultiplier e)
  <= LeaderboardService.totalScore (LeaderboardService.withMultiplier e') /\
  LeaderboardService.round2 (LeaderboardService.a_baseScore e)
  <= LeaderboardService.totalScore (LeaderboardService.withMultiplier e) /\
  LeaderboardService.totalScore (LeaderboardService.withMultiplier e)
  <= LeaderboardService.round2 (3 * LeaderboardService.a_baseScore e).
Proof.
  intros Hbase Hnonneg Hstreak.
  unfold LeaderboardService.withMultiplier. cbn [LeaderboardService.totalScore].
  pose proof (getStreakMultiplier_monotone _ _ Hstreak) as Hmono.
  pose proof (getStreakMultiplier_bounds (LeaderboardService.a_currentStreak e))
    as [Hlo Hhi].
  repeat split; apply round2_monotone.
  - rewrite <- Hbase. apply Qmult_le_nonneg_l; assumption.
  - rewrite <- (Qmult_1_r (LeaderboardService.a_baseScore e)) at 1.
    apply Qmult_le_nonneg_l; assumption.
  - rewrite (Qmult_comm 3). apply Qmult_le_nonneg_l; assumption.
Qed.

Lemma totalScore_grows_with_streak_witness :
  LeaderboardService.totalScore
    (LeaderboardService.withMultiplier
       (LeaderboardService.mkAggregated 11%Z "A" None 20 2%Z 5%Z 5%Z))
  <= LeaderboardService.totalScore
       (LeaderboardService.withMultiplier
          (LeaderboardService.mkAggregated 11%Z "A" None 20 2%Z 6%Z 6%Z)).
Proof.
  apply (totalScore_grows_with_streak
           (LeaderboardService.mkAggregated 11%Z "A" None 20 2%Z 5%Z 5%Z)
           (LeaderboardService.mkAggregated 11%Z "A" None 20 2%Z 6%Z 6%Z)).
  - reflexivity.
  - discriminate.
  - cbn. lia.
Defined.

Close Scope Q_scope.

(** ** Reading submissions *)

Lemma Track_findById_id (id : Z) (tracks : list Track) (t : Track) :
  Track_findById id tracks = Some t -> track_id t = id.
Proof.
  unfold Track_findById. intros H. apply find_some in H.
  destruct H as [_ H]. now apply Z.eqb_eq.
Qed.



Open Scope Z_scope.

Lemma insertSorted_ext {A : Type} (c1 c2 : A -> A -> Q) (x : A) (l : list A) :
  (forall a b, Qle_bool (c1 a b) 0 = Qle_bool (c2 a b) 0) ->
  LeaderboardService.insertSorted c1 x l = LeaderboardService.insertSorted c2 x l.
Proof.
  intros H. induction l as [| y l IH]; cbn [LeaderboardService.insertSorted];
    [reflexivity |].
  rewrite H, IH. reflexivity.
Qed.

Lemma Array_sort_ext {A : Type} (c1 c2 : A -> A -> Q) (l : list A) :
  (forall a b, Qle_bool (c1 a b) 0 = Qle_bool (c2 a b) 0) ->
  LeaderboardService.Array_sort c1 l = LeaderboardService.Array_sort c2 l.
Proof.
  intros H. induction l as [| x l IH]; cbn [LeaderboardService.Array_sort];
    [reflexivity |].
  rewrite IH. now apply insertSorted_ext.
Qed.

Lemma Qle_bool_ext (x y : Q) : (x == y)%Q -> Qle_bool x 0 = Qle_bool y 0.
Proof.
  intros H. destruct (Qle_bool y 0) eqn:E.
  - apply Qle_bool_iff. apply Qle_bool_iff in E. now rewrite H.
  - destruct (Qle_bool x 0) eqn:E'; [| reflexivity].
    apply Qle_bool_iff in E'. rewrite H in E'. apply Qle_bool_iff in E'.
    congruence.
Qed.

(** Sorting on an integer key, downwards or upwards. *)
Lemma Array_sort_by_Z {A : Type} (key : A -> Z) (l : list A) :
  let down := LeaderboardService.Array_sort
                (fun a b => inject_Z (key b - key a)) l in
  let up := LeaderboardService.Array_sort
              (fun a b => inject_Z (key a - key b)) l in
  Permutation down l /\ Permutation up l /\
  StronglySorted (fun x y => y <= x) (map key down) /\
  StronglySorted (fun x y => x <= y) (map key up).
Proof.
  intros down up.
  assert (Ed : down = LeaderboardService.Array_sort
                        (fun a b => (inject_Z (key b) - inject_Z (key a))%Q) l).
  { apply Array_sort_ext. intros a b. apply Qle_bool_ext.
    unfold Zminus. rewrite inject_Z_plus, inject_Z_opp. reflexivity. }
  assert (Eu : up = LeaderboardService.Array_sort
                      (fun a b => (inject_Z (- key b) - inject_Z (- key a))%Q) l).
  { apply Array_sort_ext. intros a b. apply Qle_bool_ext.
    unfold Zminus. rewrite inject_Z_plus, !inject_Z_opp. ring. }
  pose proof (Array_sort_perm (fun a => inject_Z (key a)) l) as Pd.
  pose proof (Array_sort_perm (fun a => inject_Z (- key a)) l) as Pu.
  pose proof (Array_sort_sorted (fun a => inject_Z (key a)) l) as Sd.
  pose proof (Array_sort_sorted (fun a => inject_Z (- key a)) l) as Su.
  cbv beta zeta in Pd, Pu, Sd, Su.
  rewrite <- Ed in Pd, Sd. rewrite <- Eu in Pu, Su.
  repeat split; try assumption.
  - clear - Sd. induction Sd as [| x rest Hs IH Hall]; cbn [map]; constructor.
    + exact IH.
    + apply Forall_map. apply Forall_impl with (2 := Hall).
      intros y Hy. now rewrite Zle_Qle.
  - clear - Su. induction Su as [| x rest Hs IH Hall]; cbn [map]; constructor.
    + exact IH.
    + apply Forall_map. apply Forall_impl with (2 := Hall).
      intros y Hy. rewrite <- Zle_Qle in Hy. lia.
Qed.

Lemma traverse_map {A B C : Type} (f : A -> option B) (g : B -> C) (g' : A -> C)
    (l : list A) (ys : list B) :
  (forall x y, f x = Some y -> g y = g' x) ->
  SubmissionQueries.traverse f l = Some ys -> map g ys = map g' l.
Proof.
  intros H. revert ys. induction l as [| x l IH]; intros ys;
    cbn [SubmissionQueries.traverse map].
  - intros E. injection E as <-. reflexivity.
  - destruct (f x) as [y |] eqn:Ey; [| discriminate].
    destruct (SubmissionQueries.traverse f l) as [ys' |]; [| discriminate].
    intros E. injection E as <-. cbn [map].
    rewrite (H x y Ey), (IH ys' eq_refl). reflexivity.
Qed.

Lemma traverse_defined {A B : Type} (f : A -> option B) (l : list A) :
  (forall x, In x l -> f x <> None) ->
  exists ys, SubmissionQueries.traverse f l = Some ys.
Proof.
  induction l as [| x l IH]; intros H; cbn [SubmissionQueries.traverse].
  - now exists [].
  - destruct (f x) as [y |] eqn:Ey; [| exfalso; apply (H x); [now left | exact Ey]].
    destruct IH as [ys ->]; [intros x' Hx'; apply H; now right |].
    now exists (y :: ys).
Qed.

Lemma listed_fields (createdAt : Z -> Z) (db : Daily.Db) (s : Daily.Submission)
    (it : SubmissionQueries.Listed) :
  SubmissionQueries.listed createdAt db s = Some it ->
  SubmissionQueries.l_id it = Daily.sub_id s /\
  user_id (SubmissionQueries.l_user it) = Daily.userId s /\
  SubmissionQueries.l_createdAt it = createdAt (Daily.sub_id s).
Proof.
  unfold SubmissionQueries.listed, SubmissionQueries.User_findById.
  destruct (find _ (Daily.users db)) as [u |] eqn:Hu; [| discriminate].
  intros E. injection E as <-. cbn. repeat split.
  apply find_some in Hu. destruct Hu as [_ Hu]. now apply Z.eqb_eq.
Qed.

Lemma listedPending_fields (createdAt : Z -> Z) (db : Daily.Db)
    (s : Daily.Submission) (it : SubmissionQueries.Listed) :
  SubmissionQueries.listedPending createdAt db s = Some it ->
  SubmissionQueries.l_id it = Daily.sub_id s /\
  user_id (SubmissionQueries.l_user it) = Daily.userId s /\
  SubmissionQueries.l_createdAt it = createdAt (Daily.sub_id s).
Proof.
  unfold SubmissionQueries.listedPending, SubmissionQueries.User_findById.
  destruct (find _ (Daily.users db)) as [u |] eqn:Hu; [| discriminate].
  intros E. injection E as <-. cbn. repeat split.
  apply find_some in Hu. destruct Hu as [_ Hu]. now apply Z.eqb_eq.
Qed.

(** A caller who is not an owner or admin of the track's organization
    gets only submissions of their own from [listSubmissions], whatever
    the [week] parameter; and whoever calls, every listed submission is
    a stored submission of the track. *)
Theorem listSubmissions_own_only (tz : Z) (parseDate : string -> Z)
    (createdAt : Z -> Z) (now userId trackId : Z) (week : option string)
    (db : Daily.Db) (items : list SubmissionQueries.Listed) :
  SubmissionQueries.listSubmissions tz parseDate createdAt now userId trackId
                                    week db
  = Responded (sendSuccess items 200) ->
  Forall (fun it =>
            exists s, In s (Daily.submissions db) /\
                      SubmissionQueries.l_id it = Daily.sub_id s /\
                      user_id (SubmissionQueries.l_user it) = Daily.userId s /\
                      Daily.trackId s = trackId) items /\
  (forall track,
     Track_findById trackId (Daily.tracks db) = Some track ->
     SubmissionQueries.isAdmin userId (organizationId track) db = false ->
     Forall (fun it => user_id (SubmissionQueries.l_user it) = userId) items).
Proof.
  unfold SubmissionQueries.listSubmissions.
  destruct (Track_findById trackId (Daily.tracks db)) as [track |] eqn:Htrack;
    [| discriminate].
  pose proof (Track_findById_id _ _ _ Htrack) as Hid.
  set (q := SubmissionQueries.listQuery tz parseDate now userId track week db).
  destruct (Array_sort_by_Z (fun s => createdAt (Daily.sub_id s))
              (filter q (Daily.submissions db))) as (Hperm & _).
  cbv zeta in Hperm.
  set (sorted := LeaderboardService.Array_sort _ _) in *.
  destruct (SubmissionQueries.traverse _ sorted) as [result |] eqn:Htr;
    [| discriminate].
  intros E. apply Responded_inj in E. injection E as <-.
  assert (Hall : Forall (fun it =>
            exists s, In s sorted /\
                      SubmissionQueries.listed createdAt db s = Some it) result).
  { clear - Htr. revert result Htr.
    induction sorted as [| s l IH]; intros result;
      cbn [SubmissionQueries.traverse].
    - intros E. injection E as <-. constructor.
    - destruct (SubmissionQueries.listed createdAt db s) as [it |] eqn:Es;
        [| discriminate].
      destruct (SubmissionQueries.traverse _ l) as [r |]; [| discriminate].
      intros E. injection E as <-. constructor.
      + exists s. split; [now left | exact Es].
      + apply Forall_impl with (2 := IH r eq_refl).
        intros it' (s' & Hs' & Hit'). exists s'. split; [now right | exact Hit']. }
  assert (Hq : forall s, In s sorted -> In s (Daily.submissions db) /\ q s = true).
  { intros s Hs. apply (Permutation_in _ Hperm) in Hs. now apply filter_In in Hs. }
  split.
  - apply Forall_impl with (2 := Hall). intros it (s & Hs & Hit).
    destruct (Hq s Hs) as [Hin Hqs].
    destruct (listed_fields _ _ _ _ Hit) as (H1 & H2 & _).
    exists s. repeat split; try assumption.
    unfold q, SubmissionQueries.listQuery in Hqs.
    apply andb_prop in Hqs. destruct Hqs as [Hqs _].
    apply andb_prop in Hqs. destruct Hqs as [Hqs _].
    apply Z.eqb_eq in Hqs. congruence.
  - intros track' Htrack' Hadmin. injection Htrack' as <-.
    apply Forall_impl with (2 := Hall). intros it (s & Hs & Hit).
    destruct (Hq s Hs) as [_ Hqs].
    destruct (listed_fields _ _ _ _ Hit) as (_ & H2 & _).
    unfold q, SubmissionQueries.listQuery in Hqs. rewrite Hadmin in Hqs.
    apply andb_prop in Hqs. destruct Hqs as [Hqs _].
    apply andb_prop in Hqs. destruct Hqs as [_ Hqs].
    cbn [orb] in Hqs. apply Z.eqb_eq in Hqs. congruence.
Qed.

Lemma listSubmissions_own_only_witness :
  exists items,
    SubmissionQueries.listSubmissions 0 (fun _ => 0) (fun id => id)
      1705505400000 1 1 None Samples.dbTied
    = Responded (sendSuccess items 200) /\
    Forall (fun it => user_id (SubmissionQueries.l_user it) = 1) items.
Proof.
  eexists. split; [reflexivity |].
  eapply (listSubmissions_own_only 0 (fun _ => 0) (fun id => id)
            1705505400000 1 1 None Samples.dbTied);
    reflexivity.
Defined.

(** When every author of a stored submission has a user document,
    [listSubmissions] on an existing track answers 200 with exactly the
    submissions its filter selects, each once, newest first. *)
Theorem listSubmissions_complete (tz : Z) (parseDate : string -> Z)
    (createdAt : Z -> Z) (now userId trackId : Z) (week : option string)
    (db : Daily.Db) (track : Track) :
  Track_findById trackId (Daily.tracks db) = Some track ->
  (forall s, In s (Daily.submissions db) ->
             SubmissionQueries.User_findById (Daily.userId s) db <> None) ->
  exists items,
    SubmissionQueries.listSubmissions tz parseDate createdAt now userId trackId
                                      week db
    = Responded (sendSuccess items 200) /\
    Permutation
      (map SubmissionQueries.l_id items)
      (map Daily.sub_id
           (filter (SubmissionQueries.listQuery tz parseDate now userId track
                                                week db)
                   (Daily.submissions db))) /\
    StronglySorted (fun x y => y <= x)
                   (map SubmissionQueries.l_createdAt items).
Proof.
  intros Htrack Husers. unfold SubmissionQueries.listSubmissions. rewrite Htrack.
  set (q := SubmissionQueries.listQuery tz parseDate now userId track week db).
  destruct (Array_sort_by_Z (fun s => createdAt (Daily.sub_id s))
              (filter q (Daily.submissions db))) as (Hperm & _ & Hsorted & _).
  cbv zeta in Hperm, Hsorted.
  set (sorted := LeaderboardService.Array_sort _ _) in *.
  destruct (traverse_defined (SubmissionQueries.listed createdAt db) sorted)
    as [items Hitems].
  { intros s Hs. apply (Permutation_in _ Hperm) in Hs. apply filter_In in Hs.
    destruct Hs as [Hs _]. specialize (Husers s Hs).
    unfold SubmissionQueries.listed.
    destruct (SubmissionQueries.User_findById (Daily.userId s) db);
      [discriminate | contradiction]. }
  rewrite Hitems. exists items. split; [reflexivity | split].
  - rewrite (traverse_map _ SubmissionQueries.l_id Daily.sub_id _ _
               (fun s it H => proj1 (listed_fields _ _ _ _ H)) Hitems).
    now apply Permutation_map.
  - rewrite (traverse_map _ SubmissionQueries.l_createdAt
               (fun s => createdAt (Daily.sub_id s)) _ _
               (fun s it H => proj2 (proj2 (listed_fields _ _ _ _ H))) Hitems).
    exact Hsorted.
Qed.

Lemma listSubmissions_complete_witness :
  exists items,
    SubmissionQueries.listSubmissions 0 (fun _ => 0) (fun id => id)
      1705505400000 7 1 None Samples.dbTied
    = Responded (sendSuccess items 200) /\
    Permutation (map SubmissionQueries.l_id items) [200; 201].
Proof.
  destruct (listSubmissions_complete 0 (fun _ => 0) (fun id => id)
              1705505400000 7 1 None Samples.dbTied Samples.track1 eq_refl)
    as (items & Hitems & Hperm & _).
  - intros s [<- | [<- | []]]; discriminate.
  - exists items. split; [exact Hitems | exact Hperm].
Defined.

(** [getPendingSubmissions] lists pending submissions of the track and
    nothing else; when every author has a user document it lists all of
    them, each once, oldest first.  Through its route only an owner or
    admin of the track's organization gets the list. *)
Theorem getPendingSubmissions_pending_only (createdAt : Z -> Z)
    (userId trackId : Z) (db : Daily.Db) :
  let pendingOfTrack :=
    filter (fun s => (Daily.trackId s =? trackId)
                     && SubmissionStatus_eqb (Daily.status s) pending)
           (Daily.submissions db) in
  (forall items,
     SubmissionQueries.getPendingSubmissions createdAt trackId db
     = Responded (sendSuccess items 200) ->
     Permutation (map SubmissionQueries.l_id items)
                 (map Daily.sub_id pendingOfTrack) /\
     StronglySorted (fun x y => x <= y)
                    (map SubmissionQueries.l_createdAt items)) /\
  ((forall s, In s (Daily.submissions db) ->
              SubmissionQueries.User_findById (Daily.userId s) db <> None) ->
   exists items,
     SubmissionQueries.getPendingSubmissions createdAt trackId db
     = Responded (sendSuccess items 200)) /\
  (forall items,
     SubmissionQueries.routeGetPendingSubmissions createdAt userId trackId db
     = Responded (sendSuccess items 200) ->
     exists track,
       Track_findById trackId (Daily.tracks db) = Some track /\
       findOrgAdmin userId (organizationId track)
                    (Daily.organizationMemberships db) <> None).
Proof.
  intros pendingOfTrack.
  destruct (Array_sort_by_Z (fun s => createdAt (Daily.sub_id s)) pendingOfTrack)
    as (_ & Hperm & _ & Hsorted).
  cbv zeta in Hperm, Hsorted.
  unfold SubmissionQueries.routeGetPendingSubmissions,
    SubmissionQueries.getPendingSubmissions.
  fold pendingOfTrack.
  set (sorted := LeaderboardService.Array_sort _ _) in *.
  split; [| split].
  - intros items.
    destruct (SubmissionQueries.traverse _ sorted) as [result |] eqn:Htr;
      [| discriminate].
    intros E. apply Responded_inj in E. injection E as <-. split.
    + rewrite (traverse_map _ SubmissionQueries.l_id Daily.sub_id _ _
                 (fun s it H => proj1 (listedPending_fields _ _ _ _ H)) Htr).
      now apply Permutation_map.
    + rewrite (traverse_map _ SubmissionQueries.l_createdAt
                 (fun s => createdAt (Daily.sub_id s)) _ _
                 (fun s it H => proj2 (proj2 (listedPending_fields _ _ _ _ H)))
                 Htr).
      exact Hsorted.
  - intros Husers.
    destruct (traverse_defined (SubmissionQueries.listedPending createdAt db)
                sorted) as [items Hitems].
    { intros s Hs. apply (Permutation_in _ Hperm) in Hs. apply filter_In in Hs.
      destruct Hs as [Hs _]. specialize (Husers s Hs).
      unfold SubmissionQueries.listedPending.
      destruct (SubmissionQueries.User_findById (Daily.userId s) db);
        [discriminate | contradiction]. }
    rewrite Hitems. now exists items.
  - intros items. unfold Rbac.requireTrackAdmin.
    destruct (Track_findById trackId (Daily.tracks db)) as [track |];
      [| intros E; apply Responded_inj in E; discriminate E].
    destruct (findOrgAdmin userId (organizationId track)
                           (Daily.organizationMemberships db)) as [m |] eqn:Hm;
      [| intros E; apply Responded_inj in E; discriminate E].
    intros _. exists track. split; [reflexivity | rewrite Hm; discriminate].
Qed.

(** [getSubmission] shows a submission only to its author and to the
    owners and admins of the track's organization: a 200 answer carries
    the submission asked for and implies one of the two; the author and
    the admins do get it; anybody else gets 403. *)
Theorem getSubmission_access (createdAt : Z -> Z) (userId id : Z)
    (db : Daily.Db) :
  (forall body,
     SubmissionQueries.getSubmission createdAt userId id db
     = Responded (sendSuccess body 200) ->
     SubmissionQueries.l_id body = id /\
     exists submission track,
       Daily.Submission_findById id db = Some submission /\
       Track_findById (Daily.trackId submission) (Daily.tracks db) = Some track /\
       (SubmissionQueries.isAdmin userId (organizationId track) db = true \/
        Daily.userId submission = userId)) /\
  (forall submission track,
     Daily.Submission_findById id db = Some submission ->
     Track_findById (Daily.trackId submission) (Daily.tracks db) = Some track ->
     SubmissionQueries.User_findById (Daily.userId submission) db <> None ->
     (SubmissionQueries.isAdmin userId (organizationId track) db = true \/
      Daily.userId submission = userId ->
      exists body,
        SubmissionQueries.getSubmission createdAt userId id db
        = Responded (sendSuccess body 200)) /\
     (SubmissionQueries.isAdmin userId (organizationId track) db = false ->
      Daily.userId submission <> userId ->
      SubmissionQueries.getSubmission createdAt userId id db
      = Responded (sendError "Access denied" 403))).
Proof.
  unfold SubmissionQueries.getSubmission. split.
  - intros body.
    destruct (Daily.Submission_findById id db) as [submission |] eqn:Hs;
      [| intros E; apply Responded_inj in E; discriminate E].
    destruct (Track_findById _ (Daily.tracks db)) as [track |] eqn:Ht;
      [| intros E; apply Responded_inj in E; discriminate E].
    destruct (SubmissionQueries.User_findById _ db) as [author |] eqn:Ha;
      [| discriminate].
    pose proof Ha as Hid. unfold SubmissionQueries.User_findById in Hid.
    apply find_some in Hid. destruct Hid as [_ Hid]. apply Z.eqb_eq in Hid.
    destruct (SubmissionQueries.isAdmin userId (organizationId track) db) eqn:Had;
      destruct (Z.eqb_spec (user_id author) userId) as [Eo | No];
      cbn [negb andb];
      try (intros E; apply Responded_inj in E; discriminate E);
      (destruct (SubmissionQueries.listed createdAt db submission) as [b |] eqn:Hb;
       [| discriminate]);
      intros E; apply Responded_inj in E; injection E as <-;
      (split;
       [rewrite (proj1 (listed_fields _ _ _ _ Hb));
        now apply Submission_findById_id with (db := db)
       | exists submission, track; repeat split; auto; right; congruence]).
  - intros submission track Hs Ht Ha. rewrite Hs, Ht.
    destruct (SubmissionQueries.User_findById _ db) as [author |] eqn:Hau;
      [| contradiction].
    pose proof Hau as Hid. unfold SubmissionQueries.User_findById in Hid.
    apply find_some in Hid. destruct Hid as [_ Hid]. apply Z.eqb_eq in Hid.
    unfold SubmissionQueries.listed. rewrite Hau.
    split.
    + intros [Hadmin | Hown].
      * rewrite Hadmin. cbn [negb andb]. eexists. reflexivity.
      * replace (user_id author =? userId) with true
          by (symmetry; apply Z.eqb_eq; congruence).
        rewrite andb_false_r. eexists. reflexivity.
    + intros Hadmin Hother. rewrite Hadmin.
      replace (user_id author =? userId) with false
        by (symmetry; apply Z.eqb_neq; congruence).
      reflexivity.
Qed.

Lemma two_of_at_most_one {A : Type} (l : list A) (x y : A) :
  (List.length l <= 1)%nat -> In x l -> In y l -> x = y.
Proof.
  destruct l as [| a [| b l]]; cbn; intros Hlen Hx Hy; try lia; try contradiction.
  destruct Hx as [<- | []]. destruct Hy as [<- | []]. reflexivity.
Qed.

(** The two ways the handlers decide that a caller administers an
    organization agree when a user has one membership per organization:
    reading the caller's membership and looking at its role
    ([listSubmissions], [getSubmission]) holds exactly when a membership
    with role owner or admin is found ([verifySubmission],
    [requireTrackAdmin]), and exactly when [requireOrgRole('owner',
    'admin')] lets the request pass. *)
Theorem admin_checks_agree (userId orgId : Z) (db : Daily.Db) :
  Members.oneRolePerOrganization db ->
  (SubmissionQueries.isAdmin userId orgId db = true <->
   findOrgAdmin userId orgId (Daily.organizationMemberships db) <> None) /\
  (SubmissionQueries.isAdmin userId orgId db = true <->
   exists m, Rbac.requireOrgRole [org_owner; org_admin] orgId (Some userId) db
             = Rbac.Next m).
Proof.
  intros Hone. unfold Members.oneRolePerOrganization in Hone.
  unfold SubmissionQueries.isAdmin, Rbac.requireOrgRole,
    Rbac.OrganizationMembership_findOne, findOrgAdmin.
  set (oms := Daily.organizationMemberships db) in *.
  set (p := fun m => (om_userId m =? userId) && (om_organizationId m =? orgId)).
  set (q := fun m => (om_userId m =? userId) && (om_organizationId m =? orgId)
                     && match om_role m with
                        | org_owner | org_admin => true
                        | org_member => false
                        end).
  assert (Hq : forall m, q m = true ->
                         p m = true /\ om_role m <> org_member).
  { intros m H. unfold q in H. apply andb_prop in H. destruct H as [H1 H2].
    split; [exact H1 | intros E; rewrite E in H2; discriminate]. }
  pose proof (filter_at_most_one
                (fun m => (om_userId m, om_organizationId m)) p (userId, orgId) oms)
    as Hle.
  specialize (Hle ltac:(intros m H; apply andb_prop in H; destruct H as [H1 H2];
                        apply Z.eqb_eq in H1, H2; cbv beta; now rewrite H1, H2)
                  Hone).
  split.
  - destruct (find p oms) as [m |] eqn:Hm.
    + destruct (find_some _ _ Hm) as [Hin Hpm].
      split.
      * intros Hrole.
        destruct (find q oms) eqn:Hf; [discriminate |].
        pose proof (find_none _ _ Hf m Hin) as Hno. unfold q in Hno.
        fold (p m) in Hno. rewrite Hpm in Hno.
        destruct (om_role m); discriminate.
      * intros Hf.
        destruct (find q oms) as [m' |] eqn:Hm'; [| contradiction].
        destruct (find_some _ _ Hm') as [Hin' Hqm'].
        destruct (Hq _ Hqm') as [Hp' Hrole'].
        assert (E : m = m').
        { apply (two_of_at_most_one (filter p oms)); [exact Hle | |];
            apply filter_In; split; assumption. }
        subst m'. destruct (om_role m); [reflexivity | reflexivity | contradiction].
    + split; [discriminate |].
      intros Hf. destruct (find q oms) as [m' |] eqn:Hm'; [| contradiction].
      destruct (find_some _ _ Hm') as [Hin' Hqm'].
      destruct (Hq _ Hqm') as [Hp' _].
      pose proof (find_none _ _ Hm m' Hin') as Hno. congruence.
  - destruct (find p oms) as [m |].
    + destruct (om_role m); cbn; split; intros H;
        try reflexivity; try discriminate; try (eexists; reflexivity);
        destruct H as [m' H]; discriminate H.
    + split; [discriminate | intros [m' H]; discriminate H].
Qed.

Lemma admin_checks_agree_witness :
  SubmissionQueries.isAdmin 7 1 Samples.dbTied = true <->
  findOrgAdmin 7 1 (Daily.organizationMemberships Samples.dbTied) <> None.
Proof.
  apply (admin_checks_agree 7 1 Samples.dbTied).
  unfold Members.oneRolePerOrganization. cbn.
  repeat constructor. intros [].
Defined.

Lemma NoDup_map_injective {A K : Type} (key : A -> K) (l : list A) (a b : A) :
  NoDup (map key l) -> In a l -> In b l -> key a = key b -> a = b.
Proof.
  induction l as [| x l IH]; cbn [map In]; [contradiction |].
  intros Hnd Ha Hb E. inversion Hnd as [| k ks Hnotin Hnd']; subst.
  destruct Ha as [-> | Ha], Hb as [-> | Hb].
  - reflexivity.
  - exfalso. apply Hnotin. rewrite E. now apply in_map.
  - exfalso. apply Hnotin. rewrite <- E. now apply in_map.
  - now apply IH.
Qed.

Lemma find_found {A : Type} (f : A -> bool) (l : list A) (x : A) :
  In x l -> f x = true -> find f l <> None.
Proof.
  intros Hin Hx Hnone. pose proof (find_none _ _ Hnone x Hin). congruence.
Qed.

(** Saving a membership under its own id, user and track keeps every
    pair (user, track) that had a membership. *)
Lemma TrackMembership_save_keeps (m m' : Daily.TrackMembership) (db : Daily.Db)
    (u t : Z) :
  NoDup (map Daily.tm_id (Daily.trackMemberships db)) ->
  In m (Daily.trackMemberships db) ->
  Daily.tm_id m' = Daily.tm_id m ->
  Daily.tm_userId m' = Daily.tm_userId m ->
  Daily.tm_trackId m' = Daily.tm_trackId m ->
  Daily.TrackMembership_findOne u t db <> None ->
  Daily.TrackMembership_findOne u t (Daily.TrackMembership_save m' db) <> None.
Proof.
  unfold Daily.TrackMembership_findOne, Daily.TrackMembership_save.
  cbn [Daily.trackMemberships].
  intros Hnd Hin Hid Hu Ht Hfound.
  destruct (find _ (Daily.trackMemberships db)) as [m0 |] eqn:Hm0;
    [| contradiction].
  destruct (find_some _ _ Hm0) as [Hin0 Hp0].
  apply find_found
    with (x := if Daily.tm_id m0 =? Daily.tm_id m' then m' else m0).
  - apply (in_map (fun x => if Daily.tm_id x =? Daily.tm_id m' then m' else x)).
    exact Hin0.
  - destruct (Z.eqb_spec (Daily.tm_id m0) (Daily.tm_id m')) as [E | _];
      [| exact Hp0].
    assert (m0 = m)
      by (apply (NoDup_map_injective Daily.tm_id (Daily.trackMemberships db));
          auto; congruence).
    subst m0. now rewrite Hu, Ht.
Qed.

Lemma TrackMembership_save_ids (m m' : Daily.TrackMembership) (db : Daily.Db) :
  Daily.tm_id m' = Daily.tm_id m ->
  map Daily.tm_id (Daily.trackMemberships (Daily.TrackMembership_save m' db))
  = map Daily.tm_id (Daily.trackMemberships db).
Proof.
  intros _. unfold Daily.TrackMembership_save. cbn [Daily.trackMemberships].
  rewrite map_map. apply map_ext. intros x.
  destruct (Z.eqb_spec (Daily.tm_id x) (Daily.tm_id m')); congruence.
Qed.

Lemma authorsAreMembers_save (s s' : Daily.Submission) (db : Daily.Db) :
  In s (Daily.submissions db) ->
  Daily.userId s' = Daily.userId s ->
  Daily.trackId s' = Daily.trackId s ->
  Members.authorsAreMembers db ->
  Members.authorsAreMembers (Daily.Submission_save s' db).
Proof.
  intros Hin Hu Ht [Hnd Hall]. split; [exact Hnd |].
  unfold Daily.Submission_save. cbn [Daily.submissions].
  intros x Hx. apply in_map_iff in Hx. destruct Hx as (x0 & <- & Hx0).
  unfold Daily.TrackMembership_findOne. cbn [Daily.trackMemberships].
  destruct (Daily.sub_id x0 =? Daily.sub_id s').
  - rewrite Hu, Ht. now apply Hall.
  - now apply Hall.
Qed.

Lemma authorsAreMembers_streak (m m' : Daily.TrackMembership) (db : Daily.Db) :
  In m (Daily.trackMemberships db) ->
  Daily.tm_id m' = Daily.tm_id m ->
  Daily.tm_userId m' = Daily.tm_userId m ->
  Daily.tm_trackId m' = Daily.tm_trackId m ->
  Members.authorsAreMembers db ->
  Members.authorsAreMembers (Daily.TrackMembership_save m' db).
Proof.
  intros Hin Hid Hu Ht [Hnd Hall]. split.
  - rewrite (TrackMembership_save_ids m m' db Hid). exact Hnd.
  - intros s Hs. apply (TrackMembership_save_keeps m); auto.
Qed.

(** Every stored submission was written by a member of its track, and
    stays so: the route of [createSubmission] stores a submission only
    behind [requireTrackMember], and [verifySubmission] rewrites
    documents under their own user and track.  Hence the membership
    whose streak an approval updates is always found. *)
Theorem authors_stay_members (tz : Z) (io : Writes)
    (now newId userId trackId : Z) (description proofUrl proofType : string)
    (verifierId id : Z) (status : string) (db : Daily.Db) :
  Members.authorsAreMembers db ->
  Members.authorsAreMembers
    (snd (SubmissionQueries.routeCreateSubmission tz now newId userId trackId
            description proofUrl proofType db)) /\
  Members.authorsAreMembers
    (snd (Daily.verifySubmission tz io now verifierId id status db)) /\
  (forall submission,
     Daily.Submission_findById id db = Some submission ->
     Daily.TrackMembership_findOne (Daily.userId submission)
                                   (Daily.trackId submission) db <> None).
Proof.
  intros Hinv. split; [| split].
  - unfold SubmissionQueries.routeCreateSubmission, Rbac.requireTrackMember.
    destruct (Daily.TrackMembership_findOne userId trackId db) as [m |] eqn:Hm;
      [| exact Hinv].
    daily_create_cases; try exact Hinv.
    destruct Hinv as [Hnd Hall]. split; [exact Hnd |].
    unfold Daily.Submission_create. cbn [Daily.submissions].
    intros s Hs. apply in_app_or in Hs. destruct Hs as [Hs | [<- | []]].
    + now apply Hall.
    + cbn [Daily.userId Daily.trackId].
      unfold Daily.TrackMembership_findOne in *. cbn [Daily.trackMemberships].
      rewrite Hm. discriminate.
  - verify_cases; try exact Hinv;
      match goal with
      | H : Daily.Submission_findById id db = Some ?s |- _ =>
          assert (Hin : In s (Daily.submissions db))
            by (apply find_some in H; exact (proj1 H))
      end;
      try match goal with
          | H : Daily.TrackMembership_findOne _ _ db = Some ?m |- _ =>
              assert (Hmin : In m (Daily.trackMemberships db))
                by (apply find_some in H; exact (proj1 H))
          end.
    all: try (eapply authorsAreMembers_save;
              [ | | | eapply authorsAreMembers_streak; eauto ];
              cbn [Daily.Submission_save Daily.TrackMembership_save
                   Daily.submissions]; eauto).
    all: try (eapply authorsAreMembers_streak; eauto).
    all: try (eapply authorsAreMembers_save; eauto).
  - intros submission Hs. apply find_some in Hs. destruct Hs as [Hin _].
    now apply (proj2 Hinv).
Qed.

Lemma authors_stay_members_witness :
  Members.authorsAreMembers
    (snd (Daily.verifySubmission 0 allWritesSucceed 1705500000000 7 100
            "approved" Samples.dbPending)).
Proof.
  apply (authors_stay_members 0 allWritesSucceed 1705500000000 101 5 1
           "ran ten kilometres" "https://example.org/run.png" "image"
           7 100 "approved" Samples.dbPending).
  split.
  - cbn. repeat constructor. intros [].
  - intros s [<- | []]. cbn. discriminate.
Defined.

(** ** The weekly edition of verifySubmission and createSubmission *)

Lemma Weekly_Submission_findById_save (id : Z) (db : Weekly.Db)
    (old new : Weekly.Submission) :
  Weekly.Submission_findById id db = Some old ->
  Weekly.sub_id new = id ->
  Weekly.Submission_findById id (Weekly.Submission_save new db) = Some new.
Proof.
  unfold Weekly.Submission_findById, Weekly.Submission_save.
  cbn [Weekly.submissions]. intros Hold Hid. subst id.
  rewrite (find_map_replace Weekly.sub_id new), Hold. reflexivity.
Qed.

Lemma Weekly_Submission_findById_id (id : Z) (db : Weekly.Db)
    (s : Weekly.Submission) :
  Weekly.Submission_findById id db = Some s -> Weekly.sub_id s = id.
Proof.
  unfold Weekly.Submission_findById. intros H.
  apply find_some in H. destruct H as [_ H]. now apply Z.eqb_eq.
Qed.

(** The weekly handler has neither a guard on the submission's status
    nor a check of the caller's role: for every stored submission whose
    track exists, pending or already decided, a rejection by any caller
    answers 200 when the save succeeds, and the stored submission
    becomes rejected with that caller as verifier; its score stays. *)
Theorem Weekly_decision_not_final (tz : Z) (io : Writes)
    (now verifierId id : Z) (score : option Q) (db : Weekly.Db)
    (submission : Weekly.Submission) (track : Track) :
  Weekly.Submission_findById id db = Some submission ->
  Track_findById (Weekly.trackId submission) (Weekly.tracks db) = Some track ->
  submissionSaveFails io = false ->
  fst (Weekly.verifySubmission tz io now verifierId id "rejected" score db)
  = Responded
      (sendSuccess
         (Weekly.mkVerified id rejected (Weekly.score submission) (Some now))
         200) /\
  Weekly.Submission_findById id
    (snd (Weekly.verifySubmission tz io now verifierId id "rejected" score db))
  = Some (Weekly.setDecision submission rejected verifierId now).
Proof.
  intros Hs Ht Hio. unfold Weekly.verifySubmission.
  rewrite (proj1 decision_rejected), (proj2 decision_rejected).
  cbn [negb]. rewrite Hs, Ht, Hio. cbn [fst snd].
  pose proof (Weekly_Submission_findById_id _ _ _ Hs) as Hid.
  split.
  - cbn [Weekly.setDecision Weekly.sub_id Weekly.status Weekly.score
         Weekly.verifiedAt]. now rewrite Hid.
  - now apply Weekly_Submission_findById_save with (old := submission).
Qed.

Lemma Weekly_decision_not_final_witness :
  Weekly.Submission_findById 100
    (snd (Weekly.verifySubmission 0 allWritesSucceed 1705600000000 9 100
            "rejected" None Samples.weeklyDbApproved))
  = Some (Weekly.setDecision Samples.weeklyApproved rejected 9 1705600000000).
Proof.
  apply (Weekly_decision_not_final 0 allWritesSucceed 1705600000000 9 100 None
           Samples.weeklyDbApproved Samples.weeklyApproved Samples.track1);
    reflexivity.
Defined.

Lemma Qlt_bool_false (x y : Q) : Qlt_bool x y = false -> (y <= x)%Q.
Proof.
  unfold Qlt_bool. intros H. apply negb_false_iff in H.
  now apply Qle_bool_iff.
Qed.

(** For a request whose [score] is a number or is missing, an approval
    of the weekly edition succeeds only with a score inside the track's
    range, bounds included, and stores exactly that score: a 200 answer
    means the request carried a number between [minScore] and
    [maxScore], and the stored submission is approved with it.  (The
    handler does not test the type of [score]; other values are not
    covered.) *)
Theorem Weekly_approve_score_in_range (tz : Z) (io : Writes)
    (now verifierId id : Z) (score : option Q) (db : Weekly.Db)
    (body : Weekly.Verified) :
  fst (Weekly.verifySubmission tz io now verifierId id "approved" score db)
  = Responded (sendSuccess body 200) ->
  exists q submission track,
    score = Some q /\
    Weekly.Submission_findById id db = Some submission /\
    Track_findById (Weekly.trackId submission) (Weekly.tracks db) = Some track /\
    (minScore track <= q)%Q /\ (q <= maxScore track)%Q /\
    Weekly.v_score body = Some q /\
    Weekly.v_status body = approved /\
    Weekly.Submission_findById id
      (snd (Weekly.verifySubmission tz io now verifierId id "approved" score db))
    = Some (Weekly.setDecision (Weekly.setScore submission q) approved
                               verifierId now).
Proof.
  unfold Weekly.verifySubmission.
  rewrite (proj1 decision_approved), (proj2 decision_approved).
  cbn [negb].
  destruct (Weekly.Submission_findById id db) as [submission |] eqn:Hs;
    [| intros E; apply Responded_inj in E; discriminate E].
  destruct (Track_findById _ (Weekly.tracks db)) as [track |] eqn:Ht;
    [| intros E; apply Responded_inj in E; discriminate E].
  destruct score as [q |];
    [| intros E; apply Responded_inj in E; discriminate E].
  destruct (Qlt_bool q (minScore track) || Qlt_bool (maxScore track) q) eqn:Hrange;
    [intros E; apply Responded_inj in E; discriminate E |].
  apply orb_false_elim in Hrange. destruct Hrange as [Hmin Hmax].
  apply Qlt_bool_false in Hmin, Hmax.
  pose proof (Weekly_Submission_findById_id _ _ _ Hs) as Hid.
  destruct (Weekly.TrackMembership_findOne _ _ db) as [membership |];
    [destruct (membershipSaveFails io); [discriminate |] |];
    (destruct (submissionSaveFails io); [discriminate |]);
    cbn [fst snd]; intros E; apply Responded_inj in E;
    injection E as <-;
    exists q, submission, track;
    cbn [Weekly.v_score Weekly.v_status Weekly.setDecision Weekly.setScore
         Weekly.score Weekly.status];
    (repeat split; try assumption; try reflexivity).
  - apply Weekly_Submission_findById_save with (old := submission);
      [exact Hs | exact Hid].
  - apply Weekly_Submission_findById_save with (old := submission);
      [exact Hs | exact Hid].
Qed.

Lemma Weekly_approve_score_in_range_witness :
  exists q submission track,
    Some 7%Q = Some q /\
    Weekly.Submission_findById 100 Samples.weeklyDbApproved = Some submission /\
    Track_findById (Weekly.trackId submission)
                   (Weekly.tracks Samples.weeklyDbApproved) = Some track /\
    (minScore track <= q)%Q /\ (q <= maxScore track)%Q /\
    Weekly.v_score
      (Weekly.mkVerified 100 approved (Some 7%Q) (Some 1705600000000)) = Some q /\
    Weekly.v_status
      (Weekly.mkVerified 100 approved (Some 7%Q) (Some 1705600000000)) = approved /\
    Weekly.Submission_findById 100
      (snd (Weekly.verifySubmission 0 allWritesSucceed 1705600000000 7 100
              "approved" (Some 7%Q) Samples.weeklyDbApproved))
    = Some (Weekly.setDecision (Weekly.setScore submission q) approved
                               7 1705600000000).
Proof.
  apply (Weekly_approve_score_in_range 0 allWritesSucceed 1705600000000 7 100
           (Some 7%Q) Samples.weeklyDbApproved).
  reflexivity.
Defined.

(** ** Writing, then reading *)

Open Scope Z_scope.

(** A submission that [createSubmission] has just stored can be read
    back by its author: when the answer is 201, the new id was not in
    use and the author has a user document, [getSubmission] answers 200
    with that id and author, status pending, no score and no verifier,
    and a week from [weekStart] to [weekEnd] that contains the moment
    of the submission. *)
Theorem created_submission_can_be_read (tz : Z) (createdAt : Z -> Z)
    (now newId userId trackId : Z) (description proofUrl proofType : string)
    (db : Daily.Db) :
  statusCode (fst (Daily.createSubmission tz now newId userId trackId
                     description proofUrl proofType db)) = 201 ->
  Daily.Submission_findById newId db = None ->
  SubmissionQueries.User_findById userId db <> None ->
  (forall t, In t (Daily.tracks db) -> 0 <= weekStartDay t <= 6) ->
  exists body,
    SubmissionQueries.getSubmission createdAt userId newId
      (snd (Daily.createSubmission tz now newId userId trackId
              description proofUrl proofType db))
    = Responded (sendSuccess body 200) /\
    SubmissionQueries.l_id body = newId /\
    user_id (SubmissionQueries.l_user body) = userId /\
    SubmissionQueries.l_status body = Some pending /\
    SubmissionQueries.l_score body = None /\
    SubmissionQueries.l_verifiedBy body = None /\
    SubmissionQueries.l_description body = trim description /\
    SubmissionQueries.l_weekStart body <= now <= SubmissionQueries.l_weekEnd body.
Proof.
  daily_create_cases;
    cbn [statusCode sendError sendNotFound sendCreated sendSuccess];
    intros Hcode Hfresh Huser Hdays; try discriminate.
  match goal with
  | H : Track_findById trackId (Daily.tracks db) = Some ?t |- _ =>
      rename H into Htrack; rename t into track
  end.
  destruct (SubmissionQueries.User_findById userId db) as [author |] eqn:Hauthor;
    [| contradiction].
  pose proof Hauthor as Hid. unfold SubmissionQueries.User_findById in Hid.
  apply find_some in Hid. destruct Hid as [_ Hid]. apply Z.eqb_eq in Hid.
  assert (Hday : 0 <= weekStartDay track <= 6).
  { apply Hdays. unfold Track_findById in Htrack.
    apply find_some in Htrack. exact (proj1 Htrack). }
  unfold SubmissionQueries.getSubmission, SubmissionQueries.listed.
  unfold Daily.Submission_findById, Daily.Submission_create.
  cbn [Daily.submissions].
  unfold Daily.Submission_findById in Hfresh.
  rewrite (find_app_new _ _ _ Hfresh) by (cbn [Daily.sub_id]; apply Z.eqb_refl).
  cbn [Daily.trackId Daily.userId Daily.tracks Daily.users].
  rewrite Htrack.
  unfold SubmissionQueries.User_findById in *. cbn [Daily.users].
  rewrite Hauthor.
  replace (user_id author =? userId) with true
    by (symmetry; now apply Z.eqb_eq).
  rewrite andb_false_r.
  eexists. split; [reflexivity |].
  cbn [SubmissionQueries.l_id SubmissionQueries.l_user
       SubmissionQueries.l_status SubmissionQueries.l_score
       SubmissionQueries.l_verifiedBy SubmissionQueries.l_description
       SubmissionQueries.l_weekStart SubmissionQueries.l_weekEnd
       Daily.sub_id Daily.status Daily.score Daily.description
       Daily.weekStart Daily.weekEnd Daily.verifiedBy
       SubmissionQueries.populateVerifiedBy].
  repeat split; try reflexivity; try assumption;
    apply (week_contains_instant now (weekStartDay track) Hday).
Qed.

Lemma created_submission_can_be_read_witness :
  exists body,
    SubmissionQueries.getSubmission (fun id => id) 1 300
      (snd (Daily.createSubmission 0 1705600000000 300 1 1
              "walked twenty kilometres" "https://example.org/walk.png" "image"
              Samples.dbTied))
    = Responded (sendSuccess body 200) /\
    SubmissionQueries.l_id body = 300 /\
    user_id (SubmissionQueries.l_user body) = 1 /\
    SubmissionQueries.l_status body = Some pending /\
    SubmissionQueries.l_score body = None /\
    SubmissionQueries.l_verifiedBy body = None /\
    SubmissionQueries.l_description body = trim "walked twenty kilometres" /\
    SubmissionQueries.l_weekStart body <= 1705600000000
      <= SubmissionQueries.l_weekEnd body.
Proof.
  apply (created_submission_can_be_read 0 (fun id => id) 1705600000000 300 1 1
           "walked twenty kilometres" "https://example.org/walk.png" "image"
           Samples.dbTied).
  - reflexivity.
  - reflexivity.
  - discriminate.
  - intros t [<- | []]. cbn. lia.
Defined.

(** ** The schema behind the weekly createSubmission *)







(** * The handlers of both editions *)

Open Scope Z_scope.

(** ** The streak update inside verifySubmission *)

(** After [save()] of a document that keeps its id and still matches
    the query, the query finds the saved document. *)
Lemma find_map_replace_first {A : Type} (p : A -> bool) (key : A -> Z)
    (x x' : A) (l : list A) :
  find p l = Some x -> key x' = key x -> p x' = true ->
  find p (map (fun y => if key y =? key x' then x' else y) l) = Some x'.
Proof.
  intros Hfind Hkey Hp. induction l as [| y l IH]; [discriminate |].
  cbn [find map] in *.
  destruct (Z.eqb_spec (key y) (key x')) as [E | N].
  - now rewrite Hp.
  - destruct (p y) eqn:Hy.
    + injection Hfind as ->. congruence.
    + now apply IH.
Qed.

Lemma Daily_updateStreak_fields (tz : Z) (m : Daily.TrackMembership) (date : Z) :
  let m' := Daily.updateStreak tz m date in
  Daily.tm_id m' = Daily.tm_id m /\
  Daily.tm_userId m' = Daily.tm_userId m /\
  Daily.tm_trackId m' = Daily.tm_trackId m /\
  Daily.role m' = Daily.role m /\
  Daily.longestStreak m'
  = Z.max (Daily.longestStreak m) (Daily.currentStreak m').
Proof.
  cbv zeta. unfold Daily.updateStreak.
  cbn [Daily.tm_id Daily.tm_userId Daily.tm_trackId Daily.role
       Daily.longestStreak Daily.currentStreak].
  repeat split.
  match goal with
  | |- context [?a <? ?b] => destruct (Z.ltb_spec a b)
  end; lia.
Qed.

Lemma Weekly_updateStreak_fields (tz : Z) (m : Weekly.TrackMembership)
    (weekStart weekStartDay : Z) :
  let m' := Weekly.updateStreak tz m weekStart weekStartDay in
  Weekly.tm_id m' = Weekly.tm_id m /\
  Weekly.tm_userId m' = Weekly.tm_userId m /\
  Weekly.tm_trackId m' = Weekly.tm_trackId m /\
  Weekly.role m' = Weekly.role m /\
  Weekly.longestStreak m'
  = Z.max (Weekly.longestStreak m) (Weekly.currentStreak m').
Proof.
  cbv zeta. unfold Weekly.updateStreak.
  cbn [Weekly.tm_id Weekly.tm_userId Weekly.tm_trackId Weekly.role
       Weekly.longestStreak Weekly.currentStreak].
  repeat split.
  match goal with
  | |- context [?a <? ?b] => destruct (Z.ltb_spec a b)
  end; lia.
Qed.

(** The week start of the helper is a local midnight, whatever the week
    start day. *)
Lemma Helpers_weekStart_local_midnight (tz date d : Z) :
  TimeWithinDay (LocalTime tz (fst (Helpers.getWeekBoundaries tz date d))) = 0.
Proof.
  unfold Helpers.getWeekBoundaries. cbn [fst]. rewrite setHours_midnight.
  unfold LocalTime, TimeWithinDay, MakeDate, msPerDay.
  Z.div_mod_to_equations. lia.
Qed.

(** An approval of the weekly edition that passes the guards stores the
    membership that [updateStreak] computes from the submission's week
    and the track's week start day. *)
Lemma Weekly_approve_applies_updateStreak (tz : Z) (io : Writes)
    (now verifierId id : Z) (q : Q) (db : Weekly.Db)
    (submission : Weekly.Submission) (track : Track)
    (membership : Weekly.TrackMembership) :
  Weekly.Submission_findById id db = Some submission ->
  Track_findById (Weekly.trackId submission) (Weekly.tracks db) = Some track ->
  (minScore track <= q)%Q -> (q <= maxScore track)%Q ->
  Weekly.TrackMembership_findOne (Weekly.userId submission)
                                 (Weekly.trackId submission) db
    = Some membership ->
  membershipSaveFails io = false ->
  Weekly.trackMemberships
    (snd (Weekly.verifySubmission tz io now verifierId id "approved"
                                  (Some q) db))
  = Weekly.trackMemberships
      (Weekly.TrackMembership_save
         (Weekly.updateStreak tz membership (Weekly.weekStart submission)
                              (weekStartDay track))
         db).
Proof.
  intros Hfind Htrack Hmin Hmax Hm Hsave.
  unfold Weekly.verifySubmission.
  rewrite (proj1 decision_approved), (proj2 decision_approved).
  rewrite Hfind, Htrack. cbn [negb].
  assert (Hrange : Qlt_bool q (minScore track) || Qlt_bool (maxScore track) q
                   = false).
  { unfold Qlt_bool.
    rewrite (proj2 (Qle_bool_iff _ _) Hmin), (proj2 (Qle_bool_iff _ _) Hmax).
    reflexivity. }
  rewrite Hrange.
  cbn [Weekly.setScore Weekly.userId Weekly.trackId Weekly.weekStart].
  rewrite Hm, Hsave.
  destruct (submissionSaveFails io); reflexivity.
Qed.

(** C1. The streak update of [verifySubmission], as the handler applies
    and saves it, in the daily and in the weekly edition.  An approval
    that reaches the update stores, for the submission's user and track,
    a membership whose [currentStreak] is the old one plus 1 when the
    last activity marker falls on the local day before the submission's
    day (reads midnight of the local day seven days before the start of
    the submission's week), the old one when the marker falls on the
    submission's own day (is that week start), and 1 in every other
    case, a gap or no marker yet;
    whose [longestStreak] is the larger of the old one and the new
    [currentStreak], so it never decreases; and whose marker is the
    submission's normalized day (week start).  Local time is the host's,
    at a constant offset from UTC. *)
Theorem streak_update_rule (tz : Z) :
  (forall (io : Writes) (now verifierId id : Z) (db : Daily.Db)
          (submission : Daily.Submission) (track : Track)
          (m : Daily.TrackMembership),
     Daily.Submission_findById id db = Some submission ->
     Daily.status submission = pending ->
     Track_findById (Daily.trackId submission) (Daily.tracks db) = Some track ->
     findOrgAdmin verifierId (organizationId track)
                  (Daily.organizationMemberships db) <> None ->
     Daily.TrackMembership_findOne (Daily.userId submission)
                                   (Daily.trackId submission) db = Some m ->
     membershipSaveFails io = false ->
     let eventDay := Day (LocalTime tz (Daily.submissionDate submission)) in
     let markerDay :=
       option_map (fun last => Day (LocalTime tz last))
                  (Daily.lastSubmissionDate m) in
     exists m',
       Daily.TrackMembership_findOne
         (Daily.userId submission) (Daily.trackId submission)
         (snd (Daily.verifySubmission tz io now verifierId id "approved" db))
       = Some m' /\
       (markerDay = Some (eventDay - 1) ->
        Daily.currentStreak m' = Daily.currentStreak m + 1) /\
       (markerDay = Some eventDay ->
        Daily.currentStreak m' = Daily.currentStreak m) /\
       (markerDay <> Some (eventDay - 1) -> markerDay <> Some eventDay ->
        Daily.currentStreak m' = 1) /\
       Daily.longestStreak m'
       = Z.max (Daily.longestStreak m) (Daily.currentStreak m') /\
       Daily.longestStreak m <= Daily.longestStreak m' /\
       Daily.lastSubmissionDate m'
       = Some (setHours tz (Daily.submissionDate submission) 0 0 0 0) /\
       Daily.tm_id m' = Daily.tm_id m /\
       Daily.role m' = Daily.role m) /\
  (forall (io : Writes) (now verifierId id : Z) (q : Q) (db : Weekly.Db)
          (submission : Weekly.Submission) (track : Track)
          (m : Weekly.TrackMembership),
     Weekly.Submission_findById id db = Some submission ->
     Track_findById (Weekly.trackId submission) (Weekly.tracks db)
     = Some track ->
     (minScore track <= q)%Q -> (q <= maxScore track)%Q ->
     Weekly.TrackMembership_findOne (Weekly.userId submission)
                                    (Weekly.trackId submission) db = Some m ->
     membershipSaveFails io = false ->
     let week :=
       fst (Helpers.getWeekBoundaries tz (Weekly.weekStart submission)
                                      (weekStartDay track)) in
     let marker := Weekly.lastSubmissionWeek m in
     let markerReading :=
       option_map (fun last => (Day (LocalTime tz last),
                                TimeWithinDay (LocalTime tz last)))
                  marker in
     let previousWeek := (Day (LocalTime tz week) - 7, 0) in
     exists m',
       Weekly.TrackMembership_findOne
         (Weekly.userId submission) (Weekly.trackId submission)
         (snd (Weekly.verifySubmission tz io now verifierId id "approved"
                                       (Some q) db))
       = Some m' /\
       (markerReading = Some previousWeek ->
        Weekly.currentStreak m' = Weekly.currentStreak m + 1) /\
       (marker = Some week ->
        Weekly.currentStreak m' = Weekly.currentStreak m) /\
       (markerReading <> Some previousWeek -> marker <> Some week ->
        Weekly.currentStreak m' = 1) /\
       Weekly.longestStreak m'
       = Z.max (Weekly.longestStreak m) (Weekly.currentStreak m') /\
       Weekly.longestStreak m <= Weekly.longestStreak m' /\
       Weekly.lastSubmissionWeek m' = Some week /\
       Weekly.tm_id m' = Weekly.tm_id m /\
       Weekly.role m' = Weekly.role m).
Proof.
  split.
  - intros io now verifierId id db submission track m
           Hfind Hpending Htrack Hadmin Hm Hsave eventDay markerDay.
    destruct (Daily_updateStreak_fields tz m (Daily.submissionDate submission))
      as (Hid & Hu & Ht & Hrole & Hmax).
    destruct (Daily_updateStreak_cases tz m (Daily.submissionDate submission))
      as (Hnext & Hsame & Hgap & Hlong & Hmarker).
    cbv zeta in Hnext, Hsame, Hgap, Hlong, Hmarker.
    set (m' := Daily.updateStreak tz m (Daily.submissionDate submission)) in *.
    assert (Hkey : (Daily.tm_userId m =? Daily.userId submission)
                   && (Daily.tm_trackId m =? Daily.trackId submission) = true).
    { unfold Daily.TrackMembership_findOne in Hm.
      apply find_some in Hm. exact (proj2 Hm). }
    exists m'. split.
    + unfold Daily.TrackMembership_findOne.
      rewrite (approve_applies_updateStreak tz io now verifierId id db
                 submission track m Hfind Htrack Hadmin Hpending Hm Hsave).
      fold m'. unfold Daily.TrackMembership_save. cbn [Daily.trackMemberships].
      apply (find_map_replace_first _ Daily.tm_id m m');
        [exact Hm | exact Hid | now rewrite Hu, Ht].
    + assert (Hday : forall t, setHours tz t 0 0 0 0
                               = Day (LocalTime tz t) * msPerDay - tz)
        by (intros t; unfold setHours, UTC, LocalTime, MakeDate, MakeTime; lia).
      assert (Hprev : markerDay = Some (eventDay - 1) <->
                      option_map (fun last => setHours tz last 0 0 0 0)
                                 (Daily.lastSubmissionDate m)
                      = Some (setHours tz (Daily.submissionDate submission)
                                       0 0 0 0 - msPerDay)).
      { subst markerDay eventDay.
        destruct (Daily.lastSubmissionDate m) as [last |]; cbn [option_map];
          [| split; discriminate].
        rewrite !Hday. unfold msPerDay.
        split; intros H; injection H as H; f_equal; lia. }
      assert (Hsameday : markerDay = Some eventDay <->
                         option_map (fun last => setHours tz last 0 0 0 0)
                                    (Daily.lastSubmissionDate m)
                         = Some (setHours tz (Daily.submissionDate submission)
                                          0 0 0 0)).
      { subst markerDay eventDay.
        destruct (Daily.lastSubmissionDate m) as [last |]; cbn [option_map];
          [| split; discriminate].
        rewrite !Hday. unfold msPerDay.
        split; intros H; injection H as H; f_equal; lia. }
      repeat split; try assumption.
      * intros H. apply Hnext, Hprev, H.
      * intros H. apply Hsame, Hsameday, H.
      * intros H1 H2. apply Hgap.
        -- intros H. apply H1, Hprev, H.
        -- intros H. apply H2, Hsameday, H.
  - intros io now verifierId id q db submission track m
           Hfind Htrack Hmin Hmax Hm Hsave week marker markerReading
           previousWeek.
    destruct (Weekly_updateStreak_fields tz m (Weekly.weekStart submission)
                                         (weekStartDay track))
      as (Hid & Hu & Ht & Hrole & Hlongest).
    destruct (Weekly_updateStreak_cases tz m (Weekly.weekStart submission)
                                        (weekStartDay track))
      as (Hnext & Hsame & Hgap & Hlong & Hmarker).
    cbv zeta in Hnext, Hsame, Hgap, Hlong, Hmarker.
    set (m' := Weekly.updateStreak tz m (Weekly.weekStart submission)
                                   (weekStartDay track)) in *.
    fold week in Hnext, Hsame, Hgap, Hmarker.
    fold marker in Hnext, Hsame, Hgap.
    assert (Hkey : (Weekly.tm_userId m =? Weekly.userId submission)
                   && (Weekly.tm_trackId m =? Weekly.trackId submission)
                   = true).
    { unfold Weekly.TrackMembership_findOne in Hm.
      apply find_some in Hm. exact (proj2 Hm). }
    exists m'. split.
    + unfold Weekly.TrackMembership_findOne.
      rewrite (Weekly_approve_applies_updateStreak tz io now verifierId id q db
                 submission track m Hfind Htrack Hmin Hmax Hm Hsave).
      fold m'. unfold Weekly.TrackMembership_save.
      cbn [Weekly.trackMemberships].
      apply (find_map_replace_first _ Weekly.tm_id m m');
        [exact Hm | exact Hid | now rewrite Hu, Ht].
    + assert (Hprev : markerReading = Some previousWeek <->
                      marker = Some (week - 7 * msPerDay)).
      { pose proof (Helpers_weekStart_local_midnight
                      tz (Weekly.weekStart submission) (weekStartDay track))
          as Hmidnight.
        fold week in Hmidnight. subst markerReading previousWeek.
        destruct marker as [last |]; cbn [option_map]; [| split; discriminate].
        unfold LocalTime, Day, TimeWithinDay, msPerDay in *.
        split; intros H; injection H; intros; f_equal.
        - Z.div_mod_to_equations. lia.
        - subst last. f_equal; Z.div_mod_to_equations; lia. }
      repeat split; try assumption.
      * intros H. apply Hnext, Hprev, H.
      * intros H1 H2. apply Hgap; [| exact H2].
        intros H. apply H1, Hprev, H.
Qed.

(** A streak of 2 whose marker is 2024-01-16 and the approval of the
    submission for 2024-01-17 (host in UTC): the stored streak is 3. *)
Lemma streak_update_rule_witness :
  exists m',
    Daily.TrackMembership_findOne 5 1
      (snd (Daily.verifySubmission 0 allWritesSucceed 1705509000000 7 100
                                   "approved" Samples.dbStreak2))
    = Some m' /\
    Daily.currentStreak m' = 3.
Proof.
  destruct (streak_update_rule 0) as [Hdaily _].
  destruct (Hdaily allWritesSucceed 1705509000000 7 100 Samples.dbStreak2
                   Samples.pendingSubmission Samples.track1
                   (Daily.mkTrackMembership 50 5 1 track_member 2 2
                                            (Some 1705363200000))
                   eq_refl eq_refl eq_refl ltac:(discriminate)
                   eq_refl eq_refl)
    as (m' & Hfind & Hnext & _).
  exists m'. split; [exact Hfind |].
  rewrite Hnext; reflexivity.
Defined.

(** ** The two getWeekBoundaries *)

(** The helper of src/utils returns the week of the week service for
    the local reading of the date, moved back to UTC. *)
Lemma Helpers_getWeekBoundaries_shifted (tz date d : Z) :
  0 <= d <= 6 ->
  fst (Helpers.getWeekBoundaries tz date d)
  = WeekService.wb_start (WeekService.getWeekBoundaries (date + tz) d) - tz /\
  snd (Helpers.getWeekBoundaries tz date d)
  = WeekService.wb_end (WeekService.getWeekBoundaries (date + tz) d) - tz.
Proof.
  intros Hd.
  destruct (Helpers_getWeekBoundaries_local tz date d Hd) as [Hs He].
  cbv zeta in He.
  assert (Hstart : fst (Helpers.getWeekBoundaries tz date d)
                   = WeekService.wb_start
                       (WeekService.getWeekBoundaries (date + tz) d) - tz).
  { rewrite Hs, getWeekBoundaries_start_day by exact Hd.
    unfold WeekDay. f_equal. f_equal. f_equal.
    Z.div_mod_to_equations. lia. }
  split; [exact Hstart |].
  rewrite He, Hstart, getWeekBoundaries_end. lia.
Qed.

(** C3. For every instant and every week start day [d] in 0..6: the
    week service's [getWeekBoundaries] returns a start that is a UTC
    midnight on weekday [d], the midnight of the instant moved back by
    [(weekdayOf(instant) - d) mod 7] days, which is the most recent such
    midnight not after the midnight of the instant, and an end equal to
    the start plus seven days minus one millisecond; the helper
    [getWeekBoundaries] of src/utils returns the same in the host's
    local time: a local midnight on local weekday [d], the most recent
    one not after the local midnight of the instant, and the end seven
    days minus one millisecond later.  Local time is the host's, at a
    constant offset from UTC. *)
Theorem getWeekBoundaries_week (tz instant d : Z) :
  0 <= d <= 6 ->
  (let b := WeekService.getWeekBoundaries instant d in
   let midnight := setUTCHours instant 0 0 0 0 in
   TimeWithinDay (WeekService.wb_start b) = 0 /\
   WeekDay (WeekService.wb_start b) = d /\
   WeekService.wb_start b =
     midnight - ((WeekDay instant - d) mod 7) * msPerDay /\
   WeekService.wb_start b <= midnight /\
   (forall s, TimeWithinDay s = 0 -> WeekDay s = d -> s <= midnight ->
              s <= WeekService.wb_start b) /\
   WeekService.wb_end b = WeekService.wb_start b + 7 * msPerDay - 1) /\
  (let h := Helpers.getWeekBoundaries tz instant d in
   let midnight := setHours tz instant 0 0 0 0 in
   TimeWithinDay (LocalTime tz (fst h)) = 0 /\
   WeekDay (LocalTime tz (fst h)) = d /\
   fst h = midnight - ((WeekDay (LocalTime tz instant) - d) mod 7) * msPerDay /\
   fst h <= midnight /\
   (forall s, TimeWithinDay (LocalTime tz s) = 0 ->
              WeekDay (LocalTime tz s) = d -> s <= midnight ->
              s <= fst h) /\
   snd h = fst h + 7 * msPerDay - 1).
Proof.
  intros Hd. split; [exact (WeekService_getWeekBoundaries_week instant d Hd) |].
  intros h midnight. subst h midnight.
  destruct (Helpers_getWeekBoundaries_shifted tz instant d Hd) as [Hs He].
  destruct (WeekService_getWeekBoundaries_week (instant + tz) d Hd)
    as (H0 & Hday & Hstart & Hle & Hlatest & Hend).
  cbv zeta in H0, Hday, Hstart, Hle, Hlatest, Hend.
  assert (Hmid : setHours tz instant 0 0 0 0
                 = setUTCHours (instant + tz) 0 0 0 0 - tz)
    by (rewrite setHours_midnight, setUTCHours_midnight; reflexivity).
  unfold LocalTime. rewrite Hs, He, Hmid.
  replace (WeekService.wb_start
             (WeekService.getWeekBoundaries (instant + tz) d) - tz + tz)
    with (WeekService.wb_start
            (WeekService.getWeekBoundaries (instant + tz) d)) by lia.
  split; [exact H0 |]. split; [exact Hday |].
  split; [rewrite Hstart; lia |]. split; [lia |].
  split; [| rewrite Hend; lia].
  intros s Hs0 Hsd Hsle.
  specialize (Hlatest (s + tz) Hs0 Hsd). lia.
Qed.

(** The property at 2024-01-17T15:30Z, a Wednesday, for a Monday start,
    on a host one hour east of UTC. *)
Lemma getWeekBoundaries_week_witness :
  WeekService.wb_start (WeekService.getWeekBoundaries 1705505400000 1)
    = 1705276800000 /\
  fst (Helpers.getWeekBoundaries 3600000 1705505400000 1)
    = 1705276800000 - 3600000.
Proof.
  pose proof (getWeekBoundaries_week 3600000 1705505400000 1 ltac:(lia)) as H.
  cbv zeta in H. destruct H as [(_ & _ & Hstart & _) (_ & _ & Hlocal & _)].
  split; [rewrite Hstart | rewrite Hlocal]; reflexivity.
Defined.

(** C3, as the claim has it, fails for the helper of src/utils: on a
    host one hour east of UTC the week of Wednesday 2024-01-17, for a
    Monday start, begins on Sunday 2024-01-14 at 23:00 UTC, which is
    neither a UTC midnight nor a Monday in UTC. *)
Lemma getWeekBoundaries_helper_not_utc_midnight :
  fst (Helpers.getWeekBoundaries 3600000 1705505400000 1) = 1705273200000 /\
  TimeWithinDay (fst (Helpers.getWeekBoundaries 3600000 1705505400000 1))
  = 82800000 /\
  WeekDay (fst (Helpers.getWeekBoundaries 3600000 1705505400000 1)) = 0.
Proof. repeat split. Qed.

(** ** The three getStreakMultiplier *)

Open Scope Q_scope.

Lemma getStreakMultiplier_offset_monotone (s s' : Z) :
  (s <= s')%Z ->
  Helpers.getStreakMultiplier_offset s <= Helpers.getStreakMultiplier_offset s'.
Proof.
  intros Hle. destruct (Z_le_gt_dec s 0) as [Hs | Hs].
  - assert (E : Helpers.getStreakMultiplier_offset s = 1).
    { unfold Helpers.getStreakMultiplier_offset.
      destruct (Z.leb_spec s 0); [reflexivity | lia]. }
    rewrite E. destruct (Z_le_gt_dec s' 0) as [Hs' | Hs'].
    + unfold Helpers.getStreakMultiplier_offset.
      destruct (Z.leb_spec s' 0); [lra | lia].
    + rewrite (getStreakMultiplier_offset_exact s' ltac:(lia)).
      pose proof (Qle_one_inject s' ltac:(lia)).
      apply Q.min_glb; lra.
  - rewrite (getStreakMultiplier_offset_exact s ltac:(lia)),
      (getStreakMultiplier_offset_exact s' ltac:(lia)).
    assert (inject_Z s <= inject_Z s') by (rewrite <- Zle_Qle; lia).
    apply Q.min_le_compat_r. lra.
Qed.

(** C4. Each of the three editions of [getStreakMultiplier] is 1 for a
    streak that is not positive, follows its own formula for a positive
    streak ([min(1 + streak * 0.12, 3)] in the first,
    [min(1.12 + (streak - 1) * 0.1, 3)] in the second, whose rounding to
    hundredths changes nothing in exact arithmetic, and
    [min(1 + streak * 0.1, 2)] in the third), never decreases when the
    streak grows, and never exceeds its own cap, which it reaches at a
    streak of 10,000. *)
Theorem getStreakMultiplier_spec :
  (forall s : Z,
     Helpers.getStreakMultiplier s ==
       (if (s <=? 0)%Z then 1 else Qmin (1 + inject_Z s * (12 # 100)) 3) /\
     Helpers.getStreakMultiplier_offset s ==
       (if (s <=? 0)%Z then 1
        else Qmin ((112 # 100) + (inject_Z s - 1) * (1 # 10)) 3) /\
     Helpers.getStreakMultiplier_weekly s ==
       (if (s <=? 0)%Z then 1 else Qmin (1 + inject_Z s * (1 # 10)) 2)) /\
  (forall s s' : Z,
     (s <= s')%Z ->
     Helpers.getStreakMultiplier s <= Helpers.getStreakMultiplier s' /\
     Helpers.getStreakMultiplier_offset s
       <= Helpers.getStreakMultiplier_offset s' /\
     Helpers.getStreakMultiplier_weekly s
       <= Helpers.getStreakMultiplier_weekly s') /\
  (forall s : Z,
     Helpers.getStreakMultiplier s <= 3 /\
     Helpers.getStreakMultiplier_offset s <= 3 /\
     Helpers.getStreakMultiplier_weekly s <= 2) /\
  Helpers.getStreakMultiplier 10000 == 3 /\
  Helpers.getStreakMultiplier_offset 10000 == 3 /\
  Helpers.getStreakMultiplier_weekly 10000 == 2.
Proof.
  split; [| split; [| split; [| split; [| split]]]].
  - intros s. split; [| split].
    + apply getStreakMultiplier_daily_spec.
    + destruct (Z.leb_spec s 0) as [Hs | Hs].
      * unfold Helpers.getStreakMultiplier_offset.
        destruct (Z.leb_spec s 0); [reflexivity | lia].
      * now apply getStreakMultiplier_offset_exact.
    + unfold Helpers.getStreakMultiplier_weekly.
      destruct (s <=? 0)%Z; reflexivity.
  - intros s s' Hle. split; [| split].
    + now apply getStreakMultiplier_monotone.
    + now apply getStreakMultiplier_offset_monotone.
    + now apply getStreakMultiplier_weekly_monotone.
  - intros s. split; [| split].
    + apply getStreakMultiplier_bounds.
    + apply getStreakMultiplier_offset_cap.
    + apply getStreakMultiplier_weekly_bounds.
  - reflexivity.
  - rewrite (getStreakMultiplier_offset_exact 10000 ltac:(lia)). reflexivity.
  - reflexivity.
Qed.

(** C4, as the claim has it, fails for the second and the third edition:
    at a streak of 2 the formula of the claim gives 1.24 where they give
    1.22 and 1.2, and at a streak of 10,000 the third edition stops at
    its own cap of 2. *)
Lemma getStreakMultiplier_formula_of_first_only :
  Qmin (1 + inject_Z 2 * (12 # 100)) 3 == 124 # 100 /\
  Helpers.getStreakMultiplier_offset 2 == 122 # 100 /\
  Helpers.getStreakMultiplier_weekly 2 == 12 # 10 /\
  Qmin (1 + inject_Z 10000 * (12 # 100)) 3 == 3 /\
  Helpers.getStreakMultiplier_weekly 10000 == 2.
Proof. repeat split. Qed.

Close Scope Q_scope.

(** ** A second decision *)

(** C5. The second decision on a decided submission, evaluated in both
    editions.  The daily [verifySubmission] refuses a rejection of the
    approved submission 100 and leaves the database as it was, but sends
    the refusal with status 400, where [createSubmission] answers a
    second submission of the day with 409.  The weekly
    [verifySubmission] accepts the rejection of the approved submission
    100: it answers 200 and the stored status, verifier and decision
    time are those of the second decision. *)
Theorem verify_decided_divergence :
  Daily.verifySubmission 0 allWritesSucceed 1705600000000 7 100
                         "rejected" Samples.dbApproved
  = (Responded (sendError "Submission has already been verified" 400),
     Samples.dbApproved) /\
  statusCode (fst (Daily.createSubmission 0 1705505400000 101 5 1
                     "ran ten kilometres again" "https://example.org/2.png"
                     "image" Samples.dbPending)) = 409 /\
  Weekly.verifySubmission 0 allWritesSucceed 1705600000000 7 100
                          "rejected" None Samples.weeklyDbApproved
  = (Responded
       (sendSuccess
          (Weekly.mkVerified 100 rejected (Some 7%Q) (Some 1705600000000)) 200),
     Weekly.mkDb [] [Samples.track1] [Samples.owner7]
       [Weekly.mkTrackMembership 50 5 1 track_member 1 1 (Some 1705276800000)]
       [Weekly.mkSubmission 100 5 1 1705276800000 1705881599999
          "ran ten kilometres" "https://example.org/run.png" image
          rejected (Some 7%Q) (Some 7) (Some 1705600000000)]).
Proof. repeat split. Qed.

(** ** A rejection *)

(** C9. For a pending submission, [verifySubmission] with the decision
    [rejected] leaves the memberships, hence every streak field, as they
    were, whatever else happens, in both editions; and when the handler
    reaches the save and the save succeeds, the stored submission is
    rejected with the verifier and the decision time, and its score is 0
    in the daily edition and the score it had (none for a submission
    that was never scored) in the weekly edition. *)
Theorem reject_keeps_streak (tz : Z) (io : Writes) (now verifierId id : Z) :
  (forall (db : Daily.Db) (submission : Daily.Submission),
     Daily.Submission_findById id db = Some submission ->
     Daily.status submission = pending ->
     let result :=
       Daily.verifySubmission tz io now verifierId id "rejected" db in
     Daily.trackMemberships (snd result) = Daily.trackMemberships db /\
     (forall track,
        Track_findById (Daily.trackId submission) (Daily.tracks db)
        = Some track ->
        findOrgAdmin verifierId (organizationId track)
                     (Daily.organizationMemberships db) <> None ->
        submissionSaveFails io = false ->
        fst result =
          Responded (sendSuccess
                       (Daily.mkVerified id rejected (Some 0%Q) (Some now))
                       200) /\
        exists stored,
          Daily.Submission_findById id (snd result) = Some stored /\
          Daily.status stored = rejected /\
          Daily.score stored = Some 0%Q /\
          Daily.verifiedBy stored = Some verifierId /\
          Daily.verifiedAt stored = Some now)) /\
  (forall (score : option Q) (db : Weekly.Db) (submission : Weekly.Submission),
     Weekly.Submission_findById id db = Some submission ->
     Weekly.status submission = pending ->
     let result :=
       Weekly.verifySubmission tz io now verifierId id "rejected" score db in
     Weekly.trackMemberships (snd result) = Weekly.trackMemberships db /\
     (forall track,
        Track_findById (Weekly.trackId submission) (Weekly.tracks db)
        = Some track ->
        submissionSaveFails io = false ->
        fst result =
          Responded (sendSuccess
                       (Weekly.mkVerified id rejected (Weekly.score submission)
                                          (Some now))
                       200) /\
        exists stored,
          Weekly.Submission_findById id (snd result) = Some stored /\
          Weekly.status stored = rejected /\
          Weekly.score stored = Weekly.score submission /\
          Weekly.verifiedBy stored = Some verifierId /\
          Weekly.verifiedAt stored = Some now)).
Proof.
  split.
  - intros db submission Hfind Hpending.
    exact (Daily_reject_keeps_streak tz io now verifierId id db submission
             Hfind Hpending).
  - intros score db submission Hfind _ result. subst result.
    pose proof (Weekly_Submission_findById_id _ _ _ Hfind) as Hid.
    unfold Weekly.verifySubmission.
    rewrite (proj1 decision_rejected), (proj2 decision_rejected).
    cbn [negb]. rewrite Hfind.
    destruct (Track_findById _ (Weekly.tracks db)) as [track |] eqn:Htrack.
    + split.
      * destruct (submissionSaveFails io); reflexivity.
      * intros track' Htrack' Hsave. rewrite Hsave. cbn [fst snd].
        split.
        -- cbn [Weekly.setDecision Weekly.sub_id Weekly.status Weekly.score
                Weekly.verifiedAt]. now rewrite Hid.
        -- eexists. split.
           ++ apply Weekly_Submission_findById_save with (old := submission);
                [exact Hfind | exact Hid].
           ++ cbn. repeat split.
    + split; [reflexivity | intros track' Htrack'; discriminate Htrack'].
Qed.

(** The rejection of the pending submission 100 by the owner 7, in the
    daily edition: the membership is as it was. *)
Lemma reject_keeps_streak_witness :
  Daily.trackMemberships
    (snd (Daily.verifySubmission 0 allWritesSucceed 1705505400000 7 100
                                 "rejected" Samples.dbPending))
  = [Samples.freshMembership].
Proof.
  destruct (reject_keeps_streak 0 allWritesSucceed 1705505400000 7 100)
    as [Hdaily _].
  destruct (Hdaily Samples.dbPending Samples.pendingSubmission
                   eq_refl eq_refl) as [H _].
  rewrite H. reflexivity.
Defined.

(** C9, as the claim has it, fails in the weekly edition: the rejection
    of the pending submission 100 stores it as rejected, with verifier
    and decision time, and with no score instead of the score 0. *)
Lemma Weekly_reject_leaves_score_unset :
  Weekly.verifySubmission 0 allWritesSucceed 1705600000000 7 100
                          "rejected" None Samples.weeklyDbPending
  = (Responded
       (sendSuccess
          (Weekly.mkVerified 100 rejected None (Some 1705600000000)) 200),
     Weekly.mkDb [] [Samples.track1] [Samples.owner7]
       [Weekly.mkTrackMembership 50 5 1 track_member 1 1 (Some 1704672000000)]
       [Weekly.mkSubmission 100 5 1 1705276800000 1705881599999
          "ran ten kilometres" "https://example.org/run.png" image
          rejected None (Some 7) (Some 1705600000000)]).
Proof. reflexivity. Qed.

(** In the weekly edition a rejection changes neither a membership nor a
    score, whether it succeeds or not: when the stored submissions have
    distinct ids, every submission has after the call the id and the
    score it had before. *)
Theorem Weekly_reject_keeps_streak (tz : Z) (io : Writes)
    (now verifierId id : Z) (score : option Q) (db : Weekly.Db) :
  NoDup (map Weekly.sub_id (Weekly.submissions db)) ->
  let db' :=
    snd (Weekly.verifySubmission tz io now verifierId id "rejected" score db) in
  Weekly.trackMemberships db' = Weekly.trackMemberships db /\
  map (fun s => (Weekly.sub_id s, Weekly.score s)) (Weekly.submissions db')
  = map (fun s => (Weekly.sub_id s, Weekly.score s)) (Weekly.submissions db).
Proof.
  intros Hnd db'. subst db'. unfold Weekly.verifySubmission.
  rewrite (proj1 decision_rejected), (proj2 decision_rejected).
  cbn [negb].
  destruct (Weekly.Submission_findById id db) as [submission |] eqn:Hfind;
    [| split; reflexivity].
  destruct (Track_findById _ _); [| split; reflexivity].
  destruct (submissionSaveFails io); [split; reflexivity |].
  cbn [fst snd Weekly.Submission_save Weekly.trackMemberships
       Weekly.submissions].
  split; [reflexivity |].
  rewrite map_map. apply map_ext_in. intros s Hs.
  cbn [Weekly.setDecision Weekly.sub_id].
  destruct (Z.eqb_spec (Weekly.sub_id s) (Weekly.sub_id submission)) as [E | N];
    [| reflexivity].
  assert (s = submission).
  { apply (NoDup_map_injective Weekly.sub_id (Weekly.submissions db));
      [exact Hnd | exact Hs | | exact E].
    unfold Weekly.Submission_findById in Hfind.
    apply find_some in Hfind. exact (proj1 Hfind). }
  subst s. reflexivity.
Qed.

Lemma Weekly_reject_keeps_streak_witness :
  map (fun s => (Weekly.sub_id s, Weekly.score s))
      (Weekly.submissions
         (snd (Weekly.verifySubmission 0 allWritesSucceed 1705600000000 7 100
                                       "rejected" None
                                       Samples.weeklyDbApproved)))
  = [(100, Some 7%Q)].
Proof.
  apply (Weekly_reject_keeps_streak 0 allWritesSucceed 1705600000000 7 100 None
           Samples.weeklyDbApproved).
  cbn. repeat constructor. intros [].
Defined.
